(** * ebpH userspace structures: a shallow embedding of [ebph/structs.py]
      and [ebph/libebph/__init__.py]

    The Python code is embedded as Rocq functions.  Integers held in ctypes
    fields are [Z] with the wrap-around of the field's C type written out,
    [bytes] objects are [list byte], [str] objects are [string], Python
    exceptions are the [Raise] branch of an error monad, and the BPF maps
    reached through [bpf['...']] are finite maps ([gmap]) keyed by the
    64-bit profile key. *)

From Stdlib Require Import ZArith List String Ascii Bool Lia.
From Stdlib.Strings Require Import Byte.
From Stdlib Require Import DecimalString.
From stdpp Require Import base option list gmap strings.

Local Open Scope string_scope.
Local Open Scope list_scope.
Local Open Scope Z_scope.

#[global] Instance byte_eq_decision : EqDecision byte.
Proof.
  intros x y. destruct (Byte.eqb x y) eqn:E.
  - left. by apply byte_dec_bl.
  - right. by apply eqb_false.
Defined.

(* ===================================================================== *)
(** ** Python values, exceptions and the error monad *)
(* ===================================================================== *)

Module Py.

(** The exception classes the embedded code can meet.  The first nine are
    [Exception] and classes derived from it; [KeyboardInterrupt],
    [SystemExit] and [GeneratorExit] derive from [BaseException] only, so
    an [except Exception] clause lets them through. *)
Inductive exn : Type :=
| KeyError
| IndexError
| ValueError
| TypeError
| AttributeError
| AssertionError
| RuntimeError
| UnicodeEncodeError
| Exception
| KeyboardInterrupt
| SystemExit
| GeneratorExit.

(** [isinstance(e, Exception)] *)
Definition is_Exception (e : exn) : bool :=
  match e with
  | KeyboardInterrupt | SystemExit | GeneratorExit => false
  | _ => true
  end.

Inductive result (A : Type) : Type :=
| Ok (a : A)
| Raise (e : exn).

Arguments Ok {A} a.
Arguments Raise {A} e.

Definition bind {A B : Type} (m : result A) (k : A -> result B) : result B :=
  match m with
  | Ok a => k a
  | Raise e => Raise e
  end.

(** [try: body] followed by [except Exception: return value]: an
    exception that is an [Exception] is replaced by the value, any other
    one propagates. *)
Definition except_Exception {A : Type} (body : result A) (value : A) : result A :=
  match body with
  | Ok a => Ok a
  | Raise e => if is_Exception e then Ok value else Raise e
  end.

(** [assert b] *)
Definition assert (b : bool) : result unit :=
  if b then Ok tt else Raise AssertionError.

(** The values an attribute of a Python object may hold, as far as
    [__eq__] can tell them apart.  [VStruct] is a nested
    [EBPHProfileDataStruct], which compares its flags one by one and is
    unequal to anything without [flags].  [VOpaque r] is an object of some
    other class (one without [flags]): comparing an int or bytes with it by
    [==] inside an [assert] has the outcome [r] (its reflected [__eq__] and
    [__bool__] decide, and either may raise any exception). *)
Inductive value : Type :=
| VInt (z : Z)
| VBytes (b : list byte)
| VNone
| VStruct (flags : list Z)
| VOpaque (r : result bool).

(** [a == b] followed by the truth test of [assert]. *)
Definition eq_truth (a b : value) : result bool :=
  match a, b with
  | VStruct x, VStruct y => Ok (bool_decide (x = y))
  | VStruct _, _ => Ok false
  | VOpaque r, _ => r
  | _, VOpaque r => r
  | VInt x, VInt y => Ok (x =? y)
  | VBytes x, VBytes y => Ok (bool_decide (x = y))
  | VNone, VNone => Ok true
  | _, _ => Ok false
  end.

End Py.

Import Py.

Notation "'let*' x ':=' m 'in' k" := (Py.bind m (fun x => k))
  (at level 10, x name, m at level 100, k at level 200, only parsing).

(* ===================================================================== *)
(** ** ctypes: C types, their sizes and the values their fields hold *)
(* ===================================================================== *)

Module ct.

Local Unset Elimination Schemes.
Inductive ctype : Type :=
| c_uint8
| c_uint32
| c_uint64
| c_int
| c_char
| c_char_p
| c_array (elt : ctype) (len : Z)          (* [elt * len] *)
| Structure (fields : list (string * ctype)).
Local Set Elimination Schemes.

Definition align_up (off a : Z) : Z := ((off + a - 1) / a) * a.

(** Native alignment and size (LP64), as [ctypes.Structure] lays fields
    out when no [_pack_] is given. *)
Fixpoint alignment (t : ctype) : Z :=
  match t with
  | c_uint8 | c_char => 1
  | c_uint32 | c_int => 4
  | c_uint64 | c_char_p => 8
  | c_array elt _ => alignment elt
  | Structure fields =>
      (fix go (fs : list (string * ctype)) : Z :=
         match fs with
         | [] => 1
         | (_, t') :: fs' => Z.max (alignment t') (go fs')
         end) fields
  end.

Fixpoint sizeof (t : ctype) : Z :=
  match t with
  | c_uint8 | c_char => 1
  | c_uint32 | c_int => 4
  | c_uint64 | c_char_p => 8
  | c_array elt len => sizeof elt * len
  | Structure fields =>
      align_up
        ((fix go (off : Z) (fs : list (string * ctype)) : Z :=
            match fs with
            | [] => off
            | (_, t') :: fs' => go (align_up off (alignment t') + sizeof t') fs'
            end) 0 fields)
        (alignment (Structure fields))
  end.

(** Byte offset of every field of a structure, in declaration order. *)
Fixpoint offsets_from (off : Z) (fields : list (string * ctype)) : list (string * Z) :=
  match fields with
  | [] => []
  | (name, t) :: fs =>
      let o := align_up off (alignment t) in
      (name, o) :: offsets_from (o + sizeof t) fs
  end.

Definition offsets (fields : list (string * ctype)) : list (string * Z) :=
  offsets_from 0 fields.

(** The declared type of a field. *)
Definition field_type (fields : list (string * ctype)) (name : string) : option ctype :=
  snd <$> find (fun f => String.eqb (fst f) name) fields.

(** Storing a Python int into an unsigned field keeps its low bits. *)
Definition unsigned (bits : Z) (z : Z) : Z := z mod 2 ^ bits.
(** A signed field or result reads them back in two's complement. *)
Definition signed (bits : Z) (z : Z) : Z :=
  (z + 2 ^ (bits - 1)) mod 2 ^ bits - 2 ^ (bits - 1).

Definition uint8 (z : Z) : Z := unsigned 8 z.
Definition uint32 (z : Z) : Z := unsigned 32 z.
Definition uint64 (z : Z) : Z := unsigned 64 z.
Definition int (z : Z) : Z := signed 32 z.

(** The value of a [c_char] array read through its field: the bytes
    before the first NUL. *)
Fixpoint c_string (buf : list byte) : list byte :=
  match buf with
  | [] => []
  | b :: rest => if Byte.eqb b x00 then [] else b :: c_string rest
  end.

(** [memcpy(dst, src, n)] on byte buffers held as lists: the first [n]
    bytes of [src] (as many as it holds) replace those of [dst]. *)
Definition memcpy {A : Type} (dst src : list A) (n : nat) : list A :=
  take n src ++ drop (length (take n src)) dst.

(** Assigning [bytes] to a [c_char * cap] field: the string is cut at its
    first NUL, copied with the terminator when there is room for it,
    copied bare when it fills the field exactly, and refused when longer. *)
Definition set_char_array (cap : nat) (buf value : list byte) : result (list byte) :=
  let data := c_string value in
  let size := length data in
  if (size <? cap)%nat then Ok (memcpy buf (data ++ [x00]) (S size))
  else if (size =? cap)%nat then Ok (memcpy buf data size)
  else Raise ValueError.

End ct.

(* ===================================================================== *)
(** ** The [enum] module: members numbered by [auto()] *)
(* ===================================================================== *)

Module enum.

Inductive member_value : Type :=
| auto
| explicit (z : Z).

(** [auto()] in an [IntEnum] is the previous member's value plus one
    (1 when there is no previous member). *)
Fixpoint members_from (last : option Z) (decl : list (string * member_value))
  : list (string * Z) :=
  match decl with
  | [] => []
  | (name, v) :: rest =>
      let z := match v with
               | explicit z => z
               | auto => match last with Some l => l + 1 | None => 1 end
               end in
      (name, z) :: members_from (Some z) rest
  end.

Definition members (decl : list (string * member_value)) : list (string * Z) :=
  members_from None decl.

(** [@unique]: a [ValueError] when two members share a value. *)
Definition unique (ms : list (string * Z)) : result (list (string * Z)) :=
  if bool_decide (NoDup (map snd ms)) then Ok ms else Raise ValueError.

(** [Cls(num)]: the member with that value, or [ValueError]. *)
Definition call (ms : list (string * Z)) (num : Z) : result (string * Z) :=
  match find (fun m => snd m =? num) ms with
  | Some m => Ok m
  | None => Raise ValueError
  end.

Definition name (m : string * Z) : string := fst m.

Definition lookup_name (ms : list (string * Z)) (n : string) : option Z :=
  snd <$> find (fun m => String.eqb (fst m) n) ms.

End enum.

(** [str.lower()] on a string of code points below 256: the letters A-Z
    (65-90) and the capital letters of Latin-1 (192-214 and 216-222) go to
    their lower-case forms, 32 higher; every other character, the
    multiplication sign 215 among them, stays. *)
Definition lower_char (c : ascii) : ascii :=
  let n := nat_of_ascii c in
  if ((65 <=? n) && (n <=? 90) || (192 <=? n) && (n <=? 214) || (216 <=? n) && (n <=? 222))%nat
  then ascii_of_nat (n + 32)
  else c.

Fixpoint lower (s : string) : string :=
  match s with
  | EmptyString => EmptyString
  | String c s' => String (lower_char c) (lower s')
  end.

(* ===================================================================== *)
(** ** [structs.py]: the enumerations *)
(* ===================================================================== *)

Import enum.

(** [class EBPH_PROFILE_STATUS(IntFlag)] *)
Definition EBPH_PROFILE_STATUS_decl : list (string * member_value) :=
  [ ("TRAINING", explicit 0x1);
    ("FROZEN", explicit 0x2);
    ("NORMAL", explicit 0x4) ].

Definition EBPH_PROFILE_STATUS : list (string * Z) :=
  members EBPH_PROFILE_STATUS_decl.

Definition TRAINING : Z := default 0 (lookup_name EBPH_PROFILE_STATUS "TRAINING").
Definition FROZEN : Z := default 0 (lookup_name EBPH_PROFILE_STATUS "FROZEN").
Definition NORMAL : Z := default 0 (lookup_name EBPH_PROFILE_STATUS "NORMAL").

(** [class EBPH_SETTINGS(IntEnum)] *)
Definition EBPH_SETTINGS_decl : list (string * member_value) :=
  [ ("MONITORING", explicit 0);
    ("LOG_SEQUENCES", auto);
    ("NORMAL_WAIT", auto);
    ("NORMAL_FACTOR", auto);
    ("NORMAL_FACTOR_DEN", auto);
    ("ANOMALY_LIMIT", auto);
    ("TOLERIZE_LIMIT", auto);
    ("ENFORCING", auto) ].

Definition EBPH_SETTINGS : list (string * Z) := members EBPH_SETTINGS_decl.

(** [class EBPH_LSM(IntEnum)] *)
Definition EBPH_LSM_decl : list (string * member_value) :=
  [ ("BPRM_CHECK_SECURITY", explicit 0);
    ("TASK_ALLOC", auto); ("TASK_FREE", auto); ("TASK_SETPGID", auto);
    ("TASK_GETPGID", auto); ("TASK_GETSID", auto); ("TASK_SETNICE", auto);
    ("TASK_SETIOPRIO", auto); ("TASK_GETIOPRIO", auto); ("TASK_PRLIMIT", auto);
    ("TASK_SETRLIMIT", auto); ("TASK_SETSCHEDULER", auto);
    ("TASK_GETSCHEDULER", auto); ("TASK_MOVEMEMORY", auto); ("TASK_KILL", auto);
    ("TASK_PRCTL", auto); ("SB_STATFS", auto); ("SB_MOUNT", auto);
    ("SB_REMOUNT", auto); ("SB_UMOUNT", auto); ("SB_PIVOTROOT", auto);
    ("MOVE_MOUNT", auto); ("INODE_CREATE", auto); ("INODE_LINK", auto);
    ("INODE_SYMLINK", auto); ("INODE_MKDIR", auto); ("INODE_RMDIR", auto);
    ("INODE_MKNOD", auto); ("INODE_RENAME", auto); ("INODE_READLINK", auto);
    ("INODE_FOLLOW_LINK", auto); ("INODE_PERMISSION", auto);
    ("INODE_SETATTR", auto); ("INODE_GETATTR", auto); ("INODE_SETXATTR", auto);
    ("INODE_GETXATTR", auto); ("INODE_LISTXATTR", auto);
    ("INODE_REMOVEXATTR", auto); ("FILE_PERMISSION", auto); ("FILE_IOCTL", auto);
    ("MMAP_ADDR", auto); ("MMAP_FILE", auto); ("FILE_MPROTECT", auto);
    ("FILE_LOCK", auto); ("FILE_FCNTL", auto); ("FILE_SEND_SIGIOTASK", auto);
    ("FILE_RECEIVE", auto); ("UNIX_STREAM_CONNECT", auto);
    ("UNIX_MAY_SEND", auto); ("SOCKET_CREATE", auto);
    ("SOCKET_SOCKETPAIR", auto); ("SOCKET_BIND", auto); ("SOCKET_CONNECT", auto);
    ("SOCKET_LISTEN", auto); ("SOCKET_ACCEPT", auto); ("SOCKET_SENDMSG", auto);
    ("SOCKET_RECVMSG", auto); ("SOCKET_GETSOCKNAME", auto);
    ("SOCKET_GETPEERNAME", auto); ("SOCKET_GETSOCKOPT", auto);
    ("SOCKET_SETSOCKOPT", auto); ("SOCKET_SHUTDOWN", auto);
    ("TUN_DEV_CREATE", auto); ("TUN_DEV_ATTACH", auto); ("KEY_ALLOC", auto);
    ("KEY_FREE", auto); ("KEY_PERMISSION", auto); ("IPC_PERMISSION", auto);
    ("MSG_QUEUE_ASSOCIATE", auto); ("MSG_QUEUE_MSGCTL", auto);
    ("MSG_QUEUE_MSGSND", auto); ("MSG_QUEUE_MSGRCV", auto);
    ("SHM_ASSOCIATE", auto); ("SHM_SHMCTL", auto); ("SHM_SHMAT", auto);
    ("PTRACE_ACCESS_CHECK", auto); ("PTRACE_TRACEME", auto); ("CAPGET", auto);
    ("CAPSET", auto); ("CAPABLE", auto); ("QUOTACTL", auto); ("QUOTA_ON", auto);
    ("SYSLOG", auto); ("SETTIME", auto); ("VM_ENOUGH_MEMORY", auto);
    ("BPF", auto); ("BPF_MAP", auto); ("BPF_PROG", auto);
    ("PERF_EVENT_OPEN", auto);
    ("LSM_MAX", auto) ].

Definition EBPH_LSM : list (string * Z) := members EBPH_LSM_decl.

(** [EBPH_LSM.get_name(num)] *)
Definition get_name (num : Z) : result string :=
  match call EBPH_LSM num with
  | Ok m => Ok (lower (name m))
  | Raise ValueError => Ok "empty"
  | Raise e => Raise e
  end.

(** [NUM_LSM = int(EBPH_LSM.LSM_MAX)] *)
Definition NUM_LSM : Z := default 0 (lookup_name EBPH_LSM "LSM_MAX").

(** [sys.maxsize] on a 64-bit interpreter. *)
Definition sys_maxsize : Z := 2 ^ 63 - 1.

(* ===================================================================== *)
(** ** [hashlib.sha256] (FIPS 180-4) and the string functions
       [calculate_profile_magic] uses *)
(* ===================================================================== *)

Module hashlib.

Definition w32 (x : Z) : Z := x mod 2 ^ 32.
Definition rotr (n x : Z) : Z := Z.lor (Z.shiftr x n) (w32 (Z.shiftl x (32 - n))).
Definition xor3 (x y z : Z) : Z := Z.lxor (Z.lxor x y) z.
Definition Ch (x y z : Z) : Z :=
  Z.lxor (Z.land x y) (Z.land (Z.lxor x 0xffffffff) z).
Definition Maj (x y z : Z) : Z := xor3 (Z.land x y) (Z.land x z) (Z.land y z).
Definition Sigma0 (x : Z) : Z := xor3 (rotr 2 x) (rotr 13 x) (rotr 22 x).
Definition Sigma1 (x : Z) : Z := xor3 (rotr 6 x) (rotr 11 x) (rotr 25 x).
Definition sigma0 (x : Z) : Z := xor3 (rotr 7 x) (rotr 18 x) (Z.shiftr x 3).
Definition sigma1 (x : Z) : Z := xor3 (rotr 17 x) (rotr 19 x) (Z.shiftr x 10).

(** The constants are fractional parts of roots of the first primes:
    [H0] holds the first 32 fractional bits of the square roots of the
    first eight primes, [K] those of the cube roots of the first 64. *)
Definition is_prime (m : Z) : bool :=
  forallb (fun d => negb (m mod d =? 0)) (seqZ 2 (m - 2)).

Definition primes (n : nat) : list Z := take n (filter (fun m => is_prime m = true) (seqZ 2 310)).

(** The integer cube root, one bit at a time from the top. *)
Fixpoint cube_root_bits (bits : nat) (n r : Z) : Z :=
  match bits with
  | O => r
  | S b =>
      let c := r + 2 ^ Z.of_nat b in
      if c * c * c <=? n then cube_root_bits b n c else cube_root_bits b n r
  end.

Definition cube_root (n : Z) : Z := cube_root_bits 40 n 0.

Definition K : list Z := map (fun p => w32 (cube_root (p * 2 ^ 96))) (primes 64).

Definition H0 : list Z := map (fun p => w32 (Z.sqrt (p * 2 ^ 64))) (primes 8).

Definition byte_to_Z (b : byte) : Z := Z.of_N (Byte.to_N b).
Definition byte_of_Z (z : Z) : byte := default x00 (Byte.of_N (Z.to_N (z mod 256))).

(** Big-endian bytes of the low [8 * n] bits of [z]. *)
Fixpoint be_bytes (n : nat) (z : Z) : list Z :=
  match n with
  | O => []
  | S n' => be_bytes n' (Z.shiftr z 8) ++ [z mod 256]
  end.

Definition be_value (bs : list Z) : Z :=
  fold_left (fun acc b => acc * 256 + b) bs 0.

(** The message followed by 0x80, zero bytes up to 56 modulo 64, and the
    bit length on eight bytes. *)
Definition pad (msg : list Z) : list Z :=
  let l := Z.of_nat (length msg) in
  msg ++ [0x80] ++ repeat 0 (Z.to_nat ((55 - l) mod 64)) ++ be_bytes 8 (8 * l).

Fixpoint words (n : nat) (bs : list Z) : list Z :=
  match n with
  | O => []
  | S n' => be_value (take 4 bs) :: words n' (drop 4 bs)
  end.

(** The message schedule: [n] more words after the ones in [w]. *)
Fixpoint schedule (n : nat) (w : list Z) : list Z :=
  match n with
  | O => w
  | S n' =>
      let t := length w in
      let at_ (k : nat) := nth (t - k) w 0 in
      schedule n' (w ++ [w32 (sigma1 (at_ 2%nat) + at_ 7%nat + sigma0 (at_ 15%nat) + at_ 16%nat)])
  end.

Definition round (s : list Z) (kw : Z * Z) : list Z :=
  match s with
  | [a; b; c; d; e; f; g; h] =>
      let t1 := w32 (h + Sigma1 e + Ch e f g + fst kw + snd kw) in
      let t2 := w32 (Sigma0 a + Maj a b c) in
      [w32 (t1 + t2); a; b; c; w32 (d + t1); e; f; g]
  | _ => s
  end.

Definition compress (h : list Z) (block : list Z) : list Z :=
  let w := schedule 48 (words 16 block) in
  zip_with (fun x y => w32 (x + y)) h (fold_left round (zip K w) h).

Fixpoint blocks (n : nat) (h : list Z) (bs : list Z) : list Z :=
  match n with
  | O => h
  | S n' => blocks n' (compress h (take 64 bs)) (drop 64 bs)
  end.

(** [sha256(data).digest()] *)
Definition sha256 (data : list byte) : list byte :=
  let m := pad (map byte_to_Z data) in
  map byte_of_Z (concat (map (be_bytes 4) (blocks (length m / 64) H0 m))).

Definition hex_digit (n : Z) : ascii :=
  nth (Z.to_nat n) (list_ascii_of_string "0123456789abcdef") "0"%char.

(** [.hexdigest()]: two lowercase hexadecimal digits per byte. *)
Fixpoint hexdigest (digest : list byte) : string :=
  match digest with
  | [] => EmptyString
  | b :: rest =>
      let z := byte_to_Z b in
      String (hex_digit (z / 16)) (String (hex_digit (z mod 16)) (hexdigest rest))
  end.

End hashlib.

(** The value of a hexadecimal digit, if the character is one. *)
Definition hex_value (c : ascii) : option Z :=
  let n := Z.of_nat (nat_of_ascii c) in
  if (48 <=? n) && (n <=? 57) then Some (n - 48)
  else if (97 <=? n) && (n <=? 102) then Some (n - 87)
  else if (65 <=? n) && (n <=? 70) then Some (n - 55)
  else None.

Fixpoint int16_from (acc : Z) (s : string) : result Z :=
  match s with
  | EmptyString => Ok acc
  | String c s' =>
      match hex_value c with
      | Some d => int16_from (acc * 16 + d) s'
      | None => Raise ValueError
      end
  end.

(** [int(s, 16)] on a string of hexadecimal digits; [ValueError] on an
    empty string or on any other character. *)
Definition int16 (s : string) : result Z :=
  match s with
  | EmptyString => Raise ValueError
  | _ => int16_from 0 s
  end.

(** [s.split(sep)] for a one-character separator. *)
Fixpoint split (sep : ascii) (s : string) : list string :=
  match s with
  | EmptyString => [EmptyString]
  | String c s' =>
      if Ascii.eqb c sep then EmptyString :: split sep s'
      else match split sep s' with
           | [] => [String c EmptyString]
           | w :: ws => String c w :: ws
           end
  end.

(** [sep.join(parts)] *)
Fixpoint join (sep : string) (parts : list string) : string :=
  match parts with
  | [] => EmptyString
  | [p] => p
  | p :: ps => (p ++ sep ++ join sep ps)%string
  end.

(** [s.encode('ascii')]: [UnicodeEncodeError] on a character above 127. *)
Fixpoint encode_ascii (s : string) : result (list byte) :=
  match s with
  | EmptyString => Ok []
  | String c s' =>
      if (nat_of_ascii c <? 128)%nat
      then let* bs := encode_ascii s' in Ok (byte_of_ascii c :: bs)
      else Raise UnicodeEncodeError
  end.

(** Strings [encode('ascii')] accepts. *)
Fixpoint ascii_only (s : string) : bool :=
  match s with
  | EmptyString => true
  | String c s' => (nat_of_ascii c <? 128)%nat && ascii_only s'
  end.

(** Strings without the separator. *)
Fixpoint free_of (sep : ascii) (s : string) : bool :=
  match s with
  | EmptyString => true
  | String c s' => negb (Ascii.eqb c sep) && free_of sep s'
  end.

(** [calculate_profile_magic()], with [ebph.version.__version__] (a
    constant of a module that is not among the sources) as its argument. *)
Definition calculate_profile_magic (__version__ : string) : result Z :=
  let* version := encode_ascii (join "." (take 2 (split "."%char __version__))) in
  let* n := int16 (hashlib.hexdigest (hashlib.sha256 version)) in
  Ok (Z.land n 0xFFFF_FFFF_FFFF_FFFF).

(* ===================================================================== *)
(** ** [structs.py]: the profile structures *)
(* ===================================================================== *)

Import ct.

(** [EBPHProfileDataStruct._fields_] *)
Definition EBPHProfileDataStruct_fields : list (string * ctype) :=
  [ ("flags", c_array c_uint8 (Z.land (NUM_LSM * NUM_LSM) sys_maxsize)) ].

Definition EBPHProfileDataStruct_t : ctype := Structure EBPHProfileDataStruct_fields.

(** An instance of [EBPHProfileDataStruct]: the bytes of its [flags]. *)
Record EBPHProfileDataStruct : Type := mkData { flags : list Z }.

(** An instance of [EBPHProfileStruct].  [exe_buffer] is the memory of the
    [exe] field; reading the field gives [exe] below. *)
Record EBPHProfileStruct : Type := mkProfile {
  magic : Z;
  profile_key : Z;
  status : Z;
  anomaly_count : Z;
  train_count : Z;
  last_mod_count : Z;
  sequences : Z;
  normal_time : Z;
  count : Z;
  train : EBPHProfileDataStruct;
  test : EBPHProfileDataStruct;
  exe_buffer : list byte
}.

(** [self.exe] *)
Definition exe (p : EBPHProfileStruct) : list byte := c_string (exe_buffer p).

(** Field assignment: the value is converted to the field's C type. *)
Definition set_magic (v : Z) (p : EBPHProfileStruct) : EBPHProfileStruct :=
  mkProfile (uint64 v) (profile_key p) (status p) (anomaly_count p) (train_count p)
    (last_mod_count p) (sequences p) (normal_time p) (count p) (train p) (test p)
    (exe_buffer p).
Definition set_profile_key (v : Z) (p : EBPHProfileStruct) : EBPHProfileStruct :=
  mkProfile (magic p) (uint64 v) (status p) (anomaly_count p) (train_count p)
    (last_mod_count p) (sequences p) (normal_time p) (count p) (train p) (test p)
    (exe_buffer p).
Definition set_status (v : Z) (p : EBPHProfileStruct) : EBPHProfileStruct :=
  mkProfile (magic p) (profile_key p) (uint8 v) (anomaly_count p) (train_count p)
    (last_mod_count p) (sequences p) (normal_time p) (count p) (train p) (test p)
    (exe_buffer p).
Definition set_anomaly_count (v : Z) (p : EBPHProfileStruct) : EBPHProfileStruct :=
  mkProfile (magic p) (profile_key p) (status p) (uint64 v) (train_count p)
    (last_mod_count p) (sequences p) (normal_time p) (count p) (train p) (test p)
    (exe_buffer p).
Definition set_train_count (v : Z) (p : EBPHProfileStruct) : EBPHProfileStruct :=
  mkProfile (magic p) (profile_key p) (status p) (anomaly_count p) (uint64 v)
    (last_mod_count p) (sequences p) (normal_time p) (count p) (train p) (test p)
    (exe_buffer p).
Definition set_last_mod_count (v : Z) (p : EBPHProfileStruct) : EBPHProfileStruct :=
  mkProfile (magic p) (profile_key p) (status p) (anomaly_count p) (train_count p)
    (uint64 v) (sequences p) (normal_time p) (count p) (train p) (test p)
    (exe_buffer p).
Definition set_sequences (v : Z) (p : EBPHProfileStruct) : EBPHProfileStruct :=
  mkProfile (magic p) (profile_key p) (status p) (anomaly_count p) (train_count p)
    (last_mod_count p) (uint64 v) (normal_time p) (count p) (train p) (test p)
    (exe_buffer p).
Definition set_normal_time (v : Z) (p : EBPHProfileStruct) : EBPHProfileStruct :=
  mkProfile (magic p) (profile_key p) (status p) (anomaly_count p) (train_count p)
    (last_mod_count p) (sequences p) (uint64 v) (count p) (train p) (test p)
    (exe_buffer p).
Definition set_count (v : Z) (p : EBPHProfileStruct) : EBPHProfileStruct :=
  mkProfile (magic p) (profile_key p) (status p) (anomaly_count p) (train_count p)
    (last_mod_count p) (sequences p) (normal_time p) (uint64 v) (train p) (test p)
    (exe_buffer p).
(** Writing the memory of [self.train] or [self.test] (through [memmove]). *)
Definition set_train_memory (m : list Z) (p : EBPHProfileStruct) : EBPHProfileStruct :=
  mkProfile (magic p) (profile_key p) (status p) (anomaly_count p) (train_count p)
    (last_mod_count p) (sequences p) (normal_time p) (count p) (mkData m) (test p)
    (exe_buffer p).
Definition set_test_memory (m : list Z) (p : EBPHProfileStruct) : EBPHProfileStruct :=
  mkProfile (magic p) (profile_key p) (status p) (anomaly_count p) (train_count p)
    (last_mod_count p) (sequences p) (normal_time p) (count p) (train p) (mkData m)
    (exe_buffer p).
Definition set_exe_buffer (b : list byte) (p : EBPHProfileStruct) : EBPHProfileStruct :=
  mkProfile (magic p) (profile_key p) (status p) (anomaly_count p) (train_count p)
    (last_mod_count p) (sequences p) (normal_time p) (count p) (train p) (test p) b.

(** Number of entries of a [flags] array, and a zero-filled one. *)
Definition flags_len : nat := Z.to_nat (Z.land (NUM_LSM * NUM_LSM) sys_maxsize).
Definition zero_flags : list Z := replicate flags_len 0.

(** ** The BPF program's maps, as bcc presents them *)

(** Modelled from the spec: the value type of the [profiles] map, declared
    by the BPF program (not among the sources).  It holds the profile's
    one-byte status and its six 8-byte counters. *)
Record profile_leaf : Type := mkLeaf {
  leaf_status : Z;
  leaf_anomaly_count : Z;
  leaf_train_count : Z;
  leaf_last_mod_count : Z;
  leaf_sequences : Z;
  leaf_normal_time : Z;
  leaf_count : Z
}.

(** [bpf['profiles'].Leaf()]: a zero-filled value. *)
Definition profile_Leaf : profile_leaf := mkLeaf 0 0 0 0 0 0 0.

(** Assignment to a field of the leaf, converted to the field's C type. *)
Definition leaf_set_status (v : Z) (l : profile_leaf) : profile_leaf :=
  mkLeaf (uint8 v) (leaf_anomaly_count l) (leaf_train_count l) (leaf_last_mod_count l)
    (leaf_sequences l) (leaf_normal_time l) (leaf_count l).
Definition leaf_set_anomaly_count (v : Z) (l : profile_leaf) : profile_leaf :=
  mkLeaf (leaf_status l) (uint64 v) (leaf_train_count l) (leaf_last_mod_count l)
    (leaf_sequences l) (leaf_normal_time l) (leaf_count l).
Definition leaf_set_train_count (v : Z) (l : profile_leaf) : profile_leaf :=
  mkLeaf (leaf_status l) (leaf_anomaly_count l) (uint64 v) (leaf_last_mod_count l)
    (leaf_sequences l) (leaf_normal_time l) (leaf_count l).
Definition leaf_set_last_mod_count (v : Z) (l : profile_leaf) : profile_leaf :=
  mkLeaf (leaf_status l) (leaf_anomaly_count l) (leaf_train_count l) (uint64 v)
    (leaf_sequences l) (leaf_normal_time l) (leaf_count l).
Definition leaf_set_sequences (v : Z) (l : profile_leaf) : profile_leaf :=
  mkLeaf (leaf_status l) (leaf_anomaly_count l) (leaf_train_count l) (leaf_last_mod_count l)
    (uint64 v) (leaf_normal_time l) (leaf_count l).
Definition leaf_set_normal_time (v : Z) (l : profile_leaf) : profile_leaf :=
  mkLeaf (leaf_status l) (leaf_anomaly_count l) (leaf_train_count l) (leaf_last_mod_count l)
    (leaf_sequences l) (uint64 v) (leaf_count l).
Definition leaf_set_count (v : Z) (l : profile_leaf) : profile_leaf :=
  mkLeaf (leaf_status l) (leaf_anomaly_count l) (leaf_train_count l) (leaf_last_mod_count l)
    (leaf_sequences l) (leaf_normal_time l) (uint64 v).

(** The three maps the code reads and writes, keyed by the 64-bit profile
    key.  The values of [training_data] and [testing_data] are the bytes of
    a flags matrix. *)
Record BPF : Type := mkBPF {
  profiles : gmap Z profile_leaf;
  training_data : gmap Z (list Z);
  testing_data : gmap Z (list Z)
}.

(** [table[key]]: [KeyError] when the key has no entry. *)
Definition getitem {V : Type} (table : gmap Z V) (key : Z) : result V :=
  match table !! key with
  | Some v => Ok v
  | None => Raise KeyError
  end.

(** [table[key] = leaf]; the kernel is taken to accept the update. *)
Definition setitem {V : Type} (table : gmap Z V) (key : Z) (leaf : V) : gmap Z V :=
  <[key := leaf]> table.

(** [ct.memmove(dst, src, count)]: copies and returns the address of [dst]. *)
Definition memmove (dst_address : Z) (dst src : list Z) (count : nat) : Z * list Z :=
  (dst_address, memcpy dst src count).

(** ** Python objects as [__eq__] sees them *)

(** The other operand of [==]: a profile structure, or an object of any
    other class, given by the outcome of reading each attribute: a value,
    or whatever exception its attribute access raises (an attribute that
    is not listed raises [AttributeError]). *)
Inductive object : Type :=
| Profile (p : EBPHProfileStruct)
| Instance (attrs : gmap string (result value)).

(** [getattr(other, name)] for the attributes [__eq__] reads. *)
Definition getattr (other : object) (name : string) : result value :=
  match other with
  | Profile p =>
      if String.eqb name "magic" then Ok (VInt (magic p))
      else if String.eqb name "profile_key" then Ok (VInt (profile_key p))
      else if String.eqb name "status" then Ok (VInt (status p))
      else if String.eqb name "anomaly_count" then Ok (VInt (anomaly_count p))
      else if String.eqb name "train_count" then Ok (VInt (train_count p))
      else if String.eqb name "last_mod_count" then Ok (VInt (last_mod_count p))
      else if String.eqb name "sequences" then Ok (VInt (sequences p))
      else if String.eqb name "normal_time" then Ok (VInt (normal_time p))
      else if String.eqb name "count" then Ok (VInt (count p))
      else if String.eqb name "train" then Ok (VStruct (flags (train p)))
      else if String.eqb name "test" then Ok (VStruct (flags (test p)))
      else if String.eqb name "exe" then Ok (VBytes (exe p))
      else Raise AttributeError
  | Instance attrs =>
      match attrs !! name with
      | Some r => r
      | None => Raise AttributeError
      end
  end.

(** [assert mine == other.name] *)
Definition assert_same (mine : value) (other : object) (name : string) : result unit :=
  let* theirs := getattr other name in
  let* b := eq_truth mine theirs in
  assert b.

(** [EBPHProfileStruct.__eq__(self, other)]: the nine assertions in a
    [try], [False] for an exception caught by [except Exception], [True]
    when none is raised. *)
Definition __eq__ (self : EBPHProfileStruct) (other : object) : result bool :=
  except_Exception
    (let* _ := assert_same (VInt (profile_key self)) other "profile_key" in
     let* _ := assert_same (VInt (status self)) other "status" in
     let* _ := assert_same (VInt (anomaly_count self)) other "anomaly_count" in
     let* _ := assert_same (VInt (train_count self)) other "train_count" in
     let* _ := assert_same (VInt (last_mod_count self)) other "last_mod_count" in
     let* _ := assert_same (VInt (sequences self)) other "sequences" in
     let* _ := assert_same (VInt (normal_time self)) other "normal_time" in
     let* _ := assert_same (VInt (count self)) other "count" in
     let* _ := assert_same (VBytes (exe self)) other "exe" in
     Ok true)
    false.

(** The nine fields [__eq__] asserts on, in order, each with [self]'s value. *)
Definition compared (self : EBPHProfileStruct) : list (string * value) :=
  [ ("profile_key", VInt (profile_key self));
    ("status", VInt (status self));
    ("anomaly_count", VInt (anomaly_count self));
    ("train_count", VInt (train_count self));
    ("last_mod_count", VInt (last_mod_count self));
    ("sequences", VInt (sequences self));
    ("normal_time", VInt (normal_time self));
    ("count", VInt (count self));
    ("exe", VBytes (exe self)) ].

(** The assertions on a list of fields, run in order. *)
Fixpoint assert_all (fields : list (string * value)) (other : object) : result unit :=
  match fields with
  | [] => Ok tt
  | (name, mine) :: rest =>
      let* _ := assert_same mine other name in assert_all rest other
  end.

(** ** [EBPHProfileDataStruct.__eq__] *)

(** The other operand of [EBPHProfileDataStruct.__eq__]: a data structure,
    or an object of another class, given by what reading its [flags]
    attribute does: it raises, or yields an object without a length
    ([None] here), or yields a sequence of the listed items. *)
Inductive data_operand : Type :=
| Data (d : EBPHProfileDataStruct)
| Foreign (flags_attribute : result (option (list value))).

(** [other.flags] *)
Definition get_flags (other : data_operand) : result (option (list value)) :=
  match other with
  | Data d => Ok (Some (map VInt (flags d)))
  | Foreign r => r
  end.

(** [len(x)]: [TypeError] for an object without a length. *)
Definition len (x : option (list value)) : result nat :=
  match x with
  | Some items => Ok (length items)
  | None => Raise TypeError
  end.

(** [x[i]]: [IndexError] past the end, [TypeError] when [x] cannot be
    indexed. *)
Definition item (x : option (list value)) (i : nat) : result value :=
  match x with
  | Some items =>
      match items !! i with
      | Some v => Ok v
      | None => Raise IndexError
      end
  | None => Raise TypeError
  end.

(** [for i in indices: body(i)] for a body that may raise. *)
Fixpoint for_each (body : nat -> result unit) (indices : list nat) : result unit :=
  match indices with
  | [] => Ok tt
  | i :: rest => let* _ := body i in for_each body rest
  end.

(** The body of the loop: [assert self.flags[i] == other.flags[i]]. *)
Definition assert_item (self : EBPHProfileDataStruct) (other : data_operand) (i : nat)
  : result unit :=
  let* mine := item (Some (map VInt (flags self))) i in
  let* other_flags := get_flags other in
  let* theirs := item other_flags i in
  let* b := eq_truth mine theirs in
  assert b.

(** [EBPHProfileDataStruct.__eq__(self, other)]: the length check and the
    loop in a [try], [False] for an exception caught by
    [except Exception], [True] when none is raised. *)
Definition EBPHProfileDataStruct__eq__ (self : EBPHProfileDataStruct) (other : data_operand)
  : result bool :=
  except_Exception
    (let self_len := length (flags self) in
     let* other_flags := get_flags other in
     let* other_len := len other_flags in
     let* _ := assert (self_len =? other_len)%nat in
     let* _ := for_each (assert_item self other) (seq 0 self_len) in
     Ok true)
    false.

(* ===================================================================== *)
(** ** [libebph/__init__.py]: the commands of [Lib] *)
(* ===================================================================== *)

(** What [typing.get_type_hints(func)] gives: the annotated parameters in
    order, then ['return']. *)
Definition type_hints : Type := list (string * ctype).

(** The foreign function [getattr(libebph, name)] after [command] has set
    its [argtypes] and [restype]. *)
Record foreign_function : Type := mkForeign {
  argtypes : list ctype;
  restype : option ctype
}.

(** [command(func)]:
    [argtypes = [v for k, v in th.items() if k != 'return']], and [restype]
    is [th['return']] or [None] on a [KeyError]. *)
Definition command (th : type_hints) : foreign_function :=
  {| argtypes := map snd (filter (fun kv => fst kv ≠ "return") th);
     restype := snd <$> find (fun kv => String.eqb (fst kv) "return") th |}.

(** The annotated signatures of [class Lib], in source order. *)
Definition Lib_signatures : list (string * type_hints) :=
  [ ("set_setting",
       [("key", c_int); ("value", c_uint64); ("return", c_int)]);
    ("normalize_profile", [("profile_key", c_uint64); ("return", c_int)]);
    ("normalize_process", [("pid", c_uint32); ("return", c_int)]);
    ("sensitize_profile", [("profile_key", c_uint64); ("return", c_int)]);
    ("sensitize_process", [("pid", c_uint32); ("return", c_int)]);
    ("tolerize_profile", [("profile_key", c_uint64); ("return", c_int)]);
    ("tolerize_process", [("pid", c_uint32); ("return", c_int)]);
    ("bootstrap_process",
       [("profile_key", c_uint64); ("pid", c_uint32); ("tgid", c_uint32);
        ("pathname", c_char_p); ("return", c_int)]) ].

(** [Lib]: every [@command] method, by name. *)
Definition Lib : list (string * foreign_function) :=
  map (fun '(name, th) => (name, command th)) Lib_signatures.

Definition Lib_lookup (name : string) : option foreign_function :=
  snd <$> find (fun kv => String.eqb (fst kv) name) Lib.

(** A call of one of the commands from Python, with its arguments. *)
Inductive invocation : Type :=
| set_setting (key value : Z)
| normalize_profile (profile_key : Z)
| normalize_process (pid : Z)
| sensitize_profile (profile_key : Z)
| sensitize_process (pid : Z)
| tolerize_profile (profile_key : Z)
| tolerize_process (pid : Z)
| bootstrap_process (profile_key pid tgid : Z) (pathname : option (list byte)).

Definition command_name (c : invocation) : string :=
  match c with
  | set_setting _ _ => "set_setting"
  | normalize_profile _ => "normalize_profile"
  | normalize_process _ => "normalize_process"
  | sensitize_profile _ => "sensitize_profile"
  | sensitize_process _ => "sensitize_process"
  | tolerize_profile _ => "tolerize_profile"
  | tolerize_process _ => "tolerize_process"
  | bootstrap_process _ _ _ _ => "bootstrap_process"
  end.

(** A Python int passed through an entry of [argtypes]. *)
Definition from_param (t : ctype) (z : Z) : Z :=
  match t with
  | c_uint8 => uint8 z
  | c_uint32 => uint32 z
  | c_uint64 => uint64 z
  | c_int => int z
  | _ => z
  end.

(** The arguments as the C function receives them. *)
Definition convert_arguments (c : invocation) : invocation :=
  match c, argtypes <$> Lib_lookup (command_name c) with
  | set_setting k v, Some [tk; tv] => set_setting (from_param tk k) (from_param tv v)
  | normalize_profile k, Some [tk] => normalize_profile (from_param tk k)
  | normalize_process p, Some [tp] => normalize_process (from_param tp p)
  | sensitize_profile k, Some [tk] => sensitize_profile (from_param tk k)
  | sensitize_process p, Some [tp] => sensitize_process (from_param tp p)
  | tolerize_profile k, Some [tk] => tolerize_profile (from_param tk k)
  | tolerize_process p, Some [tp] => tolerize_process (from_param tp p)
  | bootstrap_process k p g path, Some [tk; tp; tg; _] =>
      bootstrap_process (from_param tk k) (from_param tp p) (from_param tg g) path
  | _, _ => c
  end.

(** The C result as Python receives it through [restype]. *)
Definition convert_result (c : invocation) (rc : Z) : Z :=
  match restype <$> Lib_lookup (command_name c) with
  | Some (Some t) => from_param t rc
  | _ => rc
  end.

(* ===================================================================== *)
(** ** [ebpH.py]: printing the recorded sequences *)
(* ===================================================================== *)

(** [str(n)] for an int. *)
Definition str (n : Z) : string := NilZero.string_of_int (Z.to_int n).

(** A value of the [seq] map: the calls recorded for a task and how many
    were recorded. *)
Record seq_leaf : Type := mkSeq {
  seq_calls : list Z;
  seq_count : Z
}.

(** What [print_sequences] prints for one task: the PID and COUNT columns
    and the text handed to [textwrap.fill]. *)
Record seq_report : Type := mkReport {
  report_pid : Z;
  report_count : Z;
  report_sequence : string
}.

Section PrintSequences.

(** [syscall_name(n)] of bcc, its result decoded. *)
Variable syscall_name : Z -> string.

(** The loop
    [for i, (call, name) in enumerate(zip(calls, names))], which breaks as
    soon as [i >= seqlen or i >= s.count] and otherwise appends
    [name(call)] to [arr]. *)
Fixpoint collect (seqlen count : Z) (i : Z) (pairs : list (string * string))
    (arr : list string) : list string :=
  match pairs with
  | [] => arr
  | (call, name) :: rest =>
      if (i >=? seqlen) || (i >=? count) then arr
      else collect seqlen count (i + 1) rest (arr ++ [(name ++ "(" ++ call ++ ")")%string])
  end.

(** The body of the loop over [seq_hash.items()] for one entry. *)
Definition report (seqlen : Z) (p : Z) (s : seq_leaf) : seq_report :=
  let pid := Z.shiftr p 32 in
  let names := map syscall_name (seq_calls s) in
  let calls := map str (seq_calls s) in
  let arr := collect seqlen (seq_count s) 0 (zip calls names) [] in
  mkReport pid (seq_count s) (join ", " arr).

(** [print_sequences(seqlen)] on the entries of [bpf["seq"]], in the order
    [items()] yields them: what is printed for each, and the map after
    [seq_hash.clear()]. *)
Definition print_sequences (seqlen : Z) (seq_hash : list (Z * seq_leaf))
  : list seq_report * list (Z * seq_leaf) :=
  (map (fun '(p, s) => report seqlen p s) seq_hash, []).

End PrintSequences.

(* ===================================================================== *)
(** ** [logger.py]: colouring a formatted log line *)
(* ===================================================================== *)

(** The part of [re] that [line_re] uses: literal characters, the dot,
    the whitespace class and the greedy star and plus over them, matched
    by backtracking. *)
Module re.

(** The dot: any character but a newline. *)
Definition dot (c : ascii) : bool := negb (Ascii.eqb c "010"%char).

(** The whitespace class of a [str] pattern, on the code points below 256. *)
Definition space (c : ascii) : bool :=
  let n := nat_of_ascii c in
  ((9 <=? n) && (n <=? 13) || (28 <=? n) && (n <=? 32) || (n =? 133) || (n =? 160))%nat.

(** Every character of the string is in the class. *)
Fixpoint every (p : ascii -> bool) (s : string) : bool :=
  match s with
  | EmptyString => true
  | String c s' => p c && every p s'
  end.

(** The star of [p] followed by the rest of the pattern [k], which receives what the
    star matched and what is left: the longest match is tried first and
    shorter ones when the rest of the pattern fails. *)
Fixpoint star {A : Type} (p : ascii -> bool) (s : string)
    (k : string -> string -> option A) : option A :=
  match s with
  | String c s' =>
      if p c then
        match star p s' (fun m rest => k (String c m) rest) with
        | Some r => Some r
        | None => k EmptyString s
        end
      else k EmptyString s
  | EmptyString => k EmptyString s
  end.

(** The plus of [p]: one or more. *)
Definition plus {A : Type} (p : ascii -> bool) (s : string)
    (k : string -> string -> option A) : option A :=
  match s with
  | String c s' => if p c then star p s' (fun m rest => k (String c m) rest) else None
  | EmptyString => None
  end.

(** A literal character. *)
Definition lit {A : Type} (c : ascii) (s : string) (k : string -> option A) : option A :=
  match s with
  | String c' s' => if Ascii.eqb c' c then k s' else None
  | EmptyString => None
  end.

(** An opening bracket, any characters, a closing bracket. *)
Definition bracketed {A : Type} (s : string) (k : string -> string -> option A)
  : option A :=
  lit "[" s (fun r1 =>
  star dot r1 (fun m r2 =>
  lit "]" r2 (fun r3 =>
  k ("[" ++ m ++ "]")%string r3))).

End re.

(** [line_re.match(line)]: the pattern has four groups, two of a
    bracketed text followed by one or more spaces, one of a bracketed
    text, and one of any characters; the result is the four groups of the
    match, or [None]. *)
Definition line_re_match (line : string) : option (string * string * string * string) :=
  re.bracketed line (fun b1 r1 =>
  re.plus re.space r1 (fun w1 r2 =>
  re.bracketed r2 (fun b2 r3 =>
  re.plus re.space r3 (fun w2 r4 =>
  re.bracketed r4 (fun b3 r5 =>
  re.star re.dot r5 (fun g4 _ =>
  Some ((b1 ++ w1)%string, (b2 ++ w2)%string, b3, g4))))))).

(** [needle in haystack] *)
Fixpoint contains (needle haystack : string) : bool :=
  String.prefix needle haystack ||
  match haystack with
  | EmptyString => false
  | String _ rest => contains needle rest
  end.

(** How many times a character occurs in a string. *)
Fixpoint occurrences (c : ascii) (s : string) : nat :=
  match s with
  | EmptyString => 0
  | String x s' => (if Ascii.eqb x c then 1 else 0) + occurrences c s'
  end.

(** The colours of [colorama.Fore] that the module names. *)
Inductive color : Type :=
| GREEN
| LIGHTBLACK_EX
| BLUE
| CYAN
| YELLOW
| LIGHTYELLOW_EX
| LIGHTMAGENTA_EX
| RED
| RESET.

(** The outcome of [color_log]: the coloured line, or
    [raise IOError('Log message does not match pattern!')]. *)
Inductive colored : Type :=
| Line (s : string)
| IOError.

(** A [logging.LogRecord] as the format string reads it; the strings are
    sequences of code points below 256. *)
Record LogRecord : Type := mkRecord {
  asctime : string;
  logger_name : string;
  levelname : string;
  message : string
}.

Section Logger.

(** The escape sequences of colorama: [Fore.<colour>] and
    [Style.RESET_ALL]. *)
Variable Fore : color -> string.
Variable RESET_ALL : string.

(** [color_time(time)] *)
Definition color_time (time : string) : string := (Fore GREEN ++ time)%string.

(** [color_logger(logger)] *)
Definition color_logger (logger : string) : string := (Fore LIGHTBLACK_EX ++ logger)%string.

(** The colour [color_category] picks. *)
Definition category_color (category : string) : color :=
  if contains "info" category then BLUE
  else if contains "debug" category then CYAN
  else if contains "warn" category then YELLOW
  else if contains "audit" category then LIGHTYELLOW_EX
  else if contains "newseq" category then LIGHTMAGENTA_EX
  else if contains "error" category then RED
  else RESET.

(** [color_category(category)] *)
Definition color_category (category : string) : string :=
  (Fore (category_color category) ++ category)%string.

(** [color_log(line)] *)
Definition color_log (line : string) : colored :=
  match line_re_match line with
  | None => IOError
  | Some (g1, g2, g3, g4) =>
      Line (color_time g1 ++ color_logger g2 ++ color_category g3 ++ RESET_ALL ++ g4)%string
  end.

(** [EBPHFormatter.format(record)] with the format string of
    [setup_logger], for a record without exception or stack text. *)
Definition EBPHFormatter_format (record : LogRecord) : string :=
  ("[" ++ asctime record ++ "] [" ++ logger_name record ++ "] ["
       ++ lower (levelname record) ++ "] " ++ message record)%string.

(** [EBPHColoredFormatter.format(record)] *)
Definition EBPHColoredFormatter_format (record : LogRecord) : colored :=
  color_log (EBPHFormatter_format record).

End Logger.

(* ===================================================================== *)
(** ** Sample values for the examples *)
(* ===================================================================== *)

(** The path [b'/bin/ls']. *)
Definition sample_path : list byte := [x2f; x62; x69; x6e; x2f; x6c; x73].

(** A profile of the executable with key 42: NORMAL and FROZEN, three
    anomalies, one pair learnt in training and one seen in testing; its
    magic is the one of version 0.6. *)
Definition sample_profile : EBPHProfileStruct :=
  mkProfile 16058753303049879161 42 (Z.lor NORMAL FROZEN) 3 100 90 12 1234567 250
    (mkData (<[3%nat := 1]> zero_flags)) (mkData (<[5%nat := 1]> zero_flags))
    (sample_path ++ replicate (4096 - 7) x00).

Definition sample_addressof : list Z -> positive := fun _ => 1%positive.

Definition empty_bpf : BPF := mkBPF ∅ ∅ ∅.

(** Maps holding the sample profile, and maps holding only its header. *)
Definition sample_bpf : BPF :=
  mkBPF {[ 42 := mkLeaf 6 3 100 90 12 1234567 250 ]}
    {[ 42 := <[3%nat := 1]> zero_flags ]} {[ 42 := <[5%nat := 1]> zero_flags ]}.

Definition header_only_bpf : BPF :=
  mkBPF {[ 42 := mkLeaf 6 3 100 90 12 1234567 250 ]} ∅ ∅.

(** An object whose [profile_key] attribute is a property that calls
    [sys.exit()]. *)
Definition exiting_object : object := Instance {[ "profile_key" := Raise SystemExit ]}.

(** The path [b'/bin/sh']. *)
Definition other_path : list byte := [x2f; x62; x69; x6e; x2f; x73; x68].

(** The escape sequences colorama gives the colours, and its
    [Style.RESET_ALL]. *)
Definition ansi (code : string) : string := String "027" ("[" ++ code ++ "m").

Definition sample_Fore (c : color) : string :=
  match c with
  | GREEN => ansi "32"
  | LIGHTBLACK_EX => ansi "90"
  | BLUE => ansi "34"
  | CYAN => ansi "36"
  | YELLOW => ansi "33"
  | LIGHTYELLOW_EX => ansi "93"
  | LIGHTMAGENTA_EX => ansi "95"
  | RED => ansi "31"
  | RESET => ansi "39"
  end.

Definition sample_RESET_ALL : string := ansi "0".

(** An audit record, and an error record whose message has two lines. *)
Definition audit_record : LogRecord :=
  mkRecord "2020-07-13 12:00:00.042" "ebphd" "AUDIT" "Anomalous socket_connect in /bin/ls".

Definition two_line_record : LogRecord :=
  mkRecord "2020-07-13 12:00:00.042" "ebphd" "ERROR"
    ("Failed to load profile" ++ String "010" "KeyError: 42").

Section Structs.

(** Constants of modules that are not among the sources: [defs.PATH_MAX]
    and [ebph.version.__version__]. *)
Variable PATH_MAX : nat.
Variable __version__ : string.

(** [ct.addressof(obj)] for the object whose memory holds the given bytes:
    some address, never NULL. *)
Variable addressof : list Z -> positive.

(** [EBPHProfileStruct._fields_] *)
Definition EBPHProfileStruct_fields : list (string * ctype) :=
  [ ("magic", c_uint64);
    ("profile_key", c_uint64);
    ("status", c_uint8);
    ("anomaly_count", c_uint64);
    ("train_count", c_uint64);
    ("last_mod_count", c_uint64);
    ("sequences", c_uint64);
    ("normal_time", c_uint64);
    ("count", c_uint64);
    ("train", EBPHProfileDataStruct_t);
    ("test", EBPHProfileDataStruct_t);
    ("exe", c_array c_char (Z.of_nat PATH_MAX)) ].

(** [EBPHProfileStruct()]: zero-filled memory. *)
Definition EBPHProfileStruct_new : EBPHProfileStruct :=
  mkProfile 0 0 0 0 0 0 0 0 0 (mkData zero_flags) (mkData zero_flags)
    (replicate PATH_MAX x00).

(** [self.exe = value] *)
Definition set_exe (value : list byte) (p : EBPHProfileStruct) : result EBPHProfileStruct :=
  let* buf := set_char_array PATH_MAX (exe_buffer p) value in
  Ok (set_exe_buffer buf p).

(** What ctypes guarantees of every instance: each field holds a value of
    its C type. *)
Definition wf_data (d : EBPHProfileDataStruct) : Prop :=
  length (flags d) = flags_len /\ Forall (fun b => 0 <= b < 2 ^ 8) (flags d).

Definition wf_profile (p : EBPHProfileStruct) : Prop :=
  0 <= magic p < 2 ^ 64 /\
  0 <= profile_key p < 2 ^ 64 /\
  0 <= status p < 2 ^ 8 /\
  0 <= anomaly_count p < 2 ^ 64 /\
  0 <= train_count p < 2 ^ 64 /\
  0 <= last_mod_count p < 2 ^ 64 /\
  0 <= sequences p < 2 ^ 64 /\
  0 <= normal_time p < 2 ^ 64 /\
  0 <= count p < 2 ^ 64 /\
  wf_data (train p) /\
  wf_data (test p) /\
  length (exe_buffer p) = PATH_MAX.

(** [EBPHProfileStruct.from_bpf(bpf, exe, profile_key)] *)
Definition from_bpf (bpf : BPF) (exe : list byte) (profile_key : Z)
  : result EBPHProfileStruct :=
  let profile := EBPHProfileStruct_new in
  let* m := calculate_profile_magic __version__ in
  let profile := set_magic m profile in
  let profile := set_profile_key profile_key profile in
  let* profile := set_exe exe profile in

  let* bpf_profile :=
    match getitem (profiles bpf) (uint64 profile_key) with
    | Raise KeyError | Raise IndexError => Raise KeyError
    | r => r
    end in

  let profile := set_status (leaf_status bpf_profile) profile in
  let profile := set_anomaly_count (leaf_anomaly_count bpf_profile) profile in
  let profile := set_train_count (leaf_train_count bpf_profile) profile in
  let profile := set_last_mod_count (leaf_last_mod_count bpf_profile) profile in
  let profile := set_sequences (leaf_sequences bpf_profile) profile in
  let profile := set_normal_time (leaf_normal_time bpf_profile) profile in
  let profile := set_count (leaf_count bpf_profile) profile in

  let* profile :=
    match
      (let* train_leaf := getitem (training_data bpf) (uint64 profile_key) in
       let '(address, memory) :=
         memmove (Z.pos (addressof (flags (train profile)))) (flags (train profile))
           train_leaf (Z.to_nat (sizeof EBPHProfileDataStruct_t)) in
       if address =? 0 then Raise RuntimeError
       else Ok (set_train_memory memory profile))
    with
    | Raise KeyError | Raise IndexError => Ok profile
    | r => r
    end in

  let* profile :=
    match
      (let* test_leaf := getitem (testing_data bpf) (uint64 profile_key) in
       let '(address, memory) :=
         memmove (Z.pos (addressof (flags (test profile)))) (flags (test profile))
           test_leaf (Z.to_nat (sizeof EBPHProfileDataStruct_t)) in
       if address =? 0 then Raise RuntimeError
       else Ok (set_test_memory memory profile))
    with
    | Raise KeyError | Raise IndexError => Ok profile
    | r => r
    end in

  Ok profile.

(** [EBPHProfileStruct.load_into_bpf(self, bpf)]: the maps after the call,
    or the exception it raises. *)
Definition load_into_bpf (self : EBPHProfileStruct) (bpf : BPF) : result BPF :=
  let bpf_profile := profile_Leaf in
  let bpf_profile := leaf_set_status (status self) bpf_profile in
  let bpf_profile := leaf_set_anomaly_count (anomaly_count self) bpf_profile in
  let bpf_profile := leaf_set_train_count (train_count self) bpf_profile in
  let bpf_profile := leaf_set_last_mod_count (last_mod_count self) bpf_profile in
  let bpf_profile := leaf_set_sequences (sequences self) bpf_profile in
  let bpf_profile := leaf_set_normal_time (normal_time self) bpf_profile in
  let bpf_profile := leaf_set_count (count self) bpf_profile in
  let bpf := mkBPF (setitem (profiles bpf) (uint64 (profile_key self)) bpf_profile)
               (training_data bpf) (testing_data bpf) in

  let train_leaf := zero_flags in
  let '(address, train_leaf) :=
    memmove (Z.pos (addressof train_leaf)) train_leaf (flags (train self))
      (Z.to_nat (sizeof EBPHProfileDataStruct_t)) in
  if address =? 0 then Raise RuntimeError else
  let bpf := mkBPF (profiles bpf)
               (setitem (training_data bpf) (uint64 (profile_key self)) train_leaf)
               (testing_data bpf) in

  let test_leaf := zero_flags in
  let '(address, test_leaf) :=
    memmove (Z.pos (addressof test_leaf)) test_leaf (flags (test self))
      (Z.to_nat (sizeof EBPHProfileDataStruct_t)) in
  if address =? 0 then Raise RuntimeError else
  let bpf := mkBPF (profiles bpf) (training_data bpf)
               (setitem (testing_data bpf) (uint64 (profile_key self)) test_leaf) in
  Ok bpf.

(* ===================================================================== *)
(** ** The commands behind [Lib] *)
(* ===================================================================== *)

(** The engine's state: the BPF maps, the monitored tasks ([pid] to
    [(tgid, profile_key)]), the executable path of each profile, and the
    settings registry. *)
Record Engine : Type := mkEngine {
  maps : BPF;
  processes : gmap Z (Z * Z);
  pathnames : gmap Z (list byte);
  settings : gmap Z Z
}.

(** Error numbers; the specification fixes only that errors are negative. *)
Definition ENOENT : Z := 2.
Definition EINVAL : Z := 22.

Definition with_maps (b : BPF) (e : Engine) : Engine :=
  mkEngine b (processes e) (pathnames e) (settings e).

(** Modelled from the spec: [normalize_profile] of the C library and BPF
    program (not among the sources).  It force-sets NORMAL, clears
    TRAINING and FROZEN, and resets [last_mod_count] to [train_count];
    an unknown key is "profile not found". *)
Definition libebph_normalize_profile (key : Z) (e : Engine) : Engine * Z :=
  match profiles (maps e) !! key with
  | None => (e, - ENOENT)
  | Some l =>
      let l' := mkLeaf (Z.lor (Z.ldiff (leaf_status l) (Z.lor TRAINING FROZEN)) NORMAL)
                  (leaf_anomaly_count l) (leaf_train_count l) (leaf_train_count l)
                  (leaf_sequences l) (leaf_normal_time l) (leaf_count l) in
      (with_maps (mkBPF (<[key := l']> (profiles (maps e)))
                    (training_data (maps e)) (testing_data (maps e))) e, 0)
  end.

(** Modelled from the spec: [sensitize_profile] of the C library and BPF
    program.  It clears NORMAL and FROZEN and sets TRAINING again; the
    matrices are kept. *)
Definition libebph_sensitize_profile (key : Z) (e : Engine) : Engine * Z :=
  match profiles (maps e) !! key with
  | None => (e, - ENOENT)
  | Some l =>
      let l' := mkLeaf (Z.lor (Z.ldiff (leaf_status l) (Z.lor NORMAL FROZEN)) TRAINING)
                  (leaf_anomaly_count l) (leaf_train_count l) (leaf_last_mod_count l)
                  (leaf_sequences l) (leaf_normal_time l) (leaf_count l) in
      (with_maps (mkBPF (<[key := l']> (profiles (maps e)))
                    (training_data (maps e)) (testing_data (maps e))) e, 0)
  end.

(** The matrix stored for a key, zero-filled when the map has no entry and
    always of [flags_len] entries. *)
Definition matrix (table : gmap Z (list Z)) (key : Z) : list Z :=
  resize flags_len 0 (default zero_flags (table !! key)).

(** Modelled from the spec: [tolerize_profile] of the C library and BPF
    program.  It merges all set bits of [test] into [train] (bitwise OR)
    and clears [anomaly_count]; an unknown key is "profile not found". *)
Definition libebph_tolerize_profile (key : Z) (e : Engine) : Engine * Z :=
  match profiles (maps e) !! key with
  | None => (e, - ENOENT)
  | Some l =>
      let l' := mkLeaf (leaf_status l) 0 (leaf_train_count l) (leaf_last_mod_count l)
                  (leaf_sequences l) (leaf_normal_time l) (leaf_count l) in
      let merged := zip_with Z.lor (matrix (training_data (maps e)) key)
                      (matrix (testing_data (maps e)) key) in
      (with_maps (mkBPF (<[key := l']> (profiles (maps e)))
                    (<[key := merged]> (training_data (maps e)))
                    (testing_data (maps e))) e, 0)
  end.

(** Modelled from the spec: the [*_process] commands resolve the task's
    bound profile key and delegate to the [*_profile] form; a task without
    a context is a lookup failure. *)
Definition libebph_for_process (f : Z -> Engine -> Engine * Z) (pid : Z) (e : Engine)
  : Engine * Z :=
  match processes e !! pid with
  | None => (e, - ENOENT)
  | Some (_, key) => f key e
  end.

(** Modelled from the spec: [set_setting] of the C library and BPF
    program.  An unrecognized setting key is an invalid argument and
    changes nothing. *)
Definition libebph_set_setting (key value : Z) (e : Engine) : Engine * Z :=
  if bool_decide (key ∈ map snd EBPH_SETTINGS)
  then (mkEngine (maps e) (processes e) (pathnames e) (<[key := value]> (settings e)), 0)
  else (e, - EINVAL).

(** A pathname the bounded, null-terminated path field can hold. *)
Definition valid_pathname (pathname : option (list byte)) : bool :=
  match pathname with
  | None => false
  | Some path => (length (c_string path) <? PATH_MAX)%nat
  end.

(** Modelled from the spec: [bootstrap_process] of the C library and BPF
    program.  A malformed pathname is an invalid argument and changes
    nothing; otherwise a profile unseen so far is created in TRAINING with
    zeroed matrices and counters, and the task is bound to the profile. *)
Definition libebph_bootstrap_process (key pid tgid : Z) (pathname : option (list byte))
    (e : Engine) : Engine * Z :=
  if negb (valid_pathname pathname) then (e, - EINVAL) else
  let path := c_string (default [] pathname) in
  let b :=
    match profiles (maps e) !! key with
    | Some _ => maps e
    | None =>
        mkBPF (<[key := mkLeaf TRAINING 0 0 0 0 0 0]> (profiles (maps e)))
          (<[key := zero_flags]> (training_data (maps e)))
          (<[key := zero_flags]> (testing_data (maps e)))
    end in
  let paths :=
    match profiles (maps e) !! key with
    | Some _ => pathnames e
    | None => <[key := path]> (pathnames e)
    end in
  (mkEngine b (<[pid := (tgid, key)]> (processes e)) paths (settings e), 0).

(** The C function a command names, on converted arguments. *)
Definition libebph (c : invocation) (e : Engine) : Engine * Z :=
  match c with
  | set_setting key value => libebph_set_setting key value e
  | normalize_profile key => libebph_normalize_profile key e
  | normalize_process pid => libebph_for_process libebph_normalize_profile pid e
  | sensitize_profile key => libebph_sensitize_profile key e
  | sensitize_process pid => libebph_for_process libebph_sensitize_profile pid e
  | tolerize_profile key => libebph_tolerize_profile key e
  | tolerize_process pid => libebph_for_process libebph_tolerize_profile pid e
  | bootstrap_process key pid tgid pathname =>
      libebph_bootstrap_process key pid tgid pathname e
  end.

(** When the specification lets a command succeed: its target exists and
    its arguments are valid. *)
Definition succeeds (c : invocation) (e : Engine) : Prop :=
  match c with
  | set_setting key _ => key ∈ map snd EBPH_SETTINGS
  | normalize_profile key | sensitize_profile key | tolerize_profile key =>
      is_Some (profiles (maps e) !! key)
  | normalize_process pid | sensitize_process pid | tolerize_process pid =>
      exists tgid key, processes e !! pid = Some (tgid, key) /\
                       is_Some (profiles (maps e) !! key)
  | bootstrap_process _ _ _ pathname => valid_pathname pathname = true
  end.

(** The [wrapper] that [command] returns: it calls the C function of the
    same name, its arguments converted by [argtypes] and its result by
    [restype]. *)
Definition wrapper (c : invocation) (e : Engine) : Engine * Z :=
  let '(e', rc) := libebph (convert_arguments c) e in
  (e', convert_result c rc).

(** An engine holding the sample profile, with task 1000 bound to it. *)
Definition sample_engine : Engine :=
  mkEngine sample_bpf {[ 1000 := (1000, 42) ]} {[ 42 := sample_path ]} ∅.

(* ===================================================================== *)
(** ** Facts about the ctypes model *)
(* ===================================================================== *)

Lemma unsigned_range (bits z : Z) : 0 <= bits -> 0 <= unsigned bits z < 2 ^ bits.
Proof. intros Hb. unfold unsigned. apply Z.mod_pos_bound. by apply Z.pow_pos_nonneg. Qed.

Lemma unsigned_id (bits z : Z) : 0 <= z < 2 ^ bits -> unsigned bits z = z.
Proof. intros Hz. unfold unsigned. by apply Z.mod_small. Qed.

Lemma uint64_id (z : Z) : 0 <= z < 2 ^ 64 -> uint64 z = z.
Proof. apply unsigned_id. Qed.

Lemma uint8_id (z : Z) : 0 <= z < 2 ^ 8 -> uint8 z = z.
Proof. apply unsigned_id. Qed.

Lemma uint64_idemp (z : Z) : uint64 (uint64 z) = uint64 z.
Proof. apply uint64_id, unsigned_range. lia. Qed.

Lemma int_id (z : Z) : - 2 ^ 31 <= z < 2 ^ 31 -> int z = z.
Proof.
  intros Hz. unfold int, signed.
  rewrite Z.mod_small; lia.
Qed.

Lemma flags_len_value : Z.of_nat flags_len = NUM_LSM * NUM_LSM.
Proof. by vm_compute. Qed.

Lemma sizeof_data : sizeof EBPHProfileDataStruct_t = NUM_LSM * NUM_LSM.
Proof. by vm_compute. Qed.

Lemma sizeof_data_nat : Z.to_nat (sizeof EBPHProfileDataStruct_t) = flags_len.
Proof. by vm_compute. Qed.

Lemma length_zero_flags : length zero_flags = flags_len.
Proof. apply length_replicate. Qed.

Lemma memcpy_all {A : Type} (dst src : list A) (n : nat) :
  length src = n -> length dst = n -> memcpy dst src n = src.
Proof.
  intros Hs Hd. unfold memcpy.
  rewrite take_ge by lia. rewrite drop_ge by lia. apply app_nil_r.
Qed.

Lemma memcpy_exact {A : Type} (dst src : list A) (n : nat) :
  length src = n -> memcpy dst src n = src ++ drop n dst.
Proof. intros Hs. unfold memcpy. rewrite take_ge by lia. by rewrite Hs. Qed.

(** Copying a matrix into zero-filled flags keeps [flags_len] entries. *)
Lemma memcpy_zero_flags (t : list Z) :
  memcpy zero_flags t flags_len = resize flags_len 0 t.
Proof.
  unfold memcpy, zero_flags. rewrite resize_spec, drop_replicate, length_take.
  do 2 f_equal. lia.
Qed.

Lemma c_string_nul_free (buf : list byte) : Forall (fun b => b <> x00) (c_string buf).
Proof.
  induction buf as [|b buf IH]; simpl; [constructor|].
  destruct (Byte.eqb b x00) eqn:E; constructor; [|done].
  by apply Byte.eqb_false.
Qed.

Lemma c_string_app_nul (s rest : list byte) :
  Forall (fun b => b <> x00) s -> c_string (s ++ x00 :: rest) = s.
Proof.
  induction 1 as [|b s Hb _ IH]; simpl; [done|].
  destruct (Byte.eqb b x00) eqn:E.
  - by apply Byte.byte_dec_bl in E.
  - by rewrite IH.
Qed.

Lemma c_string_id (s : list byte) : Forall (fun b => b <> x00) s -> c_string s = s.
Proof.
  induction 1 as [|b s Hb _ IH]; simpl; [done|].
  destruct (Byte.eqb b x00) eqn:E.
  - by apply Byte.byte_dec_bl in E.
  - by rewrite IH.
Qed.

Lemma c_string_idemp (buf : list byte) : c_string (c_string buf) = c_string buf.
Proof. apply c_string_id, c_string_nul_free. Qed.

Lemma c_string_prefix (buf : list byte) : c_string buf `prefix_of` buf.
Proof.
  induction buf as [|b buf IH]; simpl; [done|].
  destruct (Byte.eqb b x00); [apply prefix_nil|by apply prefix_cons].
Qed.

Lemma c_string_length (buf : list byte) : (length (c_string buf) <= length buf)%nat.
Proof. apply prefix_length, c_string_prefix. Qed.

(** A value that fits is stored, the field keeps its size, and it reads
    back as the value's bytes before its first NUL. *)
Lemma set_char_array_fits (cap : nat) (buf value : list byte) :
  length buf = cap -> (length (c_string value) <= cap)%nat ->
  exists buf', set_char_array cap buf value = Ok buf' /\
               length buf' = cap /\ c_string buf' = c_string value.
Proof.
  intros Hbuf Hfit. unfold set_char_array.
  pose proof (c_string_nul_free value) as Hnul.
  destruct (length (c_string value) <? cap)%nat eqn:Hlt.
  - apply Nat.ltb_lt in Hlt. eexists; split; [done|].
    rewrite memcpy_exact by (rewrite length_app; simpl; lia).
    split.
    + rewrite !length_app, length_drop. simpl. lia.
    + rewrite <- app_assoc. simpl. by apply c_string_app_nul.
  - apply Nat.ltb_ge in Hlt.
    assert (length (c_string value) = cap) as Heq by lia.
    rewrite (proj2 (Nat.eqb_eq _ _) Heq).
    eexists; split; [done|].
    rewrite memcpy_exact by done. rewrite drop_ge by lia. rewrite app_nil_r.
    split; [done|]. by apply c_string_id.
Qed.

(** A value that does not fit is refused. *)
Lemma set_char_array_long (cap : nat) (buf value : list byte) :
  (cap < length (c_string value))%nat -> set_char_array cap buf value = Raise ValueError.
Proof.
  intros Hlong. unfold set_char_array.
  destruct (length (c_string value) <? cap)%nat eqn:Hlt.
  - apply Nat.ltb_lt in Hlt. lia.
  - destruct (length (c_string value) =? cap)%nat eqn:Heq; [|done].
    apply Nat.eqb_eq in Heq. lia.
Qed.

(* ===================================================================== *)
(** ** What [load_into_bpf] stores and what [from_bpf] reads *)
(* ===================================================================== *)

(** [load_into_bpf] never raises; it writes one entry in each map. *)
Lemma load_into_bpf_stores (self : EBPHProfileStruct) (bpf : BPF) :
  load_into_bpf self bpf =
  Ok (mkBPF
        (<[uint64 (profile_key self) :=
             mkLeaf (uint8 (status self)) (uint64 (anomaly_count self))
               (uint64 (train_count self)) (uint64 (last_mod_count self))
               (uint64 (sequences self)) (uint64 (normal_time self))
               (uint64 (count self))]> (profiles bpf))
        (<[uint64 (profile_key self) :=
             memcpy zero_flags (flags (train self)) flags_len]> (training_data bpf))
        (<[uint64 (profile_key self) :=
             memcpy zero_flags (flags (test self)) flags_len]> (testing_data bpf))).
Proof.
  unfold load_into_bpf, memmove, setitem. rewrite sizeof_data_nat. reflexivity.
Qed.

(** Once the magic number is computed and the path is stored, [from_bpf]
    is a lookup in [profiles] followed by field-by-field copies. *)
Lemma from_bpf_reads (bpf : BPF) (exe0 : list byte) (key m : Z) (buf : list byte) :
  calculate_profile_magic __version__ = Ok m ->
  set_char_array PATH_MAX (replicate PATH_MAX x00) exe0 = Ok buf ->
  from_bpf bpf exe0 key =
  match profiles bpf !! uint64 key with
  | None => Raise KeyError
  | Some l =>
      Ok (mkProfile (uint64 m) (uint64 key) (uint8 (leaf_status l))
            (uint64 (leaf_anomaly_count l)) (uint64 (leaf_train_count l))
            (uint64 (leaf_last_mod_count l)) (uint64 (leaf_sequences l))
            (uint64 (leaf_normal_time l)) (uint64 (leaf_count l))
            (mkData (match training_data bpf !! uint64 key with
                     | Some t => memcpy zero_flags t flags_len
                     | None => zero_flags
                     end))
            (mkData (match testing_data bpf !! uint64 key with
                     | Some t => memcpy zero_flags t flags_len
                     | None => zero_flags
                     end))
            buf)
  end.
Proof.
  intros Hm Hbuf. unfold from_bpf. rewrite Hm.
  unfold set_exe, EBPHProfileStruct_new, set_profile_key, set_magic, getitem, memmove.
  cbn [Py.bind exe_buffer]. rewrite Hbuf. cbn [Py.bind].
  rewrite sizeof_data_nat.
  destruct (profiles bpf !! uint64 key) as [l|]; [|reflexivity].
  cbn [Py.bind].
  destruct (training_data bpf !! uint64 key) as [t|];
    destruct (testing_data bpf !! uint64 key) as [t'|]; reflexivity.
Qed.

(** The magic number fits the 64-bit field. *)
Lemma calculate_profile_magic_range (version : string) (m : Z) :
  calculate_profile_magic version = Ok m -> 0 <= m < 2 ^ 64.
Proof.
  unfold calculate_profile_magic. intros H.
  destruct (encode_ascii _) as [v|]; [|done]. cbn [Py.bind] in H.
  destruct (int16 _) as [n|]; [|done]. cbn [Py.bind] in H.
  injection H as <-.
  change 0xFFFF_FFFF_FFFF_FFFF with (Z.ones 64).
  rewrite Z.land_ones by lia. apply Z.mod_pos_bound. lia.
Qed.

(* ===================================================================== *)
(** ** [__eq__] *)
(* ===================================================================== *)

(** [__eq__] runs the assertions on the nine compared fields in order. *)
Lemma eq_unfold (self : EBPHProfileStruct) (other : object) :
  __eq__ self other =
  except_Exception (let* _ := assert_all (compared self) other in Ok true) false.
Proof.
  unfold __eq__, compared. cbn [assert_all].
  repeat match goal with
         | |- context [Py.bind (assert_same ?v other ?n) _] =>
             destruct (assert_same v other n) as [[]|]; cbn [Py.bind]; [|reflexivity]
         end.
  reflexivity.
Qed.

Lemma assert_all_ok (fields : list (string * value)) (other : object) :
  assert_all fields other = Ok tt <->
  Forall (fun nv => assert_same (snd nv) other (fst nv) = Ok tt) fields.
Proof.
  induction fields as [|[n v] l IH]; cbn [assert_all].
  - split; [constructor | reflexivity].
  - rewrite Forall_cons. cbn [fst snd].
    destruct (assert_same v other n) as [[]|e]; cbn [Py.bind].
    + rewrite IH. split; [by split | by intros [_ H]].
    + split; [discriminate | by intros [H _]].
Qed.

(** The first assertion that raises decides what the assertions raise. *)
Lemma assert_all_first_failure (before after : list (string * value)) (name : string)
    (mine : value) (other : object) (e : exn) :
  Forall (fun nv => assert_same (snd nv) other (fst nv) = Ok tt) before ->
  assert_same mine other name = Raise e ->
  assert_all (before ++ (name, mine) :: after) other = Raise e.
Proof.
  intros Hbefore Hraise.
  induction Hbefore as [|[n v] l Hnv _ IH]; cbn [app assert_all].
  - by rewrite Hraise.
  - cbn [fst snd] in Hnv. by rewrite Hnv.
Qed.

(** What makes one assertion raise: reading the attribute raises, the
    comparison raises, or the values are unequal ([AssertionError]). *)
Lemma assert_same_raises (mine : value) (other : object) (name : string) (e : exn) :
  assert_same mine other name = Raise e <->
  getattr other name = Raise e \/
  (exists theirs, getattr other name = Ok theirs /\ eq_truth mine theirs = Raise e) \/
  (exists theirs, getattr other name = Ok theirs /\ eq_truth mine theirs = Ok false /\
                  e = AssertionError).
Proof.
  unfold assert_same.
  destruct (getattr other name) as [theirs|e1] eqn:Hget; cbn [Py.bind].
  - destruct (eq_truth mine theirs) as [[]|e2] eqn:Hcmp; cbn [Py.bind Py.assert].
    + split; [discriminate|].
      intros [H | [(t & Ht & H) | (t & Ht & H & _)]]; congruence.
    + split.
      * intros [= <-]. right. right. by exists theirs.
      * intros [H | [(t & Ht & H) | (t & _ & _ & ->)]]; congruence.
    + split.
      * intros [= <-]. right. left. by exists theirs.
      * intros [H | [(t & Ht & H) | (t & Ht & H & _)]]; congruence.
  - split.
    + intros [= <-]. by left.
    + intros [H | [(t & H & _) | (t & H & _)]]; congruence.
Qed.

(** On two profile structures [__eq__] compares nine fields and nothing else. *)
Lemma eq_profiles_iff (self other : EBPHProfileStruct) :
  __eq__ self (Profile other) = Ok true <->
  profile_key self = profile_key other /\
  status self = status other /\
  anomaly_count self = anomaly_count other /\
  train_count self = train_count other /\
  last_mod_count self = last_mod_count other /\
  sequences self = sequences other /\
  normal_time self = normal_time other /\
  count self = count other /\
  exe self = exe other.
Proof.
  unfold __eq__, assert_same. cbn -[exe Z.eqb bool_decide].
  repeat match goal with
         | |- context [?x =? ?y] => destruct (Z.eqb_spec x y)
         end; cbn -[exe bool_decide];
    try (split; [discriminate | intros H; decompose [and] H; congruence]).
  destruct (bool_decide_reflect (exe self = exe other)); cbn.
  - split; [intros _; repeat split; assumption | reflexivity].
  - split; [discriminate | intros H; decompose [and] H; congruence].
Qed.

(** On two profile structures [__eq__] returns a truth value: nothing is
    raised. *)
Lemma eq_profiles_bool (self other : EBPHProfileStruct) :
  __eq__ self (Profile other) = Ok true \/ __eq__ self (Profile other) = Ok false.
Proof.
  unfold __eq__, assert_same. cbn -[exe Z.eqb bool_decide].
  repeat match goal with
         | |- context [?x =? ?y] => destruct (x =? y)
         end; cbn -[exe bool_decide]; try (by right).
  destruct (bool_decide (exe self = exe other)); cbn; [by left | by right].
Qed.

(** [__eq__] is true exactly when each of its nine assertions passes. *)
Lemma eq_true_iff (self : EBPHProfileStruct) (other : object) :
  __eq__ self other = Ok true <->
  Forall (fun nv => assert_same (snd nv) other (fst nv) = Ok tt) (compared self).
Proof.
  rewrite eq_unfold, <- assert_all_ok.
  destruct (assert_all (compared self) other) as [[]|e]; cbn [Py.bind except_Exception].
  - done.
  - split; [by destruct (is_Exception e) | discriminate].
Qed.

(** The first failing assertion decides the outcome: [False] for an
    exception that is an [Exception], the exception itself otherwise. *)
Lemma eq_first_failure (self : EBPHProfileStruct) (other : object)
    (before after : list (string * value)) (name : string) (mine : value) (e : exn) :
  compared self = before ++ (name, mine) :: after ->
  Forall (fun nv => assert_same (snd nv) other (fst nv) = Ok tt) before ->
  assert_same mine other name = Raise e ->
  __eq__ self other = if is_Exception e then Ok false else Raise e.
Proof.
  intros Hsplit Hbefore Hraise.
  rewrite eq_unfold, Hsplit, (assert_all_first_failure _ _ _ _ _ e Hbefore Hraise).
  reflexivity.
Qed.

(** Whatever [__eq__] raises is not an [Exception]. *)
Lemma eq_raises_base_exception (self : EBPHProfileStruct) (other : object) (e : exn) :
  __eq__ self other = Raise e -> is_Exception e = false.
Proof.
  rewrite eq_unfold.
  destruct (assert_all (compared self) other) as [[]|e']; cbn [Py.bind except_Exception].
  - discriminate.
  - destruct (is_Exception e') eqn:He'; [discriminate|]. by intros [= <-].
Qed.

(** C3 (amended) — Equality on profile structures is decided by the nine
    fields profile_key, status, anomaly_count, train_count,
    last_mod_count, sequences, normal_time, count and exe only: on two
    profile structures [__eq__] returns a truth value, True exactly when
    they agree on the nine; in particular a structure with any other
    magic, train matrix and test matrix is still equal.  For any other
    object the nine assertions run in order and the first one that fails
    decides: when reading the attribute or comparing it raises an
    exception that is an [Exception] (the [AttributeError] of a missing
    attribute, a [TypeError], the [AssertionError] of unequal values),
    the result is False; an exception outside [Exception]
    ([KeyboardInterrupt], [SystemExit], [GeneratorExit]) is not caught and
    reaches the caller.  Nothing else is ever raised. *)
Theorem eq_decided_by_nine_fields (self : EBPHProfileStruct) :
  (forall other : EBPHProfileStruct,
     (__eq__ self (Profile other) = Ok true <->
      profile_key self = profile_key other /\
      status self = status other /\
      anomaly_count self = anomaly_count other /\
      train_count self = train_count other /\
      last_mod_count self = last_mod_count other /\
      sequences self = sequences other /\
      normal_time self = normal_time other /\
      count self = count other /\
      exe self = exe other) /\
     (__eq__ self (Profile other) = Ok true \/ __eq__ self (Profile other) = Ok false)) /\
  (forall (m : Z) (tr te : EBPHProfileDataStruct),
     __eq__ self
       (Profile (mkProfile m (profile_key self) (status self) (anomaly_count self)
                   (train_count self) (last_mod_count self) (sequences self)
                   (normal_time self) (count self) tr te (exe_buffer self))) = Ok true) /\
  (forall (other : object) (before after : list (string * value)) (name : string)
          (mine : value) (e : exn),
     compared self = before ++ (name, mine) :: after ->
     Forall (fun nv => assert_same (snd nv) other (fst nv) = Ok tt) before ->
     getattr other name = Raise e \/
       (exists theirs, getattr other name = Ok theirs /\ eq_truth mine theirs = Raise e) \/
       (exists theirs, getattr other name = Ok theirs /\ eq_truth mine theirs = Ok false /\
                       e = AssertionError) ->
     (is_Exception e = true -> __eq__ self other = Ok false) /\
     (is_Exception e = false -> __eq__ self other = Raise e)) /\
  (forall (other : object) (e : exn),
     __eq__ self other = Raise e -> is_Exception e = false).
Proof.
  split; [|split; [|split]].
  - intros other. split; [apply eq_profiles_iff | apply eq_profiles_bool].
  - intros m tr te. apply eq_profiles_iff. repeat split.
  - intros other before after name mine e Hsplit Hbefore Hfail.
    apply assert_same_raises in Hfail.
    rewrite (eq_first_failure self other before after name mine e Hsplit Hbefore Hfail).
    split; intros ->; reflexivity.
  - intros other e. apply eq_raises_base_exception.
Qed.

(* ===================================================================== *)
(** ** Persistence round trip *)
(* ===================================================================== *)

Lemma memcpy_flags (d : EBPHProfileDataStruct) :
  wf_data d ->
  mkData (memcpy zero_flags (memcpy zero_flags (flags d) flags_len) flags_len) = d.
Proof.
  intros [Hlen _]. destruct d as [fl]. cbn [flags] in *.
  rewrite (memcpy_all zero_flags fl) by (done || apply length_zero_flags).
  by rewrite memcpy_all by (done || apply length_zero_flags).
Qed.

(** C1 — Round-trip persistence: for every profile structure [p] whose
    magic is the current one, [load_into_bpf p bpf] succeeds and
    [from_bpf] on the resulting maps, with [p]'s exe and profile key,
    returns a profile whose every persisted field (magic, profile_key,
    status, the six counters, the train matrix, the test matrix and exe)
    equals that of [p]; the reloaded profile also compares equal to [p]. *)
Theorem round_trip (p : EBPHProfileStruct) (bpf : BPF) :
  wf_profile p ->
  calculate_profile_magic __version__ = Ok (magic p) ->
  exists bpf' p',
    load_into_bpf p bpf = Ok bpf' /\
    from_bpf bpf' (exe p) (profile_key p) = Ok p' /\
    magic p' = magic p /\
    profile_key p' = profile_key p /\
    status p' = status p /\
    anomaly_count p' = anomaly_count p /\
    train_count p' = train_count p /\
    last_mod_count p' = last_mod_count p /\
    sequences p' = sequences p /\
    normal_time p' = normal_time p /\
    count p' = count p /\
    train p' = train p /\
    test p' = test p /\
    exe p' = exe p /\
    __eq__ p' (Profile p) = Ok true.
Proof.
  intros (Hmagic & Hkey & Hstatus & Han & Htc & Hlm & Hseq & Hnt & Hcount &
          Htrain & Htest & Hbuf) Hm.
  destruct (set_char_array_fits PATH_MAX (replicate PATH_MAX x00) (exe p))
    as (buf & Hset & Hlen & Hread).
  { apply length_replicate. }
  { unfold exe. rewrite c_string_idemp, <- Hbuf. apply c_string_length. }
  eexists _, _. split; [apply load_into_bpf_stores|].
  rewrite (from_bpf_reads _ _ _ _ _ Hm Hset). cbn [profiles training_data testing_data].
  rewrite !lookup_insert_eq.
  split; [reflexivity|].
  cbn [magic profile_key status anomaly_count train_count last_mod_count sequences
       normal_time count train test leaf_status leaf_anomaly_count leaf_train_count
       leaf_last_mod_count leaf_sequences leaf_normal_time leaf_count].
  rewrite ?uint64_idemp, !(uint64_id _ Hmagic), !(uint64_id _ Hkey), !(uint64_id _ Han),
    !(uint64_id _ Htc), !(uint64_id _ Hlm), !(uint64_id _ Hseq), !(uint64_id _ Hnt),
    !(uint64_id _ Hcount).
  assert (uint8 (uint8 (status p)) = status p) as ->.
  { by rewrite !(uint8_id _ Hstatus). }
  rewrite !memcpy_flags by done.
  assert (exe (mkProfile (magic p) (profile_key p) (status p) (anomaly_count p)
                 (train_count p) (last_mod_count p) (sequences p) (normal_time p)
                 (count p) (train p) (test p) buf) = exe p) as Hexe.
  { unfold exe at 1. cbn [exe_buffer]. rewrite Hread. apply c_string_idemp. }
  repeat (split; [first [reflexivity | exact Hexe]|]).
  apply eq_profiles_iff. cbn [profile_key status anomaly_count train_count last_mod_count
    sequences normal_time count]. repeat split. exact Hexe.
Qed.

(* ===================================================================== *)
(** ** The persisted layout *)
(* ===================================================================== *)

(** In zero-filled memory a stored path is followed by NULs up to the
    field's capacity. *)
Lemma set_char_array_fresh (cap : nat) (value buf : list byte) :
  set_char_array cap (replicate cap x00) value = Ok buf ->
  buf = c_string value ++ replicate (cap - length (c_string value)) x00.
Proof.
  unfold set_char_array. intros H.
  destruct (length (c_string value) <? cap)%nat eqn:Hlt.
  - apply Nat.ltb_lt in Hlt. injection H as <-.
    rewrite memcpy_exact by (rewrite length_app; simpl; lia).
    rewrite drop_replicate, <- app_assoc. f_equal.
    replace (cap - length (c_string value))%nat
      with (S (cap - S (length (c_string value)))) by lia.
    reflexivity.
  - destruct (length (c_string value) =? cap)%nat eqn:Heq; [|done].
    apply Nat.eqb_eq in Heq. injection H as <-.
    rewrite memcpy_exact by done. rewrite drop_replicate.
    by replace (cap - length (c_string value))%nat with 0%nat by lia.
Qed.

(** Field offsets with the native alignment ctypes applies: the one-byte
    status is followed by seven bytes of padding. *)
Lemma field_offsets :
  offsets EBPHProfileStruct_fields =
  [ ("magic", 0); ("profile_key", 8); ("status", 16); ("anomaly_count", 24);
    ("train_count", 32); ("last_mod_count", 40); ("sequences", 48);
    ("normal_time", 56); ("count", 64); ("train", 72);
    ("test", 72 + NUM_LSM * NUM_LSM); ("exe", 72 + 2 * (NUM_LSM * NUM_LSM)) ].
Proof. by vm_compute. Qed.

(** A path is stored exactly when it fits the field. *)
Lemma set_exe_fits (value : list byte) :
  (exists p, set_exe value EBPHProfileStruct_new = Ok p) <->
  (length (c_string value) <= PATH_MAX)%nat.
Proof.
  unfold set_exe, EBPHProfileStruct_new. cbn [exe_buffer]. split.
  - intros [p Hp].
    destruct (decide (length (c_string value) <= PATH_MAX)%nat) as [|Hlong]; [done|].
    rewrite set_char_array_long in Hp by lia. done.
  - intros Hfit.
    destruct (set_char_array_fits PATH_MAX (replicate PATH_MAX x00) value)
      as (buf & -> & _); [apply length_replicate | done |].
    cbn [Py.bind]. by eexists.
Qed.

(** After a path stored in fresh memory the field holds a NUL exactly
    when the path is shorter than the field. *)
Lemma fresh_field_terminated (cap : nat) (value : list byte) :
  x00 ∈ c_string value ++ replicate (cap - length (c_string value)) x00 <->
  (length (c_string value) < cap)%nat.
Proof.
  rewrite elem_of_app, elem_of_replicate. split.
  - intros [Hin | [_ Hpad]]; [|lia].
    pose proof (c_string_nul_free value) as Hfree.
    rewrite Forall_forall in Hfree. by destruct (Hfree _ Hin).
  - intros Hlt. right. split; [done | lia].
Qed.

(** C2 (amended) — The persisted profile layout places its fields in
    exactly the order magic, profile_key, status, anomaly_count,
    train_count, last_mod_count, sequences, normal_time, count, train
    matrix, test matrix, exe path; magic, profile_key and the six counters
    are 8-byte unsigned integers, status is one byte (followed by seven
    bytes of padding, so that the counters start at offset 24), each
    matrix is [NUM_LSM * NUM_LSM] one-byte flag entries, and the
    executable path is last, a character array of fixed capacity
    [PATH_MAX].  A path is stored exactly when its bytes before the first
    NUL number at most [PATH_MAX]; stored into fresh memory it is followed
    by NULs up to the capacity and reads back as the bytes before the
    first NUL; the field holds a terminating NUL exactly when the path is
    shorter than [PATH_MAX]: a path of [PATH_MAX] bytes fills the field
    and is not null-terminated. *)
Theorem persisted_layout :
  map fst EBPHProfileStruct_fields =
    [ "magic"; "profile_key"; "status"; "anomaly_count"; "train_count";
      "last_mod_count"; "sequences"; "normal_time"; "count"; "train"; "test"; "exe" ] /\
  map (fun f => sizeof (snd f)) EBPHProfileStruct_fields =
    [ 8; 8; 1; 8; 8; 8; 8; 8; 8; NUM_LSM * NUM_LSM; NUM_LSM * NUM_LSM;
      Z.of_nat PATH_MAX ] /\
  offsets EBPHProfileStruct_fields =
    [ ("magic", 0); ("profile_key", 8); ("status", 16); ("anomaly_count", 24);
      ("train_count", 32); ("last_mod_count", 40); ("sequences", 48);
      ("normal_time", 56); ("count", 64); ("train", 72);
      ("test", 72 + NUM_LSM * NUM_LSM); ("exe", 72 + 2 * (NUM_LSM * NUM_LSM)) ] /\
  Forall (fun name => field_type EBPHProfileStruct_fields name = Some c_uint64)
    [ "magic"; "profile_key"; "anomaly_count"; "train_count"; "last_mod_count";
      "sequences"; "normal_time"; "count" ] /\
  field_type EBPHProfileStruct_fields "status" = Some c_uint8 /\
  Forall (fun name => field_type EBPHProfileStruct_fields name =
                      Some (Structure [("flags", c_array c_uint8 (NUM_LSM * NUM_LSM))]))
    [ "train"; "test" ] /\
  sizeof c_uint64 = 8 /\ sizeof c_uint8 = 1 /\ sizeof c_char = 1 /\
  last EBPHProfileStruct_fields = Some ("exe", c_array c_char (Z.of_nat PATH_MAX)) /\
  (forall value : list byte,
     (exists p, set_exe value EBPHProfileStruct_new = Ok p) <->
     (length (c_string value) <= PATH_MAX)%nat) /\
  (forall (value : list byte) (p : EBPHProfileStruct),
     set_exe value EBPHProfileStruct_new = Ok p ->
     length (exe_buffer p) = PATH_MAX /\
     exe_buffer p = c_string value ++ replicate (PATH_MAX - length (c_string value)) x00 /\
     exe p = c_string value /\
     Forall (fun b => b <> x00) (exe p) /\
     (x00 ∈ exe_buffer p <-> (length (c_string value) < PATH_MAX)%nat)).
Proof.
  split; [reflexivity|].
  split.
  { unfold EBPHProfileStruct_fields. cbn [map snd]. rewrite sizeof_data.
    cbn [sizeof]. by rewrite Z.mul_1_l. }
  split; [exact field_offsets|].
  split; [by repeat constructor|].
  split; [reflexivity|].
  split; [by repeat constructor|].
  do 4 (split; [reflexivity|]).
  split; [exact set_exe_fits|].
  intros value p. unfold set_exe, EBPHProfileStruct_new. cbn [exe_buffer].
  destruct (set_char_array _ _ _) as [buf|] eqn:Hset; [|done].
  cbn [Py.bind]. intros [= <-]. unfold exe. cbn [exe_buffer set_exe_buffer].
  pose proof (set_char_array_fresh _ _ _ Hset) as Hbuf.
  assert (length (c_string value) <= PATH_MAX)%nat as Hfit.
  { destruct (decide (length (c_string value) <= PATH_MAX)%nat) as [|Hn]; [done|].
    rewrite set_char_array_long in Hset by lia. done. }
  destruct (set_char_array_fits PATH_MAX (replicate PATH_MAX x00) value)
    as (buf' & Hset' & Hlen & Hread); [apply length_replicate | done |].
  rewrite Hset in Hset'. injection Hset' as <-.
  split; [exact Hlen|]. split; [exact Hbuf|]. split; [exact Hread|].
  split; [rewrite Hread; apply c_string_nul_free|].
  rewrite Hbuf. apply fresh_field_terminated.
Qed.

(* ===================================================================== *)
(** ** [from_bpf]: which errors it raises *)
(* ===================================================================== *)

(** An exe path longer than the field is refused with [ValueError] before
    any map is consulted. *)
Lemma from_bpf_long_exe (bpf : BPF) (exe0 : list byte) (key m : Z) :
  calculate_profile_magic __version__ = Ok m ->
  (PATH_MAX < length (c_string exe0))%nat ->
  from_bpf bpf exe0 key = Raise ValueError.
Proof.
  intros Hm Hlong. unfold from_bpf, set_exe. rewrite Hm. cbn [Py.bind].
  unfold EBPHProfileStruct_new, set_profile_key, set_magic. cbn [exe_buffer].
  by rewrite set_char_array_long.
Qed.

(** What [from_bpf] reads for a matrix: the stored bytes, or zeros. *)
Lemma matrix_read (table : gmap Z (list Z)) (key : Z) :
  match table !! key with
  | Some t => memcpy zero_flags t flags_len
  | None => zero_flags
  end = matrix table key.
Proof.
  unfold matrix. destruct (table !! key) as [t|]; cbn [default].
  - apply memcpy_zero_flags.
  - unfold zero_flags. by rewrite resize_replicate.
Qed.

(** C9 (amended) — For an exe whose bytes before the first NUL fit the
    [PATH_MAX]-byte field (and a version string the magic number can be
    computed from), [from_bpf] raises [KeyError] exactly when the key is
    absent from the [profiles] map, and raises nothing else.  When the key
    is present, no error is raised whatever [training_data] and
    [testing_data] hold: a matrix whose map lacks the key is left all
    zeros, while magic, profile_key, exe and the scalar header fields are
    filled in. *)
Theorem from_bpf_key_error (bpf : BPF) (exe0 : list byte) (key m : Z) :
  calculate_profile_magic __version__ = Ok m ->
  (length (c_string exe0) <= PATH_MAX)%nat ->
  (from_bpf bpf exe0 key = Raise KeyError <-> profiles bpf !! uint64 key = None) /\
  (forall e, from_bpf bpf exe0 key = Raise e -> e = KeyError) /\
  (forall l, profiles bpf !! uint64 key = Some l ->
     exists p,
       from_bpf bpf exe0 key = Ok p /\
       magic p = m /\
       profile_key p = uint64 key /\
       exe p = c_string exe0 /\
       status p = uint8 (leaf_status l) /\
       anomaly_count p = uint64 (leaf_anomaly_count l) /\
       train_count p = uint64 (leaf_train_count l) /\
       last_mod_count p = uint64 (leaf_last_mod_count l) /\
       sequences p = uint64 (leaf_sequences l) /\
       normal_time p = uint64 (leaf_normal_time l) /\
       count p = uint64 (leaf_count l) /\
       (training_data bpf !! uint64 key = None -> flags (train p) = zero_flags) /\
       (testing_data bpf !! uint64 key = None -> flags (test p) = zero_flags)).
Proof.
  intros Hm Hfit.
  destruct (set_char_array_fits PATH_MAX (replicate PATH_MAX x00) exe0)
    as (buf & Hset & Hlen & Hread); [apply length_replicate | done |].
  rewrite (from_bpf_reads bpf exe0 key m buf Hm Hset).
  destruct (profiles bpf !! uint64 key) as [l|] eqn:Hl.
  - split; [split; discriminate|]. split; [discriminate|].
    intros l' [= <-]. eexists. split; [reflexivity|].
    cbn [magic profile_key status anomaly_count train_count last_mod_count sequences
         normal_time count train test flags].
    split; [apply uint64_id, (calculate_profile_magic_range _ _ Hm)|].
    split; [reflexivity|].
    split; [unfold exe; cbn [exe_buffer]; exact Hread|].
    do 7 (split; [reflexivity|]).
    split; intros ->; reflexivity.
  - split; [done|]. split; [by intros e [= <-]|]. discriminate.
Qed.

(* ===================================================================== *)
(** ** The commands: signatures, status codes, tolerize *)
(* ===================================================================== *)

(** Every command's result passes through [c_int]. *)
Lemma convert_result_int (c : invocation) (rc : Z) : convert_result c rc = int rc.
Proof. by destruct c. Qed.

(** Every argument passes through the C type its annotation names. *)
Lemma convert_arguments_typed (c : invocation) :
  convert_arguments c =
  match c with
  | set_setting key value => set_setting (int key) (uint64 value)
  | normalize_profile key => normalize_profile (uint64 key)
  | normalize_process pid => normalize_process (uint32 pid)
  | sensitize_profile key => sensitize_profile (uint64 key)
  | sensitize_process pid => sensitize_process (uint32 pid)
  | tolerize_profile key => tolerize_profile (uint64 key)
  | tolerize_process pid => tolerize_process (uint32 pid)
  | bootstrap_process key pid tgid pathname =>
      bootstrap_process (uint64 key) (uint32 pid) (uint32 tgid) pathname
  end.
Proof. by destruct c. Qed.

Lemma matrix_length (table : gmap Z (list Z)) (key : Z) :
  length (matrix table key) = flags_len.
Proof. apply length_resize. Qed.

(** After an OR-merge every bit of the second operand is in the result. *)
Lemma zip_with_lor_covers (a b : list Z) (i : nat) (x : Z) :
  length a = length b ->
  b !! i = Some x ->
  exists y, zip_with Z.lor a b !! i = Some y /\
            forall n, Z.testbit x n = true -> Z.testbit y n = true.
Proof.
  intros Hlen Hb.
  destruct (lookup_lt_is_Some_2 a i) as [w Hw].
  { rewrite Hlen. by eapply lookup_lt_Some. }
  exists (Z.lor w x). split.
  - rewrite lookup_zip_with, Hw, Hb. reflexivity.
  - intros n Hn. rewrite Z.lor_spec, Hn. apply orb_true_r.
Qed.

(** C4 — Tolerize convergence: after a successful
    [tolerize_profile(profile_key)] the profile existed before and still
    exists, its train matrix is the bitwise OR of the old train and test
    matrices, its test matrix is unchanged, every bit set in the test
    matrix is also set in the train matrix, and its anomaly_count is 0.
    The profile before and after is the one [from_bpf] reads. *)
Theorem tolerize_convergence (e e' : Engine) (key : Z) (exe0 : list byte) (m : Z) :
  calculate_profile_magic __version__ = Ok m ->
  (length (c_string exe0) <= PATH_MAX)%nat ->
  wrapper (tolerize_profile key) e = (e', 0) ->
  exists p p',
    from_bpf (maps e) exe0 key = Ok p /\
    from_bpf (maps e') exe0 key = Ok p' /\
    flags (train p') = zip_with Z.lor (flags (train p)) (flags (test p)) /\
    test p' = test p /\
    (forall (i : nat) (x : Z), flags (test p') !! i = Some x ->
       exists y, flags (train p') !! i = Some y /\
                 forall n, Z.testbit x n = true -> Z.testbit y n = true) /\
    anomaly_count p' = 0.
Proof.
  intros Hm Hfit Hcall.
  destruct (set_char_array_fits PATH_MAX (replicate PATH_MAX x00) exe0)
    as (buf & Hset & _ & _); [apply length_replicate | done |].
  unfold wrapper in Hcall. rewrite convert_arguments_typed in Hcall.
  cbn [libebph] in Hcall. unfold libebph_tolerize_profile in Hcall.
  rewrite !(from_bpf_reads _ exe0 key m buf Hm Hset).
  destruct (profiles (maps e) !! uint64 key) as [l|] eqn:Hl;
    rewrite convert_result_int in Hcall.
  2: { apply (f_equal snd) in Hcall. by vm_compute in Hcall. }
  apply (f_equal fst) in Hcall. cbn [fst] in Hcall. subst e'.
  cbn [maps with_maps profiles training_data testing_data].
  rewrite !lookup_insert_eq. eexists _, _.
  split; [reflexivity|]. split; [reflexivity|].
  cbn [train test flags anomaly_count leaf_anomaly_count].
  rewrite !matrix_read, memcpy_zero_flags.
  assert (length (zip_with Z.lor (matrix (training_data (maps e)) (uint64 key))
                    (matrix (testing_data (maps e)) (uint64 key))) = flags_len) as Hlen.
  { rewrite length_zip_with, !matrix_length. lia. }
  rewrite resize_all_alt by done.
  split; [reflexivity|]. split; [reflexivity|].
  split; [|reflexivity].
  intros i x Hx. apply zip_with_lor_covers; [|done].
  by rewrite !matrix_length.
Qed.

(** The three [*_profile] commands fail only for an unknown key. *)
Lemma profile_command_status (f : Z -> Engine -> Engine * Z) (key : Z) (e : Engine) :
  f = libebph_normalize_profile \/ f = libebph_sensitize_profile \/
    f = libebph_tolerize_profile ->
  (is_Some (profiles (maps e) !! key) /\ (f key e).2 = 0) \/
  (profiles (maps e) !! key = None /\ (f key e).2 = - ENOENT /\ (f key e).1 = e).
Proof.
  intros [-> | [-> | ->]];
    unfold libebph_normalize_profile, libebph_sensitize_profile, libebph_tolerize_profile;
    destruct (profiles (maps e) !! key) as [l|]; cbn [fst snd]; eauto.
Qed.

(** The C side of every command: status 0 when the specification lets it
    succeed, otherwise a negative error number and an unchanged state. *)
Lemma libebph_status (c : invocation) (e : Engine) :
  (succeeds c e /\ (libebph c e).2 = 0) \/
  (~ succeeds c e /\
   ((libebph c e).2 = - ENOENT \/ (libebph c e).2 = - EINVAL) /\
   (libebph c e).1 = e).
Proof.
  assert (forall f key,
            f = libebph_normalize_profile \/ f = libebph_sensitize_profile \/
              f = libebph_tolerize_profile ->
            (is_Some (profiles (maps e) !! key) /\ (f key e).2 = 0) \/
            (~ is_Some (profiles (maps e) !! key) /\
             ((f key e).2 = - ENOENT \/ (f key e).2 = - EINVAL) /\ (f key e).1 = e))
    as Hprofile.
  { intros f key Hf.
    destruct (profile_command_status f key e Hf) as [|(Hnone & Hrc & He)]; [by left|].
    right. rewrite Hnone. split; [by intros [? ?]|]. eauto. }
  assert (forall f pid,
            f = libebph_normalize_profile \/ f = libebph_sensitize_profile \/
              f = libebph_tolerize_profile ->
            ((exists tgid key, processes e !! pid = Some (tgid, key) /\
                               is_Some (profiles (maps e) !! key)) /\
             (libebph_for_process f pid e).2 = 0) \/
            (~ (exists tgid key, processes e !! pid = Some (tgid, key) /\
                                 is_Some (profiles (maps e) !! key)) /\
             ((libebph_for_process f pid e).2 = - ENOENT \/
              (libebph_for_process f pid e).2 = - EINVAL) /\
             (libebph_for_process f pid e).1 = e))
    as Hprocess.
  { intros f pid Hf. unfold libebph_for_process.
    destruct (processes e !! pid) as [[tgid key]|] eqn:Hpid.
    - destruct (Hprofile f key Hf) as [[Hsome Hrc]|(Hnone & Hrc & He)].
      + left. eauto.
      + right. split; [|done]. intros (tgid' & key' & [= <- <-] & Hsome). done.
    - right. cbn [fst snd]. split; [|eauto]. by intros (? & ? & ? & _). }
  destruct c as [key value|key|pid|key|pid|key|pid|key pid tgid pathname];
    cbn [libebph succeeds]; eauto 6.
  - unfold libebph_set_setting. case_bool_decide; cbn [fst snd]; eauto.
  - unfold libebph_bootstrap_process.
    destruct (valid_pathname pathname); cbn [negb fst snd]; [by left|].
    right. split; [discriminate|]. eauto.
Qed.

(** C5 — Every administrative command is registered with exactly the
    typed scalar arguments of its annotation (bootstrap_process: 64-bit
    profile key, 32-bit pid, 32-bit tgid, char-pointer pathname;
    the [_profile] commands: a 64-bit profile key; the [_process]
    commands: a 32-bit pid; set_setting: an int key and a 64-bit value)
    and with result type [c_int]; a call returns a 32-bit integer status
    that is 0 when the command succeeds and a negative error code (profile
    or task not found, invalid argument) when it fails, in which case
    nothing is changed. *)
Theorem commands_return_status (c : invocation) (e : Engine) :
  Lib =
    [ ("set_setting", mkForeign [c_int; c_uint64] (Some c_int));
      ("normalize_profile", mkForeign [c_uint64] (Some c_int));
      ("normalize_process", mkForeign [c_uint32] (Some c_int));
      ("sensitize_profile", mkForeign [c_uint64] (Some c_int));
      ("sensitize_process", mkForeign [c_uint32] (Some c_int));
      ("tolerize_profile", mkForeign [c_uint64] (Some c_int));
      ("tolerize_process", mkForeign [c_uint32] (Some c_int));
      ("bootstrap_process",
         mkForeign [c_uint64; c_uint32; c_uint32; c_char_p] (Some c_int)) ] /\
  is_Some (Lib_lookup (command_name c)) /\
  - 2 ^ 31 <= (wrapper c e).2 < 2 ^ 31 /\
  (succeeds (convert_arguments c) e -> (wrapper c e).2 = 0) /\
  (~ succeeds (convert_arguments c) e ->
     ((wrapper c e).2 = - ENOENT \/ (wrapper c e).2 = - EINVAL) /\
     (wrapper c e).2 < 0 /\
     (wrapper c e).1 = e).
Proof.
  split; [reflexivity|].
  split; [by destruct c; eexists|].
  unfold wrapper.
  destruct (libebph (convert_arguments c) e) as [e' rc] eqn:Hrun.
  rewrite convert_result_int. cbn [fst snd].
  destruct (libebph_status (convert_arguments c) e)
    as [[Hok Hrc]|(Hfail & Hrc & He)]; rewrite Hrun in *; cbn [fst snd] in *.
  - subst rc. split; [by vm_compute|]. split; [done|]. intros Hn. by destruct Hn.
  - split; [destruct Hrc as [-> | ->]; by vm_compute|].
    split; [intros Hok; by destruct Hfail|].
    intros _. destruct Hrc as [-> | ->]; (split; [|split; [by vm_compute|done]]);
      [left|right]; by vm_compute.
Qed.

(* ===================================================================== *)
(** ** How [load_into_bpf] and [from_bpf] compose *)
(* ===================================================================== *)

(** [from_bpf] consults the maps only at the (wrapped) key. *)
Lemma from_bpf_ext (bpf1 bpf2 : BPF) (exe0 : list byte) (key : Z) :
  profiles bpf1 !! uint64 key = profiles bpf2 !! uint64 key ->
  training_data bpf1 !! uint64 key = training_data bpf2 !! uint64 key ->
  testing_data bpf1 !! uint64 key = testing_data bpf2 !! uint64 key ->
  from_bpf bpf1 exe0 key = from_bpf bpf2 exe0 key.
Proof.
  intros Hp Htr Hte. unfold from_bpf, getitem. by rewrite Hp, Htr, Hte.
Qed.

(** X3 — Loading a profile leaves every other key as it was: for a key
    different (as a 64-bit value) from the loaded profile's,
    [from_bpf] gives the same result, or the same error, before and after
    [load_into_bpf]. *)
Theorem load_into_bpf_other_keys (p : EBPHProfileStruct) (bpf : BPF)
    (exe0 : list byte) (key : Z) :
  uint64 key <> uint64 (profile_key p) ->
  exists bpf',
    load_into_bpf p bpf = Ok bpf' /\
    from_bpf bpf' exe0 key = from_bpf bpf exe0 key.
Proof.
  intros Hne. eexists. split; [apply load_into_bpf_stores|].
  apply from_bpf_ext; cbn [profiles training_data testing_data];
    by rewrite lookup_insert_ne.
Qed.

(** X4 — The last load wins and loads of different keys commute: loading
    [q] over a profile [p] with the same key leaves the maps as loading
    [q] alone does (so loading twice is loading once), and two loads
    under different keys give the same maps in either order. *)
Theorem load_into_bpf_overwrites_and_commutes (p q : EBPHProfileStruct) (bpf : BPF) :
  (uint64 (profile_key p) = uint64 (profile_key q) ->
   (let* bpf1 := load_into_bpf p bpf in load_into_bpf q bpf1) = load_into_bpf q bpf) /\
  (let* bpf1 := load_into_bpf p bpf in load_into_bpf p bpf1) = load_into_bpf p bpf /\
  (uint64 (profile_key p) <> uint64 (profile_key q) ->
   (let* bpf1 := load_into_bpf p bpf in load_into_bpf q bpf1) =
   (let* bpf1 := load_into_bpf q bpf in load_into_bpf p bpf1)).
Proof.
  rewrite !load_into_bpf_stores. cbn [Py.bind].
  rewrite !load_into_bpf_stores. cbn [profiles training_data testing_data].
  split; [|split].
  - intros ->. by rewrite !insert_insert_eq.
  - by rewrite !insert_insert_eq.
  - intros Hne. do 2 f_equal; by apply insert_insert_ne.
Qed.

(** X5 — Profile keys are taken modulo 2^64: [from_bpf] with a key
    shifted by any multiple of 2^64 (a negative key included) reads the
    same entries and returns the same profile or error. *)
Theorem from_bpf_key_wraps (bpf : BPF) (exe0 : list byte) (key n : Z) :
  from_bpf bpf exe0 (key + n * 2 ^ 64) = from_bpf bpf exe0 key /\
  from_bpf bpf exe0 (uint64 key) = from_bpf bpf exe0 key.
Proof.
  assert (uint64 (key + n * 2 ^ 64) = uint64 key) as Hshift.
  { unfold uint64, unsigned. apply Z_mod_plus_full. }
  unfold from_bpf, set_profile_key.
  by rewrite Hshift, uint64_idemp.
Qed.

Lemma c_string_cut (a b : list byte) : c_string (a ++ x00 :: b) = c_string a.
Proof.
  induction a as [|c a IH]; [reflexivity|].
  cbn [app c_string]. destruct (Byte.eqb c x00); [reflexivity|]. by rewrite IH.
Qed.

(** X6 — The exe passed to [from_bpf] counts only up to its first NUL
    byte: anything after a NUL is ignored, so two byte strings with the
    same bytes before their first NUL give the same profile or error. *)
Theorem from_bpf_exe_cut_at_nul (bpf : BPF) (a b : list byte) (key : Z) :
  from_bpf bpf (a ++ x00 :: b) key = from_bpf bpf a key /\
  from_bpf bpf (c_string a) key = from_bpf bpf a key.
Proof.
  unfold from_bpf, set_exe, set_char_array.
  by rewrite c_string_cut, c_string_idemp.
Qed.

(** X7 — Every profile [from_bpf] returns is a well-formed structure:
    provided the stored matrices hold bytes, each of its fields lies in
    the range of its C type, both matrices have [NUM_LSM * NUM_LSM]
    entries, and the exe memory has [PATH_MAX] bytes, whatever values the
    [profiles] entry holds. *)
Theorem from_bpf_well_formed (bpf : BPF) (exe0 : list byte) (key : Z)
    (p : EBPHProfileStruct) :
  (forall t, training_data bpf !! uint64 key = Some t ->
             Forall (fun b => 0 <= b < 2 ^ 8) t) ->
  (forall t, testing_data bpf !! uint64 key = Some t ->
             Forall (fun b => 0 <= b < 2 ^ 8) t) ->
  from_bpf bpf exe0 key = Ok p ->
  wf_profile p.
Proof.
  intros Htrain Htest Hfrom.
  destruct (calculate_profile_magic __version__) as [m|e] eqn:Hm.
  2: { unfold from_bpf in Hfrom. by rewrite Hm in Hfrom. }
  destruct (set_char_array PATH_MAX (replicate PATH_MAX x00) exe0) as [buf|e] eqn:Hset.
  2: { unfold from_bpf, set_exe, EBPHProfileStruct_new, set_profile_key, set_magic in Hfrom.
       rewrite Hm in Hfrom. cbn [Py.bind exe_buffer] in Hfrom. by rewrite Hset in Hfrom. }
  assert (length buf = PATH_MAX) as Hbuf.
  { destruct (decide (length (c_string exe0) <= PATH_MAX)%nat) as [Hfit|Hlong].
    - destruct (set_char_array_fits PATH_MAX (replicate PATH_MAX x00) exe0)
        as (buf' & Hset' & Hlen & _); [apply length_replicate | done |].
      congruence.
    - rewrite set_char_array_long in Hset by lia. done. }
  rewrite (from_bpf_reads bpf exe0 key m buf Hm Hset) in Hfrom.
  destruct (profiles bpf !! uint64 key) as [l|]; [|done].
  injection Hfrom as <-. rewrite !matrix_read.
  assert (forall table : gmap Z (list Z),
            (forall t, table !! uint64 key = Some t -> Forall (fun b => 0 <= b < 2 ^ 8) t) ->
            wf_data (mkData (matrix table (uint64 key)))) as Hdata.
  { intros table Hbytes. split; [apply matrix_length|].
    cbn [flags]. unfold matrix. apply Forall_resize; [lia|].
    destruct (table !! uint64 key) as [t|]; cbn [default].
    - by apply Hbytes.
    - apply Forall_replicate. lia. }
  unfold wf_profile.
  cbn [magic profile_key status anomaly_count train_count last_mod_count sequences
       normal_time count train test exe_buffer].
  repeat split; try (apply unsigned_range; lia); try (by apply Hdata); done.
Qed.

(** X8 — The maps keep neither the magic number nor the exe path: after
    [load_into_bpf p], [from_bpf] with any exe that fits returns a profile
    with the magic of the running version and the exe of the call,
    whatever [p]'s were, and with [p]'s key, status, counters and
    matrices; it compares equal to [p] exactly when the exe passed reads
    as [p]'s. *)
Theorem reload_takes_magic_and_exe_from_call (p : EBPHProfileStruct) (bpf : BPF)
    (exe0 : list byte) (m : Z) :
  wf_profile p ->
  calculate_profile_magic __version__ = Ok m ->
  (length (c_string exe0) <= PATH_MAX)%nat ->
  exists bpf' p',
    load_into_bpf p bpf = Ok bpf' /\
    from_bpf bpf' exe0 (profile_key p) = Ok p' /\
    magic p' = m /\
    exe p' = c_string exe0 /\
    profile_key p' = profile_key p /\
    status p' = status p /\
    anomaly_count p' = anomaly_count p /\
    train_count p' = train_count p /\
    last_mod_count p' = last_mod_count p /\
    sequences p' = sequences p /\
    normal_time p' = normal_time p /\
    count p' = count p /\
    train p' = train p /\
    test p' = test p /\
    __eq__ p' (Profile p) = Ok (bool_decide (c_string exe0 = exe p)).
Proof.
  intros (Hmagic & Hkey & Hstatus & Han & Htc & Hlm & Hseq & Hnt & Hcount &
          Htrain & Htest & Hbuf) Hm Hfit.
  destruct (set_char_array_fits PATH_MAX (replicate PATH_MAX x00) exe0)
    as (buf & Hset & Hlen & Hread); [apply length_replicate | done |].
  eexists _, _. split; [apply load_into_bpf_stores|].
  rewrite (from_bpf_reads _ _ _ _ _ Hm Hset). cbn [profiles training_data testing_data].
  rewrite !lookup_insert_eq.
  split; [reflexivity|].
  cbn [magic profile_key status anomaly_count train_count last_mod_count sequences
       normal_time count train test leaf_status leaf_anomaly_count leaf_train_count
       leaf_last_mod_count leaf_sequences leaf_normal_time leaf_count].
  rewrite ?uint64_idemp, !(uint64_id _ Hkey), !(uint64_id _ Han),
    !(uint64_id _ Htc), !(uint64_id _ Hlm), !(uint64_id _ Hseq), !(uint64_id _ Hnt),
    !(uint64_id _ Hcount), (uint64_id m (calculate_profile_magic_range _ _ Hm)).
  assert (uint8 (uint8 (status p)) = status p) as ->.
  { by rewrite !(uint8_id _ Hstatus). }
  rewrite !memcpy_flags by done.
  assert (exe (mkProfile m (profile_key p) (status p) (anomaly_count p)
                 (train_count p) (last_mod_count p) (sequences p) (normal_time p)
                 (count p) (train p) (test p) buf) = c_string exe0) as Hexe.
  { unfold exe at 1. cbn [exe_buffer]. exact Hread. }
  split; [reflexivity|]. split; [exact Hexe|].
  do 10 (split; [reflexivity|]).
  destruct (bool_decide_reflect (c_string exe0 = exe p)) as [Hsame|Hother].
  - apply eq_profiles_iff. rewrite Hexe.
    cbn [profile_key status anomaly_count train_count last_mod_count sequences
         normal_time count].
    repeat split. exact Hsame.
  - match goal with
    | |- __eq__ ?q _ = _ => destruct (eq_profiles_bool q p) as [Htrue|Hfalse]
    end; [|exact Hfalse].
    apply eq_profiles_iff in Htrue. rewrite Hexe in Htrue.
    by destruct Htrue as (_ & _ & _ & _ & _ & _ & _ & _ & ?).
Qed.

(** X9 — The commands receive each argument modulo the C type of its
    annotation, one argument independently of the others: shifting a
    profile key or a setting value by any multiple of 2^64, a pid or a
    tgid by any multiple of 2^32, or a setting key by any multiple of
    2^32, each by a multiple of its own, issues the very same command
    with the same outcome. *)
Theorem wrapper_arguments_wrap (e : Engine) :
  (forall key value n m,
     wrapper (set_setting (key + n * 2 ^ 32) (value + m * 2 ^ 64)) e =
     wrapper (set_setting key value) e) /\
  (forall key n,
     wrapper (normalize_profile (key + n * 2 ^ 64)) e = wrapper (normalize_profile key) e /\
     wrapper (sensitize_profile (key + n * 2 ^ 64)) e = wrapper (sensitize_profile key) e /\
     wrapper (tolerize_profile (key + n * 2 ^ 64)) e = wrapper (tolerize_profile key) e) /\
  (forall pid n,
     wrapper (normalize_process (pid + n * 2 ^ 32)) e = wrapper (normalize_process pid) e /\
     wrapper (sensitize_process (pid + n * 2 ^ 32)) e = wrapper (sensitize_process pid) e /\
     wrapper (tolerize_process (pid + n * 2 ^ 32)) e = wrapper (tolerize_process pid) e) /\
  (forall key pid tgid pathname n m k,
     wrapper (bootstrap_process (key + n * 2 ^ 64) (pid + m * 2 ^ 32) (tgid + k * 2 ^ 32)
                pathname) e =
     wrapper (bootstrap_process key pid tgid pathname) e).
Proof.
  assert (forall z n, uint64 (z + n * 2 ^ 64) = uint64 z) as H64.
  { intros z n. unfold uint64, unsigned. apply Z_mod_plus_full. }
  assert (forall z n, uint32 (z + n * 2 ^ 32) = uint32 z) as H32.
  { intros z n. unfold uint32, unsigned. apply Z_mod_plus_full. }
  assert (forall z n, int (z + n * 2 ^ 32) = int z) as Hint.
  { intros z n. unfold int, signed.
    replace (z + n * 2 ^ 32 + 2 ^ (32 - 1)) with (z + 2 ^ (32 - 1) + n * 2 ^ 32) by lia.
    by rewrite Z_mod_plus_full. }
  unfold wrapper. repeat split; intros;
    rewrite !convert_arguments_typed, ?H64, ?H32, ?Hint; reflexivity.
Qed.

(** X18 — [from_bpf] raises [ValueError] exactly when the exe, up to its
    first NUL, is longer than [PATH_MAX] bytes; the maps play no part: an
    exe of exactly [PATH_MAX] bytes is still accepted. *)
Theorem from_bpf_value_error (bpf : BPF) (exe0 : list byte) (key m : Z) :
  calculate_profile_magic __version__ = Ok m ->
  (from_bpf bpf exe0 key = Raise ValueError <-> (PATH_MAX < length (c_string exe0))%nat).
Proof.
  intros Hm. split.
  - intros Hraise.
    destruct (decide (PATH_MAX < length (c_string exe0))%nat) as [|Hfit]; [done|].
    destruct (set_char_array_fits PATH_MAX (replicate PATH_MAX x00) exe0)
      as (buf & Hset & _ & _); [apply length_replicate | lia |].
    rewrite (from_bpf_reads bpf exe0 key m buf Hm Hset) in Hraise.
    by destruct (profiles bpf !! uint64 key).
  - by apply from_bpf_long_exe with (m := m).
Qed.

End Structs.

(* ===================================================================== *)
(** ** The enumerations *)
(* ===================================================================== *)

Lemma call_member (ms : list (string * Z)) (name : string) (num : Z) :
  NoDup (map snd ms) -> (name, num) ∈ ms -> enum.call ms num = Ok (name, num).
Proof.
  unfold enum.call. induction ms as [|[n z] ms IH]; intros Hnodup Hin.
  - by apply elem_of_nil in Hin.
  - cbn [map snd] in Hnodup. apply NoDup_cons in Hnodup as [Hfresh Hnodup].
    cbn [find snd]. destruct (Z.eqb_spec z num) as [->|Hne].
    + apply elem_of_cons in Hin as [[= -> ]|Hin]; [done|].
      destruct Hfresh. apply list_elem_of_fmap. by exists (name, num).
    + apply elem_of_cons in Hin as [[= -> ->]|Hin]; [done|]. by apply IH.
Qed.

Lemma call_absent (ms : list (string * Z)) (num : Z) :
  num ∉ map snd ms -> enum.call ms num = Raise ValueError.
Proof.
  unfold enum.call. induction ms as [|[n z] ms IH]; intros Hout; [done|].
  cbn [map snd] in Hout. apply not_elem_of_cons in Hout as [Hne Hout].
  cbn [find snd]. destruct (Z.eqb_spec z num) as [->|_]; [done|]. by apply IH.
Qed.

Lemma EBPH_LSM_values : map snd EBPH_LSM = seqZ 0 90.
Proof. by vm_compute. Qed.

(** C10 — [EBPH_LSM.get_name] is total on integers and never raises: for
    every integer that is the value of an [EBPH_LSM] variant (the values
    are exactly 0 to 89, [LSM_MAX] included) it returns that variant's name
    in lowercase, and for every other integer it returns ['empty']. *)
Theorem get_name_total (num : Z) :
  (exists s, get_name num = Ok s) /\
  (forall name, (name, num) ∈ EBPH_LSM -> get_name num = Ok (lower name)) /\
  (num ∉ map snd EBPH_LSM -> get_name num = Ok "empty") /\
  (num ∈ map snd EBPH_LSM <-> 0 <= num <= 89) /\
  (0 <= num <= 89 -> exists name, (name, num) ∈ EBPH_LSM /\ get_name num = Ok (lower name)).
Proof.
  assert (NoDup (map snd EBPH_LSM)) as Hnodup.
  { rewrite EBPH_LSM_values. apply NoDup_seqZ. }
  assert (forall name, (name, num) ∈ EBPH_LSM -> get_name num = Ok (lower name)) as Hin.
  { intros name Hname. unfold get_name. by rewrite (call_member _ name num). }
  assert (num ∉ map snd EBPH_LSM -> get_name num = Ok "empty") as Hout.
  { intros Hnum. unfold get_name. by rewrite call_absent. }
  assert (num ∈ map snd EBPH_LSM <-> 0 <= num <= 89) as Hrange.
  { rewrite EBPH_LSM_values, elem_of_seqZ. lia. }
  assert (num ∈ map snd EBPH_LSM ->
          exists name, (name, num) ∈ EBPH_LSM /\ get_name num = Ok (lower name)) as Hvalid.
  { intros Hnum. apply list_elem_of_fmap in Hnum as ([name z] & -> & Hm).
    exists name. split; [done|]. by apply Hin. }
  split; [|split; [done|split; [done|split; [done|]]]].
  - destruct (decide (num ∈ map snd EBPH_LSM)) as [Hnum|Hnum].
    + destruct (Hvalid Hnum) as (name & _ & ->). eauto.
    + rewrite (Hout Hnum). eauto.
  - intros Hnum. apply Hvalid. by apply Hrange.
Qed.

(** C7 — TRAINING, FROZEN and NORMAL are the pairwise-distinct single bits
    0x1, 0x2 and 0x4; every subset of them is a value of the one-byte
    status field, which stores it unchanged and from which each flag is
    read back by masking; in particular NORMAL together with FROZEN, with
    TRAINING cleared, is representable. *)
Theorem status_flags_single_bits :
  EBPH_PROFILE_STATUS = [("TRAINING", 0x1); ("FROZEN", 0x2); ("NORMAL", 0x4)] /\
  enum.unique EBPH_PROFILE_STATUS = Ok EBPH_PROFILE_STATUS /\
  (TRAINING = 2 ^ 0 /\ FROZEN = 2 ^ 1 /\ NORMAL = 2 ^ 2) /\
  (Z.land TRAINING FROZEN = 0 /\ Z.land TRAINING NORMAL = 0 /\ Z.land FROZEN NORMAL = 0) /\
  (forall (t f n : bool) (p : EBPHProfileStruct),
     let s := Z.lor (Z.lor (if t then TRAINING else 0) (if f then FROZEN else 0))
                (if n then NORMAL else 0) in
     0 <= s < 2 ^ 8 /\
     status (set_status s p) = s /\
     (Z.land s TRAINING =? 0) = negb t /\
     (Z.land s FROZEN =? 0) = negb f /\
     (Z.land s NORMAL =? 0) = negb n) /\
  (forall p : EBPHProfileStruct,
     let s := status (set_status (Z.lor NORMAL FROZEN) p) in
     s = 6 /\ Z.land s NORMAL = NORMAL /\ Z.land s FROZEN = FROZEN /\ Z.land s TRAINING = 0) /\
  (forall PATH_MAX : nat,
     field_type (EBPHProfileStruct_fields PATH_MAX) "status" = Some c_uint8) /\
  sizeof c_uint8 = 1.
Proof.
  split; [reflexivity|]. split; [reflexivity|].
  split; [by vm_compute|]. split; [by vm_compute|].
  split; [|split; [|split; [|reflexivity]]].
  - intros t f n p. destruct t, f, n; by vm_compute.
  - intros p. by vm_compute.
  - intros PATH_MAX. reflexivity.
Qed.

(** C8 — The settings registry is exactly the eight keys monitoring,
    log_sequences, normal_wait, normal_factor, normal_factor_den,
    anomaly_limit, tolerize_limit and enforcing, numbered by distinct
    consecutive integers from monitoring = 0; [set_setting] takes such a
    key as a C int, which holds each of them unchanged, and a value as an
    unsigned 64-bit integer. *)
Theorem settings_registry :
  map (fun m => lower (enum.name m)) EBPH_SETTINGS =
    [ "monitoring"; "log_sequences"; "normal_wait"; "normal_factor";
      "normal_factor_den"; "anomaly_limit"; "tolerize_limit"; "enforcing" ] /\
  map snd EBPH_SETTINGS = seqZ 0 8 /\
  enum.lookup_name EBPH_SETTINGS "MONITORING" = Some 0 /\
  enum.unique EBPH_SETTINGS = Ok EBPH_SETTINGS /\
  Lib_lookup "set_setting" = Some (mkForeign [c_int; c_uint64] (Some c_int)) /\
  (forall key value : Z,
     convert_arguments (set_setting key value) = set_setting (ct.int key) (uint64 value) /\
     0 <= uint64 value < 2 ^ 64 /\
     (key ∈ map snd EBPH_SETTINGS -> ct.int key = key)).
Proof.
  split; [reflexivity|]. split; [reflexivity|]. split; [reflexivity|].
  split; [reflexivity|]. split; [reflexivity|].
  intros key value. split; [reflexivity|].
  split; [apply unsigned_range; lia|].
  intros Hkey. apply int_id.
  change (map snd EBPH_SETTINGS) with (seqZ 0 8) in Hkey.
  apply elem_of_seqZ in Hkey. lia.
Qed.

(* ===================================================================== *)
(** ** The magic number *)
(* ===================================================================== *)

Lemma encode_ascii_total (s : string) :
  ascii_only s = true -> exists bs, encode_ascii s = Ok bs.
Proof.
  induction s as [|c s IH]; cbn [ascii_only encode_ascii]; [eauto|].
  intros [Hc Hs]%andb_true_iff. rewrite Hc.
  destruct (IH Hs) as [bs ->]. cbn [Py.bind]. eauto.
Qed.

Lemma ascii_only_app (a b : string) :
  ascii_only (a ++ b)%string = ascii_only a && ascii_only b.
Proof.
  induction a as [|c a IH]; simpl; [done|].
  by rewrite IH, andb_assoc.
Qed.

Lemma split_ascii (sep : ascii) (s : string) :
  ascii_only s = true -> Forall (fun w => ascii_only w = true) (split sep s).
Proof.
  induction s as [|c s IH]; cbn [split ascii_only]; [by repeat constructor|].
  intros [Hc Hs]%andb_true_iff. specialize (IH Hs).
  destruct (Ascii.eqb c sep); [by constructor|].
  destruct (split sep s) as [|w ws].
  { constructor; [|constructor]. cbn [ascii_only]. by rewrite Hc. }
  apply Forall_cons in IH as [Hw Hws].
  constructor; [|done]. cbn [ascii_only]. by rewrite Hc, Hw.
Qed.

Lemma join_ascii (sep : string) (parts : list string) :
  ascii_only sep = true ->
  Forall (fun w => ascii_only w = true) parts ->
  ascii_only (join sep parts) = true.
Proof.
  intros Hsep. induction parts as [|w ws IH]; intros Hparts; [done|].
  apply Forall_cons in Hparts as [Hw Hws].
  destruct ws as [|w' ws]; [done|].
  change (join sep (w :: w' :: ws)) with (w ++ sep ++ join sep (w' :: ws))%string.
  by rewrite !ascii_only_app, Hw, Hsep, IH.
Qed.

Lemma split_at_sep (sep : ascii) (a b : string) :
  free_of sep a = true -> split sep (a ++ String sep b)%string = a :: split sep b.
Proof.
  induction a as [|c a IH]; simpl.
  - intros _. by rewrite Ascii.eqb_refl.
  - intros [Hc Ha]%andb_true_iff. apply negb_true_iff in Hc. rewrite Hc.
    by rewrite (IH Ha).
Qed.

Lemma split_free (sep : ascii) (a : string) :
  free_of sep a = true -> split sep a = [a].
Proof.
  induction a as [|c a IH]; cbn [split free_of]; [done|].
  intros [Hc Ha]%andb_true_iff. apply negb_true_iff in Hc. rewrite Hc.
  by rewrite (IH Ha).
Qed.

(** Every byte prints as two hexadecimal digits. *)
Lemma hex_digits_valid (b : byte) :
  is_Some (hex_value (hashlib.hex_digit (hashlib.byte_to_Z b / 16))) /\
  is_Some (hex_value (hashlib.hex_digit (hashlib.byte_to_Z b mod 16))).
Proof. destruct b; vm_compute; split; eauto. Qed.

Lemma int16_from_hexdigest (digest : list byte) (acc : Z) :
  exists n, int16_from acc (hashlib.hexdigest digest) = Ok n.
Proof.
  revert acc. induction digest as [|b digest IH]; intros acc;
    cbn [hashlib.hexdigest int16_from]; [eauto|].
  destruct (hex_digits_valid b) as [[d1 ->] [d2 ->]]. apply IH.
Qed.

Lemma int16_hexdigest (digest : list byte) :
  digest <> [] -> exists n, int16 (hashlib.hexdigest digest) = Ok n.
Proof.
  destruct digest as [|b digest]; [done|]. intros _.
  apply (int16_from_hexdigest (b :: digest) 0).
Qed.

Lemma round_length (s : list Z) (kw : Z * Z) :
  length s = 8%nat -> length (hashlib.round s kw) = 8%nat.
Proof.
  intros Hs. do 9 (destruct s as [|? s]; try discriminate). reflexivity.
Qed.

Lemma compress_length (h block : list Z) :
  length h = 8%nat -> length (hashlib.compress h block) = 8%nat.
Proof.
  intros Hh. unfold hashlib.compress. rewrite length_zip_with.
  assert (forall kws s, length s = 8%nat ->
            length (fold_left hashlib.round kws s) = 8%nat) as Hfold.
  { induction kws as [|kw kws IH]; intros s Hs; [done|].
    cbn [fold_left]. by apply IH, round_length. }
  rewrite Hfold by done. lia.
Qed.

Lemma blocks_length (n : nat) (h bs : list Z) :
  length h = 8%nat -> length (hashlib.blocks n h bs) = 8%nat.
Proof.
  revert h bs. induction n as [|n IH]; intros h bs Hh; cbn [hashlib.blocks]; [done|].
  by apply IH, compress_length.
Qed.

(** A digest has 32 bytes. *)
Lemma sha256_length (data : list byte) : length (hashlib.sha256 data) = 32%nat.
Proof.
  unfold hashlib.sha256.
  pose proof (blocks_length
                (length (hashlib.pad (map hashlib.byte_to_Z data)) / 64)
                hashlib.H0 (hashlib.pad (map hashlib.byte_to_Z data)) eq_refl) as Hlen.
  destruct (hashlib.blocks _ _ _) as [|a h]; [discriminate|].
  do 8 (destruct h as [|? h]; try discriminate).
  reflexivity.
Qed.

(** C6 — The profile magic number is a function of the version string
    that depends only on its first two dot-separated components: two
    versions with the same first two components ('x.x') have the same
    magic, so what follows the minor component is irrelevant; the result
    always fits in 64 bits (it is less than 2^64), and an ASCII version
    always has one. *)
Theorem magic_from_major_minor :
  (forall v1 v2 : string,
     take 2 (split "."%char v1) = take 2 (split "."%char v2) ->
     calculate_profile_magic v1 = calculate_profile_magic v2) /\
  (forall major minor rest : string,
     free_of "."%char major = true -> free_of "."%char minor = true ->
     calculate_profile_magic (major ++ "." ++ minor ++ "." ++ rest)%string =
     calculate_profile_magic (major ++ "." ++ minor)%string) /\
  (forall (v : string) (m : Z), calculate_profile_magic v = Ok m -> 0 <= m < 2 ^ 64) /\
  (forall v : string, ascii_only v = true ->
     exists m, calculate_profile_magic v = Ok m /\ 0 <= m < 2 ^ 64).
Proof.
  assert (forall v1 v2 : string,
            take 2 (split "."%char v1) = take 2 (split "."%char v2) ->
            calculate_profile_magic v1 = calculate_profile_magic v2) as Hdep.
  { intros v1 v2 Heq. unfold calculate_profile_magic. by rewrite Heq. }
  split; [exact Hdep|]. split; [|split].
  - intros major minor rest Hmajor Hminor. apply Hdep.
    change (major ++ "." ++ minor ++ "." ++ rest)%string
      with (major ++ String "." (minor ++ String "." rest))%string.
    change (major ++ "." ++ minor)%string with (major ++ String "." minor)%string.
    rewrite !(split_at_sep _ major) by done.
    rewrite (split_at_sep _ minor) by done.
    by rewrite (split_free _ minor) by done.
  - apply calculate_profile_magic_range.
  - intros v Hv.
    assert (exists m, calculate_profile_magic v = Ok m) as [m Hm].
    { unfold calculate_profile_magic.
      destruct (encode_ascii_total (join "." (take 2 (split "."%char v)))) as [bs ->].
      { apply join_ascii; [done|]. by apply Forall_take, split_ascii. }
      cbn [Py.bind].
      destruct (int16_hexdigest (hashlib.sha256 bs)) as [n ->].
      { intros Hnil. pose proof (sha256_length bs) as Hlen. by rewrite Hnil in Hlen. }
      cbn [Py.bind]. eauto. }
    exists m. split; [done|]. by apply (calculate_profile_magic_range v).
Qed.

(* ===================================================================== *)
(** ** Examples: the theorems at concrete inputs *)
(* ===================================================================== *)

Lemma sample_profile_wf : wf_profile 4096 sample_profile.
Proof.
  unfold wf_profile, wf_data, sample_profile.
  cbn [magic profile_key status anomaly_count train_count last_mod_count sequences
       normal_time count train test flags exe_buffer].
  rewrite !length_insert, length_zero_flags.
  repeat split; try lia; try (by vm_compute);
    (apply Forall_insert; [apply Forall_replicate|]; lia).
Qed.

(** The sample profile survives a round trip through empty maps. *)
Lemma round_trip_sample :
  wf_profile 4096 sample_profile /\
  calculate_profile_magic "0.6.1" = Ok (magic sample_profile) /\
  exists bpf' p',
    load_into_bpf sample_addressof sample_profile empty_bpf = Ok bpf' /\
    from_bpf 4096 "0.6.1" sample_addressof bpf' (exe sample_profile)
      (profile_key sample_profile) = Ok p' /\
    status p' = 6 /\
    train p' = train sample_profile /\
    test p' = test sample_profile /\
    exe p' = sample_path /\
    __eq__ p' (Profile sample_profile) = Ok true.
Proof.
  split; [exact sample_profile_wf|].
  split; [by vm_compute|].
  destruct (round_trip 4096 "0.6.1" sample_addressof sample_profile empty_bpf
              sample_profile_wf)
    as (bpf' & p' & Hload & Hfrom & _ & _ & Hstatus & _ & _ & _ & _ & _ & _ &
        Htrain & Htest & Hexe & Heq).
  { by vm_compute. }
  exists bpf', p'.
  split; [exact Hload|]. split; [exact Hfrom|]. split; [exact Hstatus|].
  split; [exact Htrain|]. split; [exact Htest|]. split; [exact Hexe|]. exact Heq.
Defined.


(** With the header of profile 42 stored and no matrices, [from_bpf]
    returns the header fields and zero matrices. *)
Lemma from_bpf_header_only :
  calculate_profile_magic "0.6.1" = Ok 16058753303049879161 /\
  (length (c_string sample_path) <= 4096)%nat /\
  (from_bpf 4096 "0.6.1" sample_addressof header_only_bpf sample_path 42 = Raise KeyError <->
   profiles header_only_bpf !! uint64 42 = None) /\
  exists p,
    from_bpf 4096 "0.6.1" sample_addressof header_only_bpf sample_path 42 = Ok p /\
    magic p = 16058753303049879161 /\
    status p = 6 /\
    anomaly_count p = 3 /\
    exe p = sample_path /\
    flags (train p) = zero_flags /\
    flags (test p) = zero_flags.
Proof.
  assert (calculate_profile_magic "0.6.1" = Ok 16058753303049879161) as Hm
    by (by vm_compute).
  assert (length (c_string sample_path) <= 4096)%nat as Hfit by (vm_compute; lia).
  split; [exact Hm|]. split; [exact Hfit|].
  destruct (from_bpf_key_error 4096 "0.6.1" sample_addressof header_only_bpf
              sample_path 42 _ Hm Hfit) as (Hiff & _ & Hpresent).
  split; [exact Hiff|].
  destruct (Hpresent (mkLeaf 6 3 100 90 12 1234567 250) eq_refl)
    as (p & Hp & Hmagic & _ & Hexe & Hstatus & Han & _ & _ & _ & _ & _ & Htrain & Htest).
  exists p.
  split; [exact Hp|]. split; [exact Hmagic|]. split; [exact Hstatus|].
  split; [exact Han|]. split; [exact Hexe|].
  split; [exact (Htrain eq_refl) | exact (Htest eq_refl)].
Defined.

(** Without the entry the same call raises [KeyError]. *)
Example from_bpf_absent_key :
  from_bpf 4096 "0.6.1" sample_addressof empty_bpf sample_path 42 = Raise KeyError.
Proof. by vm_compute. Qed.

(** C9 as stated fails: with an exe of 4097 bytes and the 4096-byte field,
    the key is absent from [profiles] and yet the exception is
    [ValueError], not [KeyError]; and with the key present, an error is
    raised all the same. *)
Lemma from_bpf_long_exe_counterexample :
  ~ (from_bpf 4096 "0.6.1" sample_addressof empty_bpf (replicate 4097 x61) 42
       = Raise KeyError <->
     profiles empty_bpf !! uint64 42 = None) /\
  from_bpf 4096 "0.6.1" sample_addressof empty_bpf (replicate 4097 x61) 42
    = Raise ValueError /\
  is_Some (profiles header_only_bpf !! uint64 42) /\
  from_bpf 4096 "0.6.1" sample_addressof header_only_bpf (replicate 4097 x61) 42
    = Raise ValueError.
Proof.
  assert (from_bpf 4096 "0.6.1" sample_addressof empty_bpf (replicate 4097 x61) 42
          = Raise ValueError) as Hraise by (by vm_compute).
  split; [|split; [exact Hraise|split; [by eexists|by vm_compute]]].
  intros [_ Habsent]. specialize (Habsent eq_refl).
  rewrite Habsent in Hraise. discriminate Hraise.
Qed.

(** Tolerizing the sample profile: the pair seen in testing joins the
    trained ones and the three anomalies are forgotten. *)
Lemma tolerize_sample :
  calculate_profile_magic "0.6.1" = Ok 16058753303049879161 /\
  (length (c_string sample_path) <= 4096)%nat /\
  (wrapper 4096 (tolerize_profile 42) sample_engine).2 = 0 /\
  exists p p',
    from_bpf 4096 "0.6.1" sample_addressof (maps sample_engine) sample_path 42 = Ok p /\
    from_bpf 4096 "0.6.1" sample_addressof
      (maps (wrapper 4096 (tolerize_profile 42) sample_engine).1) sample_path 42 = Ok p' /\
    flags (train p') = zip_with Z.lor (flags (train p)) (flags (test p)) /\
    test p' = test p /\
    anomaly_count p' = 0.
Proof.
  assert (calculate_profile_magic "0.6.1" = Ok 16058753303049879161) as Hm
    by (by vm_compute).
  assert (length (c_string sample_path) <= 4096)%nat as Hfit by (vm_compute; lia).
  split; [exact Hm|]. split; [exact Hfit|]. split; [by vm_compute|].
  destruct (tolerize_convergence 4096 "0.6.1" sample_addressof sample_engine
              (wrapper 4096 (tolerize_profile 42) sample_engine).1 42 sample_path _
              Hm Hfit)
    as (p & p' & Hp & Hp' & Htrain & Htest & _ & Han).
  { by vm_compute. }
  exists p, p'.
  split; [exact Hp|]. split; [exact Hp'|]. split; [exact Htrain|].
  split; [exact Htest | exact Han].
Defined.

(** An object with the right [profile_key] and without a [status]
    attribute is unequal to the sample profile; no [AttributeError]
    escapes. *)
Lemma eq_missing_attribute :
  compared sample_profile =
    [("profile_key", VInt 42)] ++ ("status", VInt 6) :: drop 2 (compared sample_profile) /\
  getattr (Instance {[ "profile_key" := Ok (VInt 42) ]}) "status" = Raise AttributeError /\
  is_Exception AttributeError = true /\
  __eq__ sample_profile (Instance {[ "profile_key" := Ok (VInt 42) ]}) = Ok false.
Proof.
  assert (compared sample_profile =
            [("profile_key", VInt 42)] ++ ("status", VInt 6)
              :: drop 2 (compared sample_profile)) as Hsplit by reflexivity.
  assert (Forall (fun nv => assert_same (snd nv)
                              (Instance {[ "profile_key" := Ok (VInt 42) ]}) (fst nv) = Ok tt)
            [("profile_key", VInt 42)]) as Hbefore.
  { constructor; [by vm_compute | constructor]. }
  split; [exact Hsplit|]. split; [reflexivity|]. split; [reflexivity|].
  destruct (eq_decided_by_nine_fields sample_profile) as (_ & _ & Hfirst & _).
  apply (Hfirst (Instance {[ "profile_key" := Ok (VInt 42) ]}) _ _ "status" (VInt 6)
           AttributeError Hsplit Hbefore); [|reflexivity].
  left. reflexivity.
Defined.

(** C3 as stated fails for an object on which reading a compared field
    raises an exception outside [Exception]: reading [profile_key] of the
    object fails, and [__eq__] does not return False, it lets
    [SystemExit] through. *)
Lemma eq_system_exit_counterexample :
  getattr exiting_object "profile_key" = Raise SystemExit /\
  __eq__ sample_profile exiting_object = Raise SystemExit /\
  ~ (forall other : object,
       (exists name mine e,
          (name, mine) ∈ compared sample_profile /\ getattr other name = Raise e) ->
       __eq__ sample_profile other = Ok false).
Proof.
  assert (__eq__ sample_profile exiting_object = Raise SystemExit) as Hexit
    by (by vm_compute).
  split; [reflexivity|]. split; [exact Hexit|].
  intros Hall.
  assert (__eq__ sample_profile exiting_object = Ok false) as Hfalse.
  { apply Hall. exists "profile_key", (VInt 42), SystemExit.
    split; [apply list_elem_of_here | reflexivity]. }
  rewrite Hexit in Hfalse. discriminate Hfalse.
Qed.

(** Two profiles that differ in magic and in both matrices are equal. *)
Example eq_ignores_magic_and_matrices :
  __eq__ sample_profile
    (Profile (mkProfile 0 42 6 3 100 90 12 1234567 250 (mkData []) (mkData [255])
                (sample_path ++ [x00; x41]))) = Ok true.
Proof. by vm_compute. Qed.

(** C2 as stated fails for a path as long as the field: with the
    4096-byte field, a path of 4096 bytes is stored, fills the field, and
    no NUL follows it; so a stored path is not always null-terminated. *)
Lemma exe_not_terminated_counterexample :
  (exists p,
     set_exe 4096 (replicate 4096 x61) (EBPHProfileStruct_new 4096) = Ok p /\
     exe_buffer p = replicate 4096 x61 /\
     x00 ∉ exe_buffer p) /\
  ~ (forall (value : list byte) (p : EBPHProfileStruct),
       set_exe 4096 value (EBPHProfileStruct_new 4096) = Ok p -> x00 ∈ exe_buffer p).
Proof.
  assert (exists p,
            set_exe 4096 (replicate 4096 x61) (EBPHProfileStruct_new 4096) = Ok p /\
            exe_buffer p = replicate 4096 x61 /\
            x00 ∉ exe_buffer p) as Hfull.
  { exists (set_exe_buffer (replicate 4096 x61) (EBPHProfileStruct_new 4096)).
    split; [by vm_compute|]. cbn [exe_buffer set_exe_buffer]. split; [reflexivity|].
    rewrite elem_of_replicate. by intros [? _]. }
  split; [exact Hfull|].
  intros Hall. destruct Hfull as (p & Hp & _ & Hnone).
  exact (Hnone (Hall _ _ Hp)).
Qed.

(** A path one byte shorter is stored with its terminating NUL. *)
Example exe_terminated_when_shorter :
  exists p,
    set_exe 4096 (replicate 4095 x61) (EBPHProfileStruct_new 4096) = Ok p /\
    exe_buffer p = replicate 4095 x61 ++ [x00].
Proof. eexists. split; by vm_compute. Qed.

(** An unknown profile key: status -ENOENT, nothing changed; a known one:
    status 0. *)
Lemma tolerize_unknown_profile :
  ~ succeeds 4096 (convert_arguments (tolerize_profile 7)) sample_engine /\
  (wrapper 4096 (tolerize_profile 7) sample_engine).2 = - ENOENT /\
  (wrapper 4096 (tolerize_profile 7) sample_engine).1 = sample_engine /\
  (wrapper 4096 (tolerize_process 1000) sample_engine).2 = 0.
Proof.
  assert (~ succeeds 4096 (convert_arguments (tolerize_profile 7)) sample_engine) as Hfail.
  { intros [l Hl]. by vm_compute in Hl. }
  destruct (commands_return_status 4096 (tolerize_profile 7) sample_engine)
    as (_ & _ & _ & _ & Hfailure).
  destruct (Hfailure Hfail) as (_ & _ & Hsame).
  split; [exact Hfail|]. split; [by vm_compute|]. split; [exact Hsame|].
  apply (commands_return_status 4096 (tolerize_process 1000) sample_engine).
  exists 1000, 42. split; [by vm_compute|]. by eexists.
Defined.

(** Versions 0.6.1 and 0.6.2 share the magic number of 0.6. *)
Lemma magic_of_patch_releases :
  take 2 (split "."%char "0.6.1") = take 2 (split "."%char "0.6.2") /\
  calculate_profile_magic "0.6.1" = calculate_profile_magic "0.6.2" /\
  calculate_profile_magic "0.6.1" = Ok 16058753303049879161.
Proof.
  split; [reflexivity|].
  split; [apply (proj1 magic_from_major_minor "0.6.1" "0.6.2" eq_refl)|].
  by vm_compute.
Defined.

(** A minor-version change gives another magic number. *)
Example magic_of_minor_release :
  calculate_profile_magic "0.7.0" <> calculate_profile_magic "0.6.1".
Proof. by vm_compute. Qed.

(** Value 3 is [TASK_SETPGID]; value 90 names no variant. *)
Lemma get_name_examples :
  ("TASK_SETPGID", 3) ∈ EBPH_LSM /\
  get_name 3 = Ok "task_setpgid" /\
  (90 ∉ map snd EBPH_LSM) /\
  get_name 90 = Ok "empty".
Proof.
  assert (("TASK_SETPGID", 3) ∈ EBPH_LSM) as Hin.
  { do 3 apply list_elem_of_further. apply list_elem_of_here. }
  assert (90 ∉ map snd EBPH_LSM) as Hout.
  { rewrite EBPH_LSM_values, elem_of_seqZ. lia. }
  destruct (get_name_total 3) as (_ & Hname & _).
  destruct (get_name_total 90) as (_ & _ & Hempty & _).
  split; [exact Hin|]. split; [exact (Hname _ Hin)|].
  split; [exact Hout|]. exact (Hempty Hout).
Defined.

(** The [@unique] decorator accepts the three enumerations. *)
Example enumerations_unique :
  enum.unique EBPH_LSM = Ok EBPH_LSM /\
  enum.unique EBPH_SETTINGS = Ok EBPH_SETTINGS /\
  enum.unique EBPH_PROFILE_STATUS = Ok EBPH_PROFILE_STATUS.
Proof. by vm_compute. Qed.

Example get_name_lsm_max : get_name 89 = Ok "lsm_max".
Proof. reflexivity. Qed.

Example get_name_negative : get_name (-1) = Ok "empty".
Proof. reflexivity. Qed.

(** Known answers for the hash: the empty message and ["abc"]. *)
Example sha256_known_answers :
  hashlib.hexdigest (hashlib.sha256 []) =
    "e3b0c44298fc1c149afbf4c8996fb92427ae41e4649b934ca495991b7852b855" /\
  hashlib.hexdigest (hashlib.sha256 [x61; x62; x63]) =
    "ba7816bf8f01cfea414140de5dae2223b00361a396177a9cb410ff61f20015ad".
Proof. by vm_compute. Qed.

(** A stored path reads back without its padding, and a path cut by a
    NUL reads back up to the NUL. *)
Example exe_of_sample : exe sample_profile = sample_path.
Proof. by vm_compute. Qed.

Example set_exe_cuts_at_nul :
  exe <$> (match set_exe 8 [x61; x00; x62] (EBPHProfileStruct_new 8) with
           | Ok p => Some p
           | Raise _ => None
           end) = Some [x61].
Proof. by vm_compute. Qed.

(* ===================================================================== *)
(** ** [EBPHProfileDataStruct.__eq__] *)
(* ===================================================================== *)

Lemma for_each_ok (body : nat -> result unit) (indices : list nat) :
  for_each body indices = Ok tt <-> Forall (fun i => body i = Ok tt) indices.
Proof.
  induction indices as [|i rest IH]; cbn [for_each].
  - split; [constructor | reflexivity].
  - rewrite Forall_cons, <- IH.
    destruct (body i) as [[]|e]; cbn [Py.bind].
    + split; [by split | by intros [_ ?]].
    + split; [discriminate | by intros [? _]].
Qed.

(** The first index at which the body raises decides what the loop
    raises, and whatever the loop raises, the body raised at some index. *)
Lemma for_each_first_failure (body : nat -> result unit) (before after : list nat)
    (j : nat) (e : exn) :
  Forall (fun i => body i = Ok tt) before ->
  body j = Raise e ->
  for_each body (before ++ j :: after) = Raise e.
Proof.
  intros Hbefore Hraise.
  induction Hbefore as [|i l Hi _ IH]; cbn [app for_each].
  - by rewrite Hraise.
  - by rewrite Hi.
Qed.

Lemma for_each_raises (body : nat -> result unit) (indices : list nat) (e : exn) :
  for_each body indices = Raise e -> exists i, i ∈ indices /\ body i = Raise e.
Proof.
  induction indices as [|i rest IH]; cbn [for_each]; [discriminate|].
  destruct (body i) as [[]|e'] eqn:Hi; cbn [Py.bind].
  - intros H. destruct (IH H) as (j & Hj & Hraise).
    exists j. split; [by apply list_elem_of_further | done].
  - intros [= ->]. exists i. split; [apply list_elem_of_here | done].
Qed.

(** [try ... except Exception: return False]: when it gives True, and
    what it lets through. *)
Lemma except_Exception_true (body : result bool) :
  except_Exception body false = Ok true <-> body = Ok true.
Proof.
  destruct body as [[]|e]; cbn [except_Exception]; [done | done |].
  destruct (is_Exception e); split; discriminate.
Qed.

Lemma except_Exception_raises {A : Type} (body : result A) (value : A) (e : exn) :
  except_Exception body value = Raise e <-> body = Raise e /\ is_Exception e = false.
Proof.
  destruct body as [a|e']; cbn [except_Exception].
  - split; [discriminate | by intros [? _]].
  - destruct (is_Exception e') eqn:He'.
    + split; [discriminate | intros [[= ->] ?]; congruence].
    + split; [by intros [= <-] | by intros [[= ->] _]].
Qed.

(** One turn of the loop, when both flags have an item at the index. *)
Lemma assert_item_at (self : EBPHProfileDataStruct) (other : data_operand)
    (items : list value) (i : nat) (x : Z) (v : value) :
  get_flags other = Ok (Some items) ->
  flags self !! i = Some x -> items !! i = Some v ->
  assert_item self other i = (let* b := eq_truth (VInt x) v in assert b).
Proof.
  intros Hflags Hx Hv. unfold assert_item. cbn [item].
  rewrite list_lookup_fmap, Hx. cbn [fmap option_fmap option_map Py.bind].
  rewrite Hflags. cbn [Py.bind item]. by rewrite Hv.
Qed.

(** With flags of the same length on the other side, the comparison is
    the loop. *)
Lemma data_eq_loop (self : EBPHProfileDataStruct) (other : data_operand)
    (items : list value) :
  get_flags other = Ok (Some items) ->
  length (flags self) = length items ->
  EBPHProfileDataStruct__eq__ self other =
  except_Exception
    (let* _ := for_each (assert_item self other) (seq 0 (length (flags self))) in Ok true)
    false.
Proof.
  intros Hflags Hlen. unfold EBPHProfileDataStruct__eq__.
  rewrite Hflags. cbn [Py.bind len]. by rewrite <- Hlen, Nat.eqb_refl.
Qed.

Lemma data_loop_ok (self : EBPHProfileDataStruct) (other : data_operand)
    (items : list value) :
  get_flags other = Ok (Some items) ->
  length (flags self) = length items ->
  for_each (assert_item self other) (seq 0 (length (flags self))) = Ok tt <->
  Forall2 (fun x v => eq_truth (VInt x) v = Ok true) (flags self) items.
Proof.
  intros Hflags Hlen.
  rewrite for_each_ok, Forall_forall, Forall2_same_length_lookup.
  split.
  - intros Hloop. split; [done|]. intros i x v Hx Hv.
    assert (i ∈ seq 0 (length (flags self))) as Hi.
    { apply elem_of_seq. split; [lia|]. apply lookup_lt_Some in Hx. lia. }
    specialize (Hloop i Hi). rewrite (assert_item_at _ _ _ _ _ _ Hflags Hx Hv) in Hloop.
    destruct (eq_truth (VInt x) v) as [[]|]; cbn in Hloop; congruence.
  - intros [_ HF] i Hi. apply elem_of_seq in Hi as [_ Hi].
    destruct (lookup_lt_is_Some_2 (flags self) i) as [x Hx]; [lia|].
    destruct (lookup_lt_is_Some_2 items i) as [v Hv]; [lia|].
    rewrite (assert_item_at _ _ _ _ _ _ Hflags Hx Hv).
    by rewrite (HF i x v Hx Hv).
Qed.

(** The comparison is true exactly when the other operand's [flags] is a
    sequence of the same length whose items all compare equal. *)
Lemma data_eq_true_iff (self : EBPHProfileDataStruct) (other : data_operand) :
  EBPHProfileDataStruct__eq__ self other = Ok true <->
  exists items,
    get_flags other = Ok (Some items) /\
    Forall2 (fun x v => eq_truth (VInt x) v = Ok true) (flags self) items.
Proof.
  destruct (get_flags other) as [[items|]|e] eqn:Hflags.
  2: { unfold EBPHProfileDataStruct__eq__. rewrite Hflags.
       split; [discriminate | by intros (? & [=] & _)]. }
  2: { unfold EBPHProfileDataStruct__eq__. rewrite Hflags.
       cbn [Py.bind except_Exception].
       split; [by destruct (is_Exception e) | by intros (? & [=] & _)]. }
  destruct (decide (length (flags self) = length items)) as [Hlen|Hlen].
  - rewrite (data_eq_loop _ _ _ Hflags Hlen), except_Exception_true.
    pose proof (data_loop_ok _ _ _ Hflags Hlen) as Hloop.
    destruct (for_each _ _) as [[]|e]; cbn [Py.bind].
    + split; [intros _; exists items; split; [done | by apply Hloop] | done].
    + split; [discriminate|]. intros (items' & [= <-] & HF). by apply Hloop in HF.
  - unfold EBPHProfileDataStruct__eq__. rewrite Hflags. cbn [Py.bind len].
    apply Nat.eqb_neq in Hlen as Hneq. rewrite Hneq.
    split; [discriminate|]. intros (? & [= <-] & HF).
    by apply Forall2_length in HF.
Qed.

(** Whatever the comparison raises is not an [Exception]. *)
Lemma data_eq_raises (self : EBPHProfileDataStruct) (other : data_operand) (e : exn) :
  EBPHProfileDataStruct__eq__ self other = Raise e -> is_Exception e = false.
Proof. unfold EBPHProfileDataStruct__eq__. by intros [_ He]%except_Exception_raises. Qed.

(** On data structures no turn of the loop raises anything but
    [AssertionError] or [IndexError]. *)
Lemma assert_item_data (d1 d2 : EBPHProfileDataStruct) (i : nat) (e : exn) :
  assert_item d1 (Data d2) i = Raise e -> is_Exception e = true.
Proof.
  unfold assert_item. cbn [item get_flags]. rewrite list_lookup_fmap.
  destruct (flags d1 !! i) as [x|]; cbn [fmap option_fmap option_map Py.bind item];
    [|by intros [= <-]].
  rewrite list_lookup_fmap.
  destruct (flags d2 !! i) as [y|]; cbn [fmap option_fmap option_map Py.bind eq_truth];
    [|by intros [= <-]].
  destruct (x =? y); cbn [Py.assert]; [discriminate | by intros [= <-]].
Qed.

(** On two data structures the comparison returns a truth value. *)
Lemma data_eq_structures_bool (d1 d2 : EBPHProfileDataStruct) :
  EBPHProfileDataStruct__eq__ d1 (Data d2) = Ok true \/
  EBPHProfileDataStruct__eq__ d1 (Data d2) = Ok false.
Proof.
  destruct (EBPHProfileDataStruct__eq__ d1 (Data d2)) as [[]|e] eqn:Heq;
    [by left | by right | exfalso].
  unfold EBPHProfileDataStruct__eq__ in Heq.
  apply except_Exception_raises in Heq as [Hbody He].
  cbn [get_flags Py.bind len] in Hbody.
  destruct (length (flags d1) =? length (map VInt (flags d2)))%nat;
    cbn [Py.assert Py.bind] in Hbody; [|injection Hbody as <-; discriminate].
  destruct (for_each _ _) as [[]|e'] eqn:Hloop; cbn [Py.bind] in Hbody; [discriminate|].
  injection Hbody as ->.
  apply for_each_raises in Hloop as (i & _ & Hi).
  apply assert_item_data in Hi. congruence.
Qed.

(** X1 — [EBPHProfileDataStruct.__eq__] on two data structures returns a
    truth value, True exactly when their flags are the same, entry by
    entry and in number, and False otherwise; so, unlike the comparison
    of whole profiles, it tells two matrices apart whenever they differ. *)
Theorem data_eq_structures (d1 d2 : EBPHProfileDataStruct) :
  (EBPHProfileDataStruct__eq__ d1 (Data d2) = Ok true <-> d1 = d2) /\
  (EBPHProfileDataStruct__eq__ d1 (Data d2) = Ok false <-> d1 <> d2).
Proof.
  assert (EBPHProfileDataStruct__eq__ d1 (Data d2) = Ok true <-> d1 = d2) as Htrue.
  { rewrite data_eq_true_iff. cbn [get_flags].
    destruct d1 as [fl1], d2 as [fl2]. cbn [flags].
    split.
    - intros (items & [= <-] & HF). f_equal.
      apply Forall2_fmap_r in HF. apply list_eq_Forall2.
      eapply Forall2_impl; [exact HF|].
      intros x y. cbn. intros [= Hxy]. by apply Z.eqb_eq.
    - intros [= ->]. eexists. split; [reflexivity|].
      apply Forall2_fmap_r, Forall_Forall2_diag, Forall_forall.
      intros x _. cbn. by rewrite Z.eqb_refl. }
  split; [exact Htrue|].
  destruct (data_eq_structures_bool d1 d2) as [Heq|Heq]; rewrite Heq.
  - split; [discriminate|]. intros Hne. by apply Htrue in Heq.
  - split; [|done]. intros _ Hsame. apply Htrue in Hsame. congruence.
Qed.

(** X2 — Compared with an object of another class,
    [EBPHProfileDataStruct.__eq__] raises nothing that is an [Exception].
    It is False when reading [flags] raises an [Exception], when [flags]
    has no length and when the lengths differ; with flags of the same
    length the items are compared in order and the first one that is not
    equal decides: False when it differs or its comparison raises an
    [Exception]; it is True exactly for a sequence of as many items, each
    equal to the flag at its index.  An exception outside [Exception]
    ([KeyboardInterrupt], [SystemExit], [GeneratorExit]) raised by
    reading [flags] or by that first comparison is not caught and reaches
    the caller. *)
Theorem data_eq_foreign (self : EBPHProfileDataStruct) :
  (forall e, EBPHProfileDataStruct__eq__ self (Foreign (Raise e)) =
             if is_Exception e then Ok false else Raise e) /\
  EBPHProfileDataStruct__eq__ self (Foreign (Ok None)) = Ok false /\
  (forall items,
     EBPHProfileDataStruct__eq__ self (Foreign (Ok (Some items))) = Ok true <->
     Forall2 (fun x v => eq_truth (VInt x) v = Ok true) (flags self) items) /\
  (forall items, length items <> length (flags self) ->
     EBPHProfileDataStruct__eq__ self (Foreign (Ok (Some items))) = Ok false) /\
  (forall items (i : nat) (x : Z) (v : value),
     length items = length (flags self) ->
     Forall2 (fun x v => eq_truth (VInt x) v = Ok true) (take i (flags self)) (take i items) ->
     flags self !! i = Some x -> items !! i = Some v ->
     (eq_truth (VInt x) v = Ok false ->
      EBPHProfileDataStruct__eq__ self (Foreign (Ok (Some items))) = Ok false) /\
     (forall e, eq_truth (VInt x) v = Raise e ->
      EBPHProfileDataStruct__eq__ self (Foreign (Ok (Some items))) =
      if is_Exception e then Ok false else Raise e)) /\
  (forall other e,
     EBPHProfileDataStruct__eq__ self other = Raise e -> is_Exception e = false) /\
  EBPHProfileDataStruct__eq__ self (Foreign (Ok (Some (map VInt (flags self))))) = Ok true.
Proof.
  assert (forall items,
            EBPHProfileDataStruct__eq__ self (Foreign (Ok (Some items))) = Ok true <->
            Forall2 (fun x v => eq_truth (VInt x) v = Ok true) (flags self) items) as Hiff.
  { intros items. rewrite data_eq_true_iff. cbn [get_flags]. split.
    - by intros (items' & [= <-] & HF).
    - intros HF. by exists items. }
  assert (forall items (i : nat) (x : Z) (v : value) (e : exn),
            length items = length (flags self) ->
            Forall2 (fun x v => eq_truth (VInt x) v = Ok true)
              (take i (flags self)) (take i items) ->
            flags self !! i = Some x -> items !! i = Some v ->
            (let* b := eq_truth (VInt x) v in assert b) = Raise e ->
            EBPHProfileDataStruct__eq__ self (Foreign (Ok (Some items))) =
            if is_Exception e then Ok false else Raise e) as Hfirst.
  { intros items i x v e Hlen Hbefore Hx Hv Hraise.
    rewrite (data_eq_loop self (Foreign (Ok (Some items))) items eq_refl (eq_sym Hlen)).
    pose proof (lookup_lt_Some _ _ _ Hx) as Hi.
    replace (length (flags self)) with (i + S (length (flags self) - S i))%nat by lia.
    rewrite seq_app. cbn [seq Nat.add].
    rewrite (for_each_first_failure _ _ _ _ e); [reflexivity| |].
    - apply Forall_forall. intros k Hk. apply elem_of_seq in Hk as [_ Hk].
      destruct (lookup_lt_is_Some_2 (flags self) k) as [xk Hxk]; [lia|].
      destruct (lookup_lt_is_Some_2 items k) as [vk Hvk]; [lia|].
      rewrite (assert_item_at self (Foreign (Ok (Some items))) items k xk vk eq_refl Hxk Hvk).
      rewrite (Forall2_lookup_lr _ _ _ k xk vk Hbefore); [reflexivity| |].
      + rewrite lookup_take_lt by lia. exact Hxk.
      + rewrite lookup_take_lt by lia. exact Hvk.
    - rewrite (assert_item_at self (Foreign (Ok (Some items))) items i x v eq_refl Hx Hv).
      exact Hraise. }
  split; [|split; [|split; [exact Hiff|split; [|split; [|split]]]]].
  - intros e. reflexivity.
  - reflexivity.
  - intros items Hlen. unfold EBPHProfileDataStruct__eq__. cbn [get_flags Py.bind len].
    assert ((length (flags self) =? length items)%nat = false) as ->.
    { apply Nat.eqb_neq. congruence. }
    reflexivity.
  - intros items i x v Hlen Hbefore Hx Hv. split.
    + intros Hfalse.
      rewrite (Hfirst items i x v AssertionError Hlen Hbefore Hx Hv); [reflexivity|].
      by rewrite Hfalse.
    + intros e Hraise. apply (Hfirst items i x v e Hlen Hbefore Hx Hv).
      by rewrite Hraise.
  - intros other e. apply data_eq_raises.
  - apply Hiff, Forall2_fmap_r, Forall_Forall2_diag, Forall_forall.
    intros x _. cbn. by rewrite Z.eqb_refl.
Qed.

(* ===================================================================== *)
(** ** More on the magic number, the event names and [__eq__] *)
(* ===================================================================== *)

Lemma hex_digit_value (b : byte) :
  hex_value (hashlib.hex_digit (hashlib.byte_to_Z b / 16)) = Some (hashlib.byte_to_Z b / 16) /\
  hex_value (hashlib.hex_digit (hashlib.byte_to_Z b mod 16)) = Some (hashlib.byte_to_Z b mod 16).
Proof. destruct b; by vm_compute. Qed.

(** Parsing the hexadecimal digest gives back the big-endian value of the
    digest bytes. *)
Lemma int16_from_hexdigest_value (digest : list byte) (acc : Z) :
  int16_from acc (hashlib.hexdigest digest) =
  Ok (fold_left (fun a b => a * 256 + b) (map hashlib.byte_to_Z digest) acc).
Proof.
  revert acc. induction digest as [|b digest IH]; intros acc;
    cbn [hashlib.hexdigest int16_from map fold_left]; [reflexivity|].
  destruct (hex_digit_value b) as [-> ->]. rewrite IH. do 2 f_equal.
  pose proof (Z.div_mod (hashlib.byte_to_Z b) 16). lia.
Qed.

Lemma fold_be_shift (bs : list Z) (acc : Z) :
  fold_left (fun a b => a * 256 + b) bs acc =
  acc * 256 ^ Z.of_nat (length bs) + hashlib.be_value bs.
Proof.
  unfold hashlib.be_value. revert acc.
  induction bs as [|b bs IH]; intros acc; cbn [fold_left length].
  - cbn. lia.
  - rewrite (IH (acc * 256 + b)), (IH (0 * 256 + b)).
    rewrite Nat2Z.inj_succ, Z.pow_succ_r by lia. lia.
Qed.

Lemma be_value_bound (bs : list Z) :
  Forall (fun b => 0 <= b < 256) bs ->
  0 <= hashlib.be_value bs < 256 ^ Z.of_nat (length bs).
Proof.
  unfold hashlib.be_value.
  induction bs as [|b bs IH] using rev_ind; intros Hbs; [cbn; lia|].
  apply Forall_app in Hbs as [Hbs Hb]. rewrite Forall_singleton in Hb.
  rewrite fold_left_app. cbn [fold_left].
  rewrite length_app, Nat2Z.inj_add, Z.pow_add_r by lia.
  cbn [length]. change (256 ^ Z.of_nat 1) with 256.
  specialize (IH Hbs).
  set (A := fold_left (fun a b0 => a * 256 + b0) bs 0) in *.
  set (P := 256 ^ Z.of_nat (length bs)) in *. clearbody A P. lia.
Qed.

Lemma byte_to_Z_range (b : byte) : 0 <= hashlib.byte_to_Z b < 256.
Proof.
  unfold hashlib.byte_to_Z. pose proof (Byte.to_N_bounded b). lia.
Qed.

(** X10 — The magic number is the big-endian integer held in the last
    eight bytes of the SHA-256 digest of the encoded 'x.x' version: the
    hexadecimal printing and parsing of the digest cancel out and the mask
    keeps its low 64 bits. *)
Theorem magic_is_digest_tail (version : string) :
  calculate_profile_magic version =
  (let* encoded := encode_ascii (join "." (take 2 (split "."%char version))) in
   Ok (hashlib.be_value (map hashlib.byte_to_Z (drop 24 (hashlib.sha256 encoded))))).
Proof.
  unfold calculate_profile_magic.
  destruct (encode_ascii _) as [encoded|e]; [|reflexivity]. cbn [Py.bind].
  pose proof (sha256_length encoded) as Hlen.
  assert (int16 (hashlib.hexdigest (hashlib.sha256 encoded)) =
          Ok (hashlib.be_value (map hashlib.byte_to_Z (hashlib.sha256 encoded)))) as ->.
  { destruct (hashlib.sha256 encoded) as [|b digest] eqn:Hd; [discriminate|].
    unfold int16. cbn [hashlib.hexdigest].
    change (String ?a (String ?c (hashlib.hexdigest digest)))
      with (hashlib.hexdigest (b :: digest)).
    rewrite int16_from_hexdigest_value, fold_be_shift. f_equal; lia. }
  cbn [Py.bind]. f_equal.
  rewrite <- (take_drop 24 (hashlib.sha256 encoded)) at 1.
  rewrite map_app. unfold hashlib.be_value at 1.
  rewrite fold_left_app, fold_be_shift.
  assert (length (map hashlib.byte_to_Z (drop 24 (hashlib.sha256 encoded))) = 8%nat) as Htail.
  { rewrite length_map, length_drop, Hlen. reflexivity. }
  pose proof (be_value_bound (map hashlib.byte_to_Z (drop 24 (hashlib.sha256 encoded)))) as Hb.
  rewrite Htail in *.
  change (0xFFFF_FFFF_FFFF_FFFF) with (Z.ones 64).
  rewrite Z.land_ones by lia.
  change (256 ^ Z.of_nat 8) with (2 ^ 64) in *.
  rewrite Z.add_comm, Z_mod_plus_full. apply Z.mod_small, Hb.
  apply Forall_forall. intros z Hz. apply list_elem_of_fmap in Hz as (b & -> & _).
  apply byte_to_Z_range.
Qed.

Lemma encode_ascii_error (s : string) (e : exn) :
  encode_ascii s = Raise e -> e = UnicodeEncodeError /\ ascii_only s = false.
Proof.
  induction s as [|c s IH]; cbn [encode_ascii ascii_only]; [discriminate|].
  destruct (nat_of_ascii c <? 128)%nat; [|by intros [= <-]].
  destruct (encode_ascii s) as [bs|e'] eqn:Hs; cbn [Py.bind]; [discriminate|].
  intros [= <-]. by destruct (IH eq_refl) as [-> ->].
Qed.

(** X11 — [calculate_profile_magic] raises only [UnicodeEncodeError], and
    exactly when a character above 127 occurs in the first two
    dot-separated components of the version; such a character after the
    second dot is harmless. *)
Theorem magic_unicode_error (version : string) :
  (calculate_profile_magic version = Raise UnicodeEncodeError <->
   ascii_only (join "." (take 2 (split "."%char version))) = false) /\
  (forall e, calculate_profile_magic version = Raise e -> e = UnicodeEncodeError) /\
  (forall major minor rest : string,
     version = (major ++ "." ++ minor ++ "." ++ rest)%string ->
     free_of "."%char major = true -> free_of "."%char minor = true ->
     ascii_only major = true -> ascii_only minor = true ->
     exists m, calculate_profile_magic version = Ok m).
Proof.
  assert (forall v,
            ascii_only (join "." (take 2 (split "."%char v))) = true ->
            exists m, calculate_profile_magic v = Ok m) as Hok.
  { intros v Hv. unfold calculate_profile_magic.
    destruct (encode_ascii_total _ Hv) as [bs ->]. cbn [Py.bind].
    destruct (int16_hexdigest (hashlib.sha256 bs)) as [n ->].
    { intros Hnil. pose proof (sha256_length bs) as Hlen. by rewrite Hnil in Hlen. }
    cbn [Py.bind]. eauto. }
  assert (forall e, calculate_profile_magic version = Raise e ->
                    e = UnicodeEncodeError /\
                    ascii_only (join "." (take 2 (split "."%char version))) = false) as Herr.
  { intros e. unfold calculate_profile_magic.
    destruct (encode_ascii _) as [bs|e'] eqn:Henc; cbn [Py.bind].
    - destruct (int16_hexdigest (hashlib.sha256 bs)) as [n ->]; [|done].
      intros Hnil. pose proof (sha256_length bs) as Hlen. by rewrite Hnil in Hlen.
    - intros [= <-]. by apply encode_ascii_error in Henc. }
  split; [|split].
  - split; [by intros [_ ?]%Herr|]. intros Hbad.
    destruct (calculate_profile_magic version) as [m|e] eqn:Hm.
    + destruct (ascii_only _) eqn:Hv; [done|].
      unfold calculate_profile_magic in Hm.
      destruct (encode_ascii _) as [bs|e'] eqn:Henc; cbn [Py.bind] in Hm.
      * clear Hm. assert (forall s bs', encode_ascii s = Ok bs' -> ascii_only s = true) as Hsound.
        { induction s as [|c s IH]; cbn [encode_ascii ascii_only]; [done|].
          intros bs'. destruct (nat_of_ascii c <? 128)%nat; [|done].
          destruct (encode_ascii s) as [bs''|]; [|done]. intros _. by rewrite (IH bs''). }
        apply Hsound in Henc. congruence.
      * done.
    + by destruct (Herr e eq_refl) as [-> _].
  - intros e He. by destruct (Herr e He).
  - intros major minor rest -> Hmajor Hminor Hamajor Haminor. apply Hok.
    change (major ++ "." ++ minor ++ "." ++ rest)%string
      with (major ++ String "." (minor ++ String "." rest))%string.
    rewrite (split_at_sep _ major) by done.
    rewrite (split_at_sep _ minor) by done.
    change (join "." (take 2 (major :: minor :: split "."%char rest)))
      with (major ++ "." ++ minor)%string.
    by rewrite !ascii_only_app, Hamajor, Haminor.
Qed.

Lemma NoDup_fmap_inj {A B : Type} (f : A -> B) (l : list A) (x y : A) :
  NoDup (f <$> l) -> x ∈ l -> y ∈ l -> f x = f y -> x = y.
Proof.
  induction l as [|a l IH]; intros Hnodup Hx Hy Hf; [by apply elem_of_nil in Hx|].
  cbn [fmap list_fmap] in Hnodup. apply NoDup_cons in Hnodup as [Hfresh Hnodup].
  apply elem_of_cons in Hx as [->|Hx]; apply elem_of_cons in Hy as [->|Hy].
  - reflexivity.
  - destruct Hfresh. rewrite Hf. by apply list_elem_of_fmap_2.
  - destruct Hfresh. rewrite <- Hf. by apply list_elem_of_fmap_2.
  - by apply IH.
Qed.

Lemma EBPH_LSM_lower_names :
  NoDup ((fun m => lower (enum.name m)) <$> EBPH_LSM) /\
  "empty" ∉ (fun m => lower (enum.name m)) <$> EBPH_LSM.
Proof.
  split.
  - apply (bool_decide_unpack _). by vm_compute.
  - apply (bool_decide_unpack _). by vm_compute.
Qed.

(** X12 — [EBPH_LSM.get_name] answers ['empty'] only for integers that
    are not variant values (no variant is called EMPTY), and it is
    one-to-one on the variant values: two different events never share a
    name. *)
Theorem get_name_distinguishes (a b : Z) :
  (get_name a = Ok "empty" <-> a ∉ map snd EBPH_LSM) /\
  (a ∈ map snd EBPH_LSM -> get_name a = get_name b -> a = b).
Proof.
  destruct EBPH_LSM_lower_names as [Hnames Hempty].
  assert (NoDup (map snd EBPH_LSM)) as Hnodup.
  { rewrite EBPH_LSM_values. apply NoDup_seqZ. }
  assert (forall num, num ∈ map snd EBPH_LSM ->
            exists m, m ∈ EBPH_LSM /\ snd m = num /\
                      get_name num = Ok (lower (enum.name m))) as Hvalid.
  { intros num Hnum. apply list_elem_of_fmap in Hnum as ([name z] & -> & Hm).
    exists (name, z). split; [done|]. split; [done|].
    unfold get_name. by rewrite (call_member _ name z). }
  assert (forall num, num ∉ map snd EBPH_LSM -> get_name num = Ok "empty") as Hout.
  { intros num Hnum. unfold get_name. by rewrite call_absent. }
  split.
  - split; [|apply Hout]. intros Ha Hin.
    destruct (Hvalid a Hin) as (m & Hm & _ & Hget). rewrite Hget in Ha.
    injection Ha as Ha. apply Hempty. rewrite <- Ha.
    by apply (list_elem_of_fmap_2 (fun m => lower (enum.name m))).
  - intros Hin Hab.
    destruct (Hvalid a Hin) as (ma & Hma & <- & Hgeta).
    destruct (decide (b ∈ map snd EBPH_LSM)) as [Hb|Hb].
    + destruct (Hvalid b Hb) as (mb & Hmb & <- & Hgetb).
      rewrite Hgeta, Hgetb in Hab. injection Hab as Hab.
      by rewrite (NoDup_fmap_inj _ _ ma mb Hnames Hma Hmb Hab).
    + rewrite Hgeta, (Hout b Hb) in Hab. injection Hab as Hab.
      destruct Hempty. rewrite <- Hab.
      by apply (list_elem_of_fmap_2 (fun m => lower (enum.name m))).
Qed.

(** X13 — On profile structures [EBPHProfileStruct.__eq__] is an
    equivalence: it always returns a truth value, every structure equals
    itself, the comparison gives the same answer in both directions, and
    it is transitive. *)
Theorem eq_is_equivalence :
  (forall p q, __eq__ p (Profile q) = Ok true \/ __eq__ p (Profile q) = Ok false) /\
  (forall p, __eq__ p (Profile p) = Ok true) /\
  (forall p q, __eq__ p (Profile q) = __eq__ q (Profile p)) /\
  (forall p q r,
     __eq__ p (Profile q) = Ok true -> __eq__ q (Profile r) = Ok true ->
     __eq__ p (Profile r) = Ok true).
Proof.
  split; [|split; [|split]].
  - apply eq_profiles_bool.
  - intros p. apply eq_profiles_iff. repeat split.
  - intros p q.
    destruct (eq_profiles_bool p q) as [Hpq|Hpq], (eq_profiles_bool q p) as [Hqp|Hqp];
      rewrite Hpq, Hqp; try reflexivity; exfalso.
    + apply eq_profiles_iff in Hpq.
      assert (__eq__ q (Profile p) = Ok true) as Htrue; [|congruence].
      apply eq_profiles_iff. decompose [and] Hpq. repeat split; congruence.
    + apply eq_profiles_iff in Hqp.
      assert (__eq__ p (Profile q) = Ok true) as Htrue; [|congruence].
      apply eq_profiles_iff. decompose [and] Hqp. repeat split; congruence.
  - intros p q r Hpq Hqr. apply eq_profiles_iff in Hpq, Hqr. apply eq_profiles_iff.
    decompose [and] Hpq. decompose [and] Hqr. repeat split; congruence.
Qed.

(* ===================================================================== *)
(** ** [print_sequences] *)
(* ===================================================================== *)

Lemma collect_closed (seqlen count : Z) (pairs : list (string * string)) (i : Z)
    (arr : list string) :
  collect seqlen count i pairs arr =
  arr ++ map (fun '(call, name) => (name ++ "(" ++ call ++ ")")%string)
           (take (Z.to_nat (Z.min seqlen count - i)) pairs).
Proof.
  revert i arr. induction pairs as [|[call name] pairs IH]; intros i arr; cbn [collect].
  - by rewrite take_nil, app_nil_r.
  - destruct ((i >=? seqlen) || (i >=? count)) eqn:Hbreak.
    + replace (Z.to_nat (Z.min seqlen count - i)) with 0%nat by lia.
      by rewrite take_0, app_nil_r.
    + rewrite IH.
      replace (Z.to_nat (Z.min seqlen count - i))
        with (S (Z.to_nat (Z.min seqlen count - (i + 1)))) by lia.
      cbn [take map]. by rewrite <- app_assoc.
Qed.

Lemma printed_calls (syscall_name : Z -> string) (n : nat) (calls : list Z) :
  map (fun '(call, name) => (name ++ "(" ++ call ++ ")")%string)
    (take n (zip (map str calls) (map syscall_name calls))) =
  map (fun c => (syscall_name c ++ "(" ++ str c ++ ")")%string) (take n calls).
Proof.
  revert n. induction calls as [|c calls IH]; intros [|n]; cbn; try reflexivity.
  f_equal. apply IH.
Qed.

(** X14 — [print_sequences] prints, for every entry of the map in order,
    the upper 32 bits of its key as PID, its count, and as sequence text
    (the string handed to [textwrap.fill]) the first [min(seqlen, count)]
    recorded calls as [name(number)] joined by [", "] (none when [seqlen]
    or the count is zero or negative, all of them when both exceed the
    number recorded); afterwards the map is empty. *)
Theorem print_sequences_prints_prefix (syscall_name : Z -> string) (seqlen : Z)
    (seq_hash : list (Z * seq_leaf)) :
  print_sequences syscall_name seqlen seq_hash =
  (map (fun '(p, s) =>
          mkReport (p / 2 ^ 32) (seq_count s)
            (join ", "
               (map (fun c => (syscall_name c ++ "(" ++ str c ++ ")")%string)
                  (take (Z.to_nat (Z.min seqlen (seq_count s))) (seq_calls s)))))
     seq_hash,
   []).
Proof.
  unfold print_sequences. f_equal. apply map_ext. intros [p s].
  unfold report. rewrite collect_closed, app_nil_l, Z.sub_0_r, printed_calls.
  by rewrite Z.shiftr_div_pow2 by lia.
Qed.

(* ===================================================================== *)
(** ** [color_log] *)
(* ===================================================================== *)

Lemma string_app_assoc (a b c : string) : ((a ++ b) ++ c = a ++ (b ++ c))%string.
Proof.
  induction a as [|x a IH]; [reflexivity|].
  change (String x ((a ++ b) ++ c) = String x (a ++ (b ++ c)))%string. by rewrite IH.
Qed.

Lemma string_app_nil_r (a : string) : (a ++ "")%string = a.
Proof.
  induction a as [|x a IH]; [reflexivity|].
  change (String x (a ++ "") = String x a)%string. by rewrite IH.
Qed.

Lemma every_app (p : ascii -> bool) (a b : string) :
  re.every p (a ++ b)%string = re.every p a && re.every p b.
Proof.
  induction a as [|x a IH]; [reflexivity|].
  change (re.every p (String x (a ++ b)) = re.every p (String x a) && re.every p b)%string.
  cbn [re.every]. by rewrite IH, andb_assoc.
Qed.

(** What a successful star matched. *)
Lemma star_sound {A : Type} (p : ascii -> bool) (s : string)
    (k : string -> string -> option A) (r : A) :
  re.star p s k = Some r ->
  exists m rest, s = (m ++ rest)%string /\ re.every p m = true /\ k m rest = Some r.
Proof.
  revert k. induction s as [|c s IH]; intros k; cbn [re.star].
  - intros Hk. by exists EmptyString, EmptyString.
  - destruct (p c) eqn:Hc.
    + destruct (re.star p s _) as [r'|] eqn:Hstar.
      * intros [= ->]. apply IH in Hstar as (m & rest & -> & Hm & Hk).
        exists (String c m), rest. cbn [re.every]. by rewrite Hc, Hm.
      * intros Hk. by exists EmptyString, (String c s).
    + intros Hk. by exists EmptyString, (String c s).
Qed.

(** A star succeeds as soon as some split lets the rest of the pattern
    succeed. *)
Lemma star_complete {A : Type} (p : ascii -> bool) (m rest : string)
    (k : string -> string -> option A) :
  re.every p m = true -> is_Some (k m rest) -> is_Some (re.star p (m ++ rest)%string k).
Proof.
  revert k. induction m as [|c m IH]; intros k Hm Hk.
  - change ("" ++ rest)%string with rest.
    destruct rest as [|c rest]; cbn [re.star]; [done|].
    destruct (p c); [|done]. by destruct (re.star p rest _).
  - cbn [re.every] in Hm. apply andb_true_iff in Hm as [Hc Hm].
    change (String c m ++ rest)%string with (String c (m ++ rest))%string.
    cbn [re.star]. rewrite Hc.
    destruct (IH (fun m' rest' => k (String c m') rest') Hm Hk) as [r ->]. by eexists.
Qed.

(** The last star of a pattern takes all it can. *)
Lemma star_last {A : Type} (p : ascii -> bool) (s : string) (f : string -> A) :
  exists m rest,
    s = (m ++ rest)%string /\ re.every p m = true /\
    match rest with EmptyString => True | String c _ => p c = false end /\
    re.star p s (fun m' _ => Some (f m')) = Some (f m).
Proof.
  revert f. induction s as [|c s IH]; intros f; cbn [re.star].
  - by exists EmptyString, EmptyString.
  - destruct (p c) eqn:Hc.
    + destruct (IH (fun m' => f (String c m'))) as (m & rest & -> & Hm & Hrest & ->).
      exists (String c m), rest. cbn [re.every]. by rewrite Hc, Hm.
    + by exists EmptyString, (String c s).
Qed.

Lemma plus_sound {A : Type} (p : ascii -> bool) (s : string)
    (k : string -> string -> option A) (r : A) :
  re.plus p s k = Some r ->
  exists m rest, s = (m ++ rest)%string /\ re.every p m = true /\ m <> EmptyString /\
                 k m rest = Some r.
Proof.
  destruct s as [|c s]; cbn [re.plus]; [discriminate|].
  destruct (p c) eqn:Hc; [|discriminate].
  intros (m & rest & -> & Hm & Hk)%star_sound.
  exists (String c m), rest. cbn [re.every]. by rewrite Hc, Hm.
Qed.

Lemma plus_complete {A : Type} (p : ascii -> bool) (m rest : string)
    (k : string -> string -> option A) :
  re.every p m = true -> m <> EmptyString -> is_Some (k m rest) ->
  is_Some (re.plus p (m ++ rest)%string k).
Proof.
  destruct m as [|c m]; [done|]. intros Hm _ Hk.
  cbn [re.every] in Hm. apply andb_true_iff in Hm as [Hc Hm].
  change (String c m ++ rest)%string with (String c (m ++ rest))%string.
  cbn [re.plus]. rewrite Hc.
  by apply (star_complete p m rest (fun m' rest' => k (String c m') rest')).
Qed.

Lemma bracketed_sound {A : Type} (s : string) (k : string -> string -> option A) (r : A) :
  re.bracketed s k = Some r ->
  exists m rest, s = ("[" ++ m ++ "]" ++ rest)%string /\ re.every re.dot m = true /\
                 k ("[" ++ m ++ "]")%string rest = Some r.
Proof.
  unfold re.bracketed, re.lit. destruct s as [|c s]; [discriminate|].
  destruct (Ascii.eqb_spec c "["%char) as [->|]; [|discriminate].
  intros (m & rest & -> & Hm & Hk)%star_sound.
  destruct rest as [|c rest]; [discriminate|].
  destruct (Ascii.eqb_spec c "]"%char) as [->|]; [|discriminate].
  by exists m, rest.
Qed.

Lemma bracketed_complete {A : Type} (m rest : string) (k : string -> string -> option A) :
  re.every re.dot m = true -> is_Some (k ("[" ++ m ++ "]")%string rest) ->
  is_Some (re.bracketed ("[" ++ m ++ "]" ++ rest)%string k).
Proof.
  intros Hm Hk. unfold re.bracketed.
  change ("[" ++ m ++ "]" ++ rest)%string with (String "[" (m ++ String "]" rest))%string.
  cbn [re.lit]. rewrite Ascii.eqb_refl.
  apply (star_complete re.dot m (String "]" rest)); [done|].
  cbn [re.lit]. by rewrite Ascii.eqb_refl.
Qed.

(** The groups of a match are consecutive pieces of the line, of the
    shapes the pattern asks for, and the last one stops only at a newline
    or at the end of the line. *)
Lemma line_re_match_sound (line g1 g2 g3 g4 : string) :
  line_re_match line = Some (g1, g2, g3, g4) ->
  exists m1 w1 m2 w2 m3 rest,
    g1 = ("[" ++ m1 ++ "]" ++ w1)%string /\
    g2 = ("[" ++ m2 ++ "]" ++ w2)%string /\
    g3 = ("[" ++ m3 ++ "]")%string /\
    line = (g1 ++ g2 ++ g3 ++ g4 ++ rest)%string /\
    re.every re.dot m1 = true /\ re.every re.dot m2 = true /\
    re.every re.dot m3 = true /\ re.every re.dot g4 = true /\
    re.every re.space w1 = true /\ w1 <> EmptyString /\
    re.every re.space w2 = true /\ w2 <> EmptyString /\
    match rest with EmptyString => True | String c _ => c = "010"%char end.
Proof.
  unfold line_re_match.
  intros (m1 & r1 & -> & Hm1 & H)%bracketed_sound.
  apply plus_sound in H as (w1 & r2 & -> & Hw1 & Hn1 & H).
  apply bracketed_sound in H as (m2 & r3 & -> & Hm2 & H).
  apply plus_sound in H as (w2 & r4 & -> & Hw2 & Hn2 & H).
  apply bracketed_sound in H as (m3 & r5 & -> & Hm3 & H).
  destruct (star_last re.dot r5
              (fun g => ((("[" ++ m1 ++ "]") ++ w1)%string,
                         (("[" ++ m2 ++ "]") ++ w2)%string,
                         ("[" ++ m3 ++ "]")%string, g)))
    as (g & rest & -> & Hg & Hrest & Hstar).
  rewrite Hstar in H. injection H as <- <- <- <-.
  exists m1, w1, m2, w2, m3, rest.
  repeat split; try done.
  - by rewrite !string_app_assoc.
  - by rewrite !string_app_assoc.
  - by rewrite !string_app_assoc.
  - destruct rest as [|c rest]; [done|]. unfold re.dot in Hrest.
    apply negb_false_iff in Hrest. by apply Ascii.eqb_eq in Hrest.
Qed.


(** X16 — Every line the formatter produces is accepted by [color_log]:
    with a time, a logger name and a level name free of newlines, and any
    message at all, [EBPHColoredFormatter.format] returns a coloured line
    and never raises [IOError]. *)
Theorem colored_format_accepts (Fore : color -> string) (RESET_ALL : string)
    (record : LogRecord) :
  re.every re.dot (asctime record) = true ->
  re.every re.dot (logger_name record) = true ->
  re.every re.dot (lower (levelname record)) = true ->
  exists out, EBPHColoredFormatter_format Fore RESET_ALL record = Line out.
Proof.
  intros Htime Hname Hlevel.
  unfold EBPHColoredFormatter_format, color_log, EBPHFormatter_format.
  assert (is_Some (line_re_match
                     ("[" ++ asctime record ++ "] [" ++ logger_name record ++ "] ["
                          ++ lower (levelname record) ++ "] " ++ message record)%string))
    as [[[[g1 g2] g3] g4] ->]; [|by eexists].
  unfold line_re_match.
  change ("[" ++ asctime record ++ "] [" ++ logger_name record ++ "] ["
              ++ lower (levelname record) ++ "] " ++ message record)%string
    with ("[" ++ asctime record ++ "]" ++
          (" " ++ ("[" ++ logger_name record ++ "]" ++
          (" " ++ ("[" ++ lower (levelname record) ++ "]" ++
          (" " ++ message record))))))%string.
  apply bracketed_complete; [done|].
  apply (plus_complete re.space " "); [done..|].
  apply bracketed_complete; [done|].
  apply (plus_complete re.space " "); [done..|].
  apply bracketed_complete; [done|].
  destruct (star_last re.dot (" " ++ message record)%string
              (fun g => ((("[" ++ asctime record ++ "]") ++ " ")%string,
                         (("[" ++ logger_name record ++ "]") ++ " ")%string,
                         ("[" ++ lower (levelname record) ++ "]")%string, g)))
    as (g & rest & _ & _ & _ & ->).
  by eexists.
Qed.

Lemma occurrences_app (c : ascii) (a b : string) :
  occurrences c (a ++ b)%string = (occurrences c a + occurrences c b)%nat.
Proof.
  induction a as [|x a IH]; [reflexivity|].
  change (occurrences c (String x (a ++ b)) =
          (occurrences c (String x a) + occurrences c b)%nat)%string.
  cbn [occurrences]. rewrite IH. lia.
Qed.

Lemma occurrences_free (c : ascii) (s : string) :
  occurrences c s = 0%nat <-> free_of c s = true.
Proof.
  induction s as [|x s IH]; cbn [occurrences free_of]; [done|].
  destruct (Ascii.eqb x c); cbn [negb andb]; [split; [lia | discriminate]|].
  by rewrite <- IH.
Qed.

(** A string is cut at the first occurrence of a character in one way. *)
Lemma first_occurrence (c : ascii) (a a' r r' : string) :
  free_of c a = true -> free_of c a' = true ->
  (a ++ String c r)%string = (a' ++ String c r')%string ->
  a = a' /\ r = r'.
Proof.
  revert a'. induction a as [|x a IH]; intros [|x' a'] Ha Ha'.
  - by intros [= ->].
  - change (String c r = String x' (a' ++ String c r')%string -> "" = String x' a' /\ r = r').
    intros [= <- _]. cbn [free_of] in Ha'. by rewrite Ascii.eqb_refl in Ha'.
  - change (String x (a ++ String c r)%string = String c r' -> String x a = "" /\ r = r').
    intros [= -> _]. cbn [free_of] in Ha. by rewrite Ascii.eqb_refl in Ha.
  - change (String x (a ++ String c r)%string = String x' (a' ++ String c r')%string ->
            String x a = String x' a' /\ r = r').
    intros [= <- Heq]. cbn [free_of] in Ha, Ha'.
    apply andb_true_iff in Ha as [_ Ha]. apply andb_true_iff in Ha' as [_ Ha'].
    by destruct (IH a' Ha Ha' Heq) as [<- <-].
Qed.

(** Whitespace in front of an opening bracket, when the text has a single
    space there, is that space. *)
Lemma single_space (w X Y : string) :
  re.every re.space w = true -> w <> EmptyString ->
  (w ++ String "[" X)%string = String " " (String "[" Y) ->
  w = " " /\ X = Y.
Proof.
  destruct w as [|c [|c' w]]; [done|..]; intros Hw _.
  - by intros [= -> ->].
  - change (String c (String c' (w ++ String "[" X)%string) = String " " (String "[" Y) ->
            String c (String c' w) = " " /\ X = Y).
    intros [= -> -> _]. cbn [re.every] in Hw. by vm_compute in Hw.
Qed.

(** X17 — For a record whose time, logger name, level name and message
    contain no closing bracket and no newline, the coloured line is the
    intended one: green time, grey logger name, the level in the colour
    of its category, and the whole message after the reset.  (A closing
    bracket in the message moves the groups: the match is greedy.) *)
Theorem colored_format_of_plain_record (Fore : color -> string) (RESET_ALL : string)
    (record : LogRecord) :
  re.every re.dot (asctime record) = true -> free_of "]"%char (asctime record) = true ->
  re.every re.dot (logger_name record) = true ->
  free_of "]"%char (logger_name record) = true ->
  re.every re.dot (lower (levelname record)) = true ->
  free_of "]"%char (lower (levelname record)) = true ->
  re.every re.dot (message record) = true -> free_of "]"%char (message record) = true ->
  EBPHColoredFormatter_format Fore RESET_ALL record =
  Line (Fore GREEN ++ "[" ++ asctime record ++ "] " ++
        Fore LIGHTBLACK_EX ++ "[" ++ logger_name record ++ "] " ++
        Fore (category_color ("[" ++ lower (levelname record) ++ "]")) ++
        "[" ++ lower (levelname record) ++ "]" ++
        RESET_ALL ++ " " ++ message record)%string.
Proof.
  intros Ht Ht' Hn Hn' Hl Hl' Hmsg Hmsg'.
  set (t := asctime record) in *. set (n := logger_name record) in *.
  set (l := lower (levelname record)) in *. set (msg := message record) in *.
  unfold EBPHColoredFormatter_format, color_log, EBPHFormatter_format.
  fold t n l msg.
  set (line := ("[" ++ t ++ "] [" ++ n ++ "] [" ++ l ++ "] " ++ msg)%string).
  destruct (line_re_match line) as [[[[g1 g2] g3] g4]|] eqn:Hmatch.
  2: { assert (is_Some (line_re_match line)) as [? Hsome]; [|congruence].
       unfold line_re_match, line.
       change ("[" ++ t ++ "] [" ++ n ++ "] [" ++ l ++ "] " ++ msg)%string
         with ("[" ++ t ++ "]" ++ (" " ++ ("[" ++ n ++ "]" ++
               (" " ++ ("[" ++ l ++ "]" ++ (" " ++ msg))))))%string.
       apply bracketed_complete; [done|].
       apply (plus_complete re.space " "); [done..|].
       apply bracketed_complete; [done|].
       apply (plus_complete re.space " "); [done..|].
       apply bracketed_complete; [done|].
       destruct (star_last re.dot (" " ++ msg)%string
                   (fun g => ((("[" ++ t ++ "]") ++ " ")%string,
                              (("[" ++ n ++ "]") ++ " ")%string,
                              ("[" ++ l ++ "]")%string, g)))
         as (g & rest & _ & _ & _ & ->).
       by eexists. }
  destruct (line_re_match_sound _ _ _ _ _ Hmatch)
    as (m1 & w1 & m2 & w2 & m3 & rest & -> & -> & -> & Hline & Hm1 & Hm2 & Hm3 & Hg4 &
        Hw1 & Hw1n & Hw2 & Hw2n & Hrest).
  (* the line has three closing brackets, those that close the groups *)
  assert (occurrences "]" line = 3%nat) as Hcount.
  { unfold line. rewrite !occurrences_app.
    rewrite (proj2 (occurrences_free _ _) Ht'), (proj2 (occurrences_free _ _) Hn'),
      (proj2 (occurrences_free _ _) Hl'), (proj2 (occurrences_free _ _) Hmsg').
    reflexivity. }
  assert (free_of "]" m1 = true /\ free_of "]" m2 = true /\ free_of "]" m3 = true)
    as (Hf1 & Hf2 & Hf3).
  { rewrite Hline in Hcount. rewrite !occurrences_app in Hcount.
    change (occurrences "]" "[") with 0%nat in Hcount.
    change (occurrences "]" "]") with 1%nat in Hcount.
    rewrite <- !occurrences_free. lia. }
  (* cut the line at each closing bracket in turn *)
  assert (("[" ++ m1 ++ "]" ++ w1 ++ "[" ++ m2 ++ "]" ++ w2 ++ "[" ++ m3 ++ "]" ++
           g4 ++ rest)%string = line) as Hcut1.
  { rewrite Hline. by rewrite !string_app_assoc. }
  unfold line in Hcut1.
  change (String "[" (m1 ++ String "]" (w1 ++ String "[" (m2 ++ String "]"
            (w2 ++ String "[" (m3 ++ String "]" (g4 ++ rest)))))) =
          String "[" (t ++ String "]" (String " " (String "[" (n ++ String "]"
            (String " " (String "[" (l ++ String "]" (String " " msg)))))))))%string
    in Hcut1.
  injection Hcut1 as Hcut1.
  apply first_occurrence in Hcut1 as [-> Hcut1]; [|done..].
  apply single_space in Hcut1 as [-> Hcut2]; [|done..].
  apply first_occurrence in Hcut2 as [-> Hcut2]; [|done..].
  apply single_space in Hcut2 as [-> Hcut3]; [|done..].
  apply first_occurrence in Hcut3 as [-> Hcut3]; [|done..].
  (* the message has no newline, so the last group is all of it *)
  assert (rest = EmptyString) as ->.
  { destruct rest as [|c rest]; [done|]. subst c.
    assert (re.every re.dot (g4 ++ String "010" rest)%string = true) as Hall.
    { rewrite Hcut3. change (re.every re.dot (String " " msg) = true).
      cbn [re.every]. by rewrite Hmsg. }
    rewrite every_app in Hall. cbn [re.every] in Hall.
    rewrite andb_true_iff in Hall. by destruct Hall as [_ Hall]. }
  rewrite string_app_nil_r in Hcut3. subst g4.
  unfold color_time, color_logger, color_category. f_equal.
  by rewrite !string_app_assoc.
Qed.

(* ===================================================================== *)
(** ** [command] *)
(* ===================================================================== *)

(** X19 — Whatever function it decorates, [command] registers as
    [argtypes] the annotations of the parameters, in order and without
    the return annotation, and as [restype] the return annotation, or
    [None] when there is none. *)
Theorem command_signature (params : type_hints) (r : ctype) :
  Forall (fun kv => fst kv <> "return") params ->
  command (params ++ [("return", r)]) = mkForeign (map snd params) (Some r) /\
  command params = mkForeign (map snd params) None.
Proof.
  intros Hparams. unfold command. unfold type_hints in *.
  assert (forall tail,
            find (fun kv : string * ctype => String.eqb (fst kv) "return") (params ++ tail) =
            find (fun kv : string * ctype => String.eqb (fst kv) "return") tail) as Hfind.
  { intros tail. induction Hparams as [|kv params Hkv _ IH]; [reflexivity|].
    simpl. apply String.eqb_neq in Hkv. rewrite Hkv. exact IH. }
  assert (filter (fun kv : string * ctype => fst kv <> "return") params = params) as Hfilter.
  { clear Hfind. induction Hparams as [|kv params Hkv _ IH]; [reflexivity|].
    rewrite filter_cons_True by done. by rewrite IH. }
  assert (filter (fun kv : string * ctype => fst kv <> "return") [("return", r)] = [])
    as Hreturn.
  { reflexivity. }
  split.
  - by rewrite filter_app, Hfilter, Hreturn, app_nil_r, Hfind.
  - rewrite Hfilter. rewrite <- (app_nil_r params) at 2. rewrite Hfind. reflexivity.
Qed.

(** ** Examples for the maps, the formatter and the decorator *)
(* ===================================================================== *)

(** Loading a profile under key 43 leaves what [from_bpf] reads under
    key 42 untouched. *)
Lemma load_into_bpf_other_keys_sample :
  uint64 42 <> uint64 (profile_key (set_profile_key 43 sample_profile)) /\
  exists bpf',
    load_into_bpf sample_addressof (set_profile_key 43 sample_profile) header_only_bpf
      = Ok bpf' /\
    from_bpf 4096 "0.6.1" sample_addressof bpf' sample_path 42 =
    from_bpf 4096 "0.6.1" sample_addressof header_only_bpf sample_path 42.
Proof.
  assert (uint64 42 <> uint64 (profile_key (set_profile_key 43 sample_profile))) as Hne
    by (by vm_compute).
  split; [exact Hne|].
  exact (load_into_bpf_other_keys 4096 "0.6.1" sample_addressof
           (set_profile_key 43 sample_profile) header_only_bpf sample_path 42 Hne).
Defined.

(** The profile read from the sample maps is well formed. *)
Lemma from_bpf_well_formed_sample :
  (forall t, training_data sample_bpf !! uint64 42 = Some t ->
             Forall (fun b => 0 <= b < 2 ^ 8) t) /\
  (forall t, testing_data sample_bpf !! uint64 42 = Some t ->
             Forall (fun b => 0 <= b < 2 ^ 8) t) /\
  exists p,
    from_bpf 4096 "0.6.1" sample_addressof sample_bpf sample_path 42 = Ok p /\
    wf_profile 4096 p.
Proof.
  assert (uint64 42 = 42) as Hkey by reflexivity.
  assert (forall t, training_data sample_bpf !! uint64 42 = Some t ->
                    Forall (fun b => 0 <= b < 2 ^ 8) t) as Htrain.
  { intros t. rewrite Hkey. unfold sample_bpf. cbn [training_data].
    rewrite lookup_singleton_eq. intros Ht.
    assert (t = <[3%nat := 1]> zero_flags) as -> by congruence.
    apply Forall_insert; [apply Forall_replicate|]; lia. }
  assert (forall t, testing_data sample_bpf !! uint64 42 = Some t ->
                    Forall (fun b => 0 <= b < 2 ^ 8) t) as Htest.
  { intros t. rewrite Hkey. unfold sample_bpf. cbn [testing_data].
    rewrite lookup_singleton_eq. intros Ht.
    assert (t = <[5%nat := 1]> zero_flags) as -> by congruence.
    apply Forall_insert; [apply Forall_replicate|]; lia. }
  split; [exact Htrain|]. split; [exact Htest|].
  destruct (from_bpf 4096 "0.6.1" sample_addressof sample_bpf sample_path 42)
    as [p|e] eqn:Hp.
  - exists p. split; [reflexivity|].
    exact (from_bpf_well_formed 4096 "0.6.1" sample_addressof sample_bpf sample_path 42 p
             Htrain Htest Hp).
  - vm_compute in Hp. discriminate Hp.
Defined.

(** The sample profile loaded and read back under the path [/bin/sh]
    comes back with that path, and so differs from the profile loaded. *)
Lemma reload_with_other_path :
  wf_profile 4096 sample_profile /\
  calculate_profile_magic "0.6.1" = Ok 16058753303049879161 /\
  (length (c_string other_path) <= 4096)%nat /\
  exists bpf' p',
    load_into_bpf sample_addressof sample_profile empty_bpf = Ok bpf' /\
    from_bpf 4096 "0.6.1" sample_addressof bpf' other_path 42 = Ok p' /\
    magic p' = 16058753303049879161 /\
    exe p' = other_path /\
    train p' = train sample_profile /\
    test p' = test sample_profile /\
    __eq__ p' (Profile sample_profile) = Ok false.
Proof.
  assert (calculate_profile_magic "0.6.1" = Ok 16058753303049879161) as Hm
    by (by vm_compute).
  assert (length (c_string other_path) <= 4096)%nat as Hfit by (vm_compute; lia).
  split; [exact sample_profile_wf|]. split; [exact Hm|]. split; [exact Hfit|].
  destruct (reload_takes_magic_and_exe_from_call 4096 "0.6.1" sample_addressof
              sample_profile empty_bpf other_path _ sample_profile_wf Hm Hfit)
    as (bpf' & p' & Hload & Hfrom & Hmagic & Hexe & _ & _ & _ & _ & _ & _ & _ & _ &
        Htrain & Htest & Heq).
  exists bpf', p'.
  split; [exact Hload|]. split; [exact Hfrom|]. split; [exact Hmagic|].
  split; [exact Hexe|]. split; [exact Htrain|]. split; [exact Htest|].
  rewrite Heq. by vm_compute.
Defined.

(** An exe of 4097 bytes does not fit the 4096-byte field. *)
Lemma from_bpf_value_error_sample :
  calculate_profile_magic "0.6.1" = Ok 16058753303049879161 /\
  (4096 < length (c_string (replicate 4097 x61)))%nat /\
  from_bpf 4096 "0.6.1" sample_addressof sample_bpf (replicate 4097 x61) 42
    = Raise ValueError.
Proof.
  assert (calculate_profile_magic "0.6.1" = Ok 16058753303049879161) as Hm
    by (by vm_compute).
  assert (4096 < length (c_string (replicate 4097 x61)))%nat as Hlong
    by (vm_compute; lia).
  split; [exact Hm|]. split; [exact Hlong|].
  exact (proj2 (from_bpf_value_error 4096 "0.6.1" sample_addressof sample_bpf
                  (replicate 4097 x61) 42 _ Hm) Hlong).
Defined.

(** An exe of exactly 4096 bytes passes the check and reaches the lookup. *)
Example from_bpf_exact_fit :
  from_bpf 4096 "0.6.1" sample_addressof empty_bpf (replicate 4096 x61) 42
    = Raise KeyError.
Proof. by vm_compute. Qed.


(** A line without the three bracketed groups is refused. *)
Example color_log_refuses :
  color_log sample_Fore sample_RESET_ALL "[12:00:00] [ebphd] no category" = IOError.
Proof. by vm_compute. Qed.

(** A level name with a Latin-1 capital is lower-cased as a whole: the
    level [U+00C0 UDIT] is printed as [U+00E0 udit]. *)
Example colored_format_latin1_level :
  EBPHColoredFormatter_format sample_Fore sample_RESET_ALL
    (mkRecord "12:00:00" "ebphd" (String "192" "UDIT") "ok") =
  Line (ansi "32" ++ "[12:00:00] " ++ ansi "90" ++ "[ebphd] " ++
        ansi "39" ++ "[" ++ String "224" "udit" ++ "]" ++ ansi "0" ++ " ok")%string.
Proof. by vm_compute. Qed.

(** The two-line error record is formatted to a coloured line. *)
Lemma colored_format_two_line_record :
  re.every re.dot (asctime two_line_record) = true /\
  re.every re.dot (logger_name two_line_record) = true /\
  re.every re.dot (lower (levelname two_line_record)) = true /\
  exists out, EBPHColoredFormatter_format sample_Fore sample_RESET_ALL two_line_record
              = Line out.
Proof.
  split; [reflexivity|]. split; [reflexivity|]. split; [reflexivity|].
  exact (colored_format_accepts sample_Fore sample_RESET_ALL two_line_record
           eq_refl eq_refl eq_refl).
Defined.

(** The audit record comes out with its level in light yellow. *)
Lemma colored_format_audit_record :
  (re.every re.dot (asctime audit_record) = true /\
   free_of "]"%char (asctime audit_record) = true) /\
  (re.every re.dot (logger_name audit_record) = true /\
   free_of "]"%char (logger_name audit_record) = true) /\
  (re.every re.dot (lower (levelname audit_record)) = true /\
   free_of "]"%char (lower (levelname audit_record)) = true) /\
  (re.every re.dot (message audit_record) = true /\
   free_of "]"%char (message audit_record) = true) /\
  EBPHColoredFormatter_format sample_Fore sample_RESET_ALL audit_record =
  Line (ansi "32" ++ "[2020-07-13 12:00:00.042] " ++ ansi "90" ++ "[ebphd] " ++
        ansi "93" ++ "[audit]" ++ ansi "0" ++ " Anomalous socket_connect in /bin/ls")%string.
Proof.
  split; [split; reflexivity|]. split; [split; reflexivity|].
  split; [split; reflexivity|]. split; [split; reflexivity|].
  rewrite (colored_format_of_plain_record sample_Fore sample_RESET_ALL audit_record
             eq_refl eq_refl eq_refl eq_refl eq_refl eq_refl eq_refl eq_refl).
  reflexivity.
Defined.

(** Brackets in the message move the groups, the match being greedy:
    here the time group takes the logger name too, the level and the
    start of the message are coloured as the logger name, and the
    category is [[8]], in the default colour. *)
Example colored_format_bracket_in_message :
  EBPHColoredFormatter_format sample_Fore sample_RESET_ALL
    (mkRecord "12:00:00" "ebphd" "INFO" "pid [7] [8] left") =
  Line (ansi "32" ++ "[12:00:00] [ebphd] " ++ ansi "90" ++ "[info] pid [7] " ++
        ansi "39" ++ "[8]" ++ ansi "0" ++ " left")%string.
Proof. by vm_compute. Qed.

(** The decorator on [bootstrap_process], and on a function without
    return annotation. *)
Lemma command_signature_bootstrap :
  Forall (fun kv => fst kv <> "return")
    [("profile_key", c_uint64); ("pid", c_uint32); ("tgid", c_uint32);
     ("pathname", c_char_p)] /\
  command [("profile_key", c_uint64); ("pid", c_uint32); ("tgid", c_uint32);
           ("pathname", c_char_p); ("return", c_int)] =
    mkForeign [c_uint64; c_uint32; c_uint32; c_char_p] (Some c_int) /\
  command [("profile_key", c_uint64); ("pid", c_uint32); ("tgid", c_uint32);
           ("pathname", c_char_p)] =
    mkForeign [c_uint64; c_uint32; c_uint32; c_char_p] None.
Proof.
  assert (Forall (fun kv : string * ctype => fst kv <> "return")
            [("profile_key", c_uint64); ("pid", c_uint32); ("tgid", c_uint32);
             ("pathname", c_char_p)]) as Hparams.
  { repeat constructor; discriminate. }
  split; [exact Hparams|].
  exact (command_signature _ c_int Hparams).
Defined.
